(** * Verification of the StockAnalysisKit stock analysis service

    Shallow embedding of [stock_service.py], [persistence.py] and
    [app.py].  Python values are the inductive [pyval]; Python floats are
    the kernel's binary64 floats ([PrimFloat]); raised exceptions are the
    [Raise] branch of the result monad [res]. *)

From stdpp Require Import base list gmap strings sorting.
From Stdlib Require Import ZArith QArith Floats.

Set Warnings "-register-all,-inexact-float".
From Stdlib Require Import Ascii String.

Open Scope Z_scope.

(* ------------------------------------------------------------------ *)
(** ** Python values, exceptions and the result monad *)

Record exn := mk_exn { exn_type : string; exn_msg : string }.

Inductive res (A : Type) : Type :=
| Ok : A -> res A
| Raise : exn -> res A.
Arguments Ok {A} _.
Arguments Raise {A} _.

Definition res_bind {A B} (m : res A) (k : A -> res B) : res B :=
  match m with Ok a => k a | Raise e => Raise e end.

Notation "'let*' x ':=' m 'in' k" := (res_bind m (fun x => k))
  (at level 200, x name, m at level 100, k at level 200).

Inductive pyval :=
| PyNone
| PyBool (b : bool)
| PyInt (z : Z)
| PyFloat (f : float)
| PyStr (s : string).

Definition OverflowError : exn :=
  mk_exn "OverflowError" "int too large to convert to float".
Definition TypeError : exn :=
  mk_exn "TypeError" "float() argument must be a string or a real number".

(** [float(int)]: CPython rounds to nearest-even and raises
    [OverflowError] when the rounded value leaves the binary64 range. *)
Definition int_to_float (z : Z) : res float :=
  match SpecFloat.binary_normalize FloatOps.prec FloatOps.emax z 0 false with
  | SpecFloat.S754_infinity _ => Raise OverflowError
  | sf => Ok (FloatOps.SF2Prim sf)
  end.

(** [math.isnan] converts an [int] argument to [float] first. *)
Definition py_isnan (v : pyval) : res bool :=
  match v with
  | PyInt z => let* f := int_to_float z in Ok (PrimFloat.is_nan f)
  | PyFloat f => Ok (PrimFloat.is_nan f)
  | PyBool _ => Ok false
  | _ => Raise (mk_exn "TypeError" "must be real number")
  end.

(** [_is_number(value)]:
    [isinstance(value, (int, float)) and not isinstance(value, bool)
     and not math.isnan(value)]. *)
Definition _is_number (v : pyval) : res bool :=
  match v with
  | PyInt _ | PyFloat _ => let* n := py_isnan v in Ok (negb n)
  | _ => Ok false
  end.

(** [float(value)] on the values [_is_number] accepts (and on bools). *)
Definition py_float_num (v : pyval) : res float :=
  match v with
  | PyInt z => int_to_float z
  | PyFloat f => Ok f
  | PyBool b => Ok (if b then 1%float else 0%float)
  | _ => Raise TypeError
  end.

(* ------------------------------------------------------------------ *)
(** ** [round(x, 2)] on floats

    CPython's [float.__round__]: NaNs and infinities round to themselves,
    zeros are returned unchanged, and any other [x] is rounded to two
    decimals on its exact binary value (half to even, [_Py_dg_dtoa] mode 3)
    and read back as the nearest double ([_Py_dg_strtod]). *)

(** Nearest integer (half to even) to [num / den], [den > 0]. *)
Definition div_round_half_even (num den : Z) : Z :=
  let q := num / den in
  let r := num mod den in
  match Z.compare (2 * r) den with
  | Lt => q
  | Gt => q + 1
  | Eq => if Z.even q then q else q + 1
  end.

(** [|x| * 10^digits] rounded half to even, for [|x| = m * 2^e]. *)
Definition scaled_mantissa (m : positive) (e : Z) (digits : Z) : Z :=
  let num := Zpos m * 10 ^ digits in
  if 0 <=? e then num * 2 ^ e else div_round_half_even num (2 ^ (- e)).

(** Nearest double (ties to even) to [n / 10^digits], with sign [s]. *)
Definition decimal_to_float (s : bool) (n : Z) (digits : Z) : float :=
  match n with
  | Zpos p =>
      let '(mz, ez, lz) :=
        SpecFloat.SFdiv_core_binary FloatOps.prec FloatOps.emax
          (Zpos p) 0 (10 ^ digits) 0 in
      FloatOps.SF2Prim
        (SpecFloat.binary_round_aux FloatOps.prec FloatOps.emax s mz ez lz)
  | _ => if s then (-0)%float else 0%float
  end.

Definition py_round_digits (x : float) (digits : Z) : float :=
  match FloatOps.Prim2SF x with
  | SpecFloat.S754_finite s m e =>
      decimal_to_float s (scaled_mantissa m e digits) digits
  | _ => x  (* zeros, infinities and NaNs *)
  end.

Definition py_round2 (x : float) : float := py_round_digits x 2.

(* ------------------------------------------------------------------ *)
(** ** Numeric helpers of [stock_service.py] *)

Definition f1e9 : float := 1e9%float.
Definition f100 : float := 100%float.

(** [_to_billions(value)]. *)
Definition _to_billions (v : pyval) : res (option float) :=
  let* ok := _is_number v in
  if negb ok then Ok None else
  let* f := py_float_num v in
  Ok (Some (py_round2 (PrimFloat.div f f1e9))).

(** [_round(value, digits=2)]. *)
Definition _round (v : pyval) : res (option float) :=
  let* ok := _is_number v in
  if negb ok then Ok None else
  let* f := py_float_num v in
  Ok (Some (py_round2 f)).

(** [_pct_change(new, old)]; [or] evaluates left to right and stops at
    the first true operand. *)
Definition _pct_change (new old : pyval) : res (option float) :=
  let* okn := _is_number new in
  if negb okn then Ok None else
  let* oko := _is_number old in
  if negb oko then Ok None else
  let* fo := py_float_num old in
  if PrimFloat.eqb fo 0%float then Ok None else
  let* fn := py_float_num new in
  Ok (Some (py_round2
    (PrimFloat.mul (PrimFloat.sub (PrimFloat.div fn fo) 1%float) f100))).

(** [_to_bounded_pct(numerator, denominator)]: the ratio goes through
    [_round], which turns a NaN ratio into [None]. *)
Definition _to_bounded_pct (num den : pyval) : res (option float) :=
  let* okn := _is_number num in
  if negb okn then Ok None else
  let* okd := _is_number den in
  if negb okd then Ok None else
  let* fd := py_float_num den in
  if PrimFloat.eqb fd 0%float then Ok None else
  let* fn := py_float_num num in
  _round (PyFloat (PrimFloat.mul (PrimFloat.div fn fd) f100)).

(* ------------------------------------------------------------------ *)
(** ** Python string methods on ASCII text

    [str.strip()], [str.upper()] and [str.lower()] for ASCII strings. *)

Definition py_isspace (c : ascii) : bool :=
  let n := nat_of_ascii c in
  ((Nat.leb 9 n) && (Nat.leb n 13)) || ((Nat.leb 28 n) && (Nat.leb n 32)).

Fixpoint drop_spaces (l : list ascii) : list ascii :=
  match l with
  | c :: l' => if py_isspace c then drop_spaces l' else l
  | [] => []
  end.

Definition py_strip (s : string) : string :=
  string_of_list_ascii
    (rev (drop_spaces (rev (drop_spaces (list_ascii_of_string s))))).

Definition is_lower (c : ascii) : bool :=
  let n := nat_of_ascii c in (Nat.leb 97 n) && (Nat.leb n 122).
Definition is_upper (c : ascii) : bool :=
  let n := nat_of_ascii c in (Nat.leb 65 n) && (Nat.leb n 90).
Definition is_digit (c : ascii) : bool :=
  let n := nat_of_ascii c in (Nat.leb 48 n) && (Nat.leb n 57).

Definition upper_char (c : ascii) : ascii :=
  if is_lower c then ascii_of_nat (nat_of_ascii c - 32)%nat else c.
Definition lower_char (c : ascii) : ascii :=
  if is_upper c then ascii_of_nat (nat_of_ascii c + 32)%nat else c.

Definition py_upper (s : string) : string :=
  string_of_list_ascii (map upper_char (list_ascii_of_string s)).
Definition py_lower (s : string) : string :=
  string_of_list_ascii (map lower_char (list_ascii_of_string s)).

(** [str(symbol or "").strip().upper()]. *)
Definition norm_symbol (s : string) : string := py_upper (py_strip s).

(* ------------------------------------------------------------------ *)
(** ** Python string methods on Unicode text

    A Python [str] as the list of its code points.  [str.upper()] maps
    each code point on its own, with the full case mapping ([ß] becomes
    [SS]).  [UPPER_TABLE] lists every code point whose [str.upper()]
    differs from it, with that upper-case text, and [ALPHA_RANGES] the
    ranges of code points [str.isalpha()] accepts (letters: categories
    Lu, Ll, Lt, Lm and Lo), both as CPython 3.11 computes them from the
    Unicode 14.0 database. *)

(** [str.isspace()] on a code point (CPython's [Py_UNICODE_ISSPACE]). *)
Definition py_isspace_cp (c : Z) : bool :=
  ((9 <=? c) && (c <=? 13)) || ((28 <=? c) && (c <=? 32)) || (c =? 133) || (c =? 160) ||
  (c =? 5760) || ((8192 <=? c) && (c <=? 8202)) || (c =? 8232) || (c =? 8233) ||
  (c =? 8239) || (c =? 8287) || (c =? 12288).

(** [str.lstrip()], [str.rstrip()] and [str.strip()]. *)
Fixpoint lstrip_cp (l : list Z) : list Z :=
  match l with
  | c :: l' => if py_isspace_cp c then lstrip_cp l' else l
  | [] => []
  end.

Definition rstrip_cp (l : list Z) : list Z := rev (lstrip_cp (rev l)).

Definition strip_cp (l : list Z) : list Z := rstrip_cp (lstrip_cp l).

(** No whitespace at either end. *)
Definition stripped (l : list Z) : Prop :=
  (forall c t, l = c :: t -> py_isspace_cp c = false) /\
  (forall c t, l = t ++ [c] -> py_isspace_cp c = false).

Definition UPPER_TABLE : list (Z * list Z) :=
  [
   (97, [65]); (98, [66]); (99, [67]); (100, [68]); (101, [69]); (102, [70]);
   (103, [71]); (104, [72]); (105, [73]); (106, [74]); (107, [75]); (108, [76]);
   (109, [77]); (110, [78]); (111, [79]); (112, [80]); (113, [81]); (114, [82]);
   (115, [83]); (116, [84]); (117, [85]); (118, [86]); (119, [87]); (120, [88]);
   (121, [89]); (122, [90]); (181, [924]); (223, [83; 83]); (224, [192]); (225, [193]);
   (226, [194]); (227, [195]); (228, [196]); (229, [197]); (230, [198]); (231, [199]);
   (232, [200]); (233, [201]); (234, [202]); (235, [203]); (236, [204]); (237, [205]);
   (238, [206]); (239, [207]); (240, [208]); (241, [209]); (242, [210]); (243, [211]);
   (244, [212]); (245, [213]); (246, [214]); (248, [216]); (249, [217]); (250, [218]);
   (251, [219]); (252, [220]); (253, [221]); (254, [222]); (255, [376]); (257, [256]);
   (259, [258]); (261, [260]); (263, [262]); (265, [264]); (267, [266]); (269, [268]);
   (271, [270]); (273, [272]); (275, [274]); (277, [276]); (279, [278]); (281, [280]);
   (283, [282]); (285, [284]); (287, [286]); (289, [288]); (291, [290]); (293, [292]);
   (295, [294]); (297, [296]); (299, [298]); (301, [300]); (303, [302]); (305, [73]);
   (307, [306]); (309, [308]); (311, [310]); (314, [313]); (316, [315]); (318, [317]);
   (320, [319]); (322, [321]); (324, [323]); (326, [325]); (328, [327]); (329, [700; 78]);
   (331, [330]); (333, [332]); (335, [334]); (337, [336]); (339, [338]); (341, [340]);
   (343, [342]); (345, [344]); (347, [346]); (349, [348]); (351, [350]); (353, [352]);
   (355, [354]); (357, [356]); (359, [358]); (361, [360]); (363, [362]); (365, [364]);
   (367, [366]); (369, [368]); (371, [370]); (373, [372]); (375, [374]); (378, [377]);
   (380, [379]); (382, [381]); (383, [83]); (384, [579]); (387, [386]); (389, [388]);
   (392, [391]); (396, [395]); (402, [401]); (405, [502]); (409, [408]); (410, [573]);
   (414, [544]); (417, [416]); (419, [418]); (421, [420]); (424, [423]); (429, [428]);
   (432, [431]); (436, [435]); (438, [437]); (441, [440]); (445, [444]); (447, [503]);
   (453, [452]); (454, [452]); (456, [455]); (457, [455]); (459, [458]); (460, [458]);
   (462, [461]); (464, [463]); (466, [465]); (468, [467]); (470, [469]); (472, [471]);
   (474, [473]); (476, [475]); (477, [398]); (479, [478]); (481, [480]); (483, [482]);
   (485, [484]); (487, [486]); (489, [488]); (491, [490]); (493, [492]); (495, [494]);
   (496, [74; 780]); (498, [497]); (499, [497]); (501, [500]); (505, [504]); (507, [506]);
   (509, [508]); (511, [510]); (513, [512]); (515, [514]); (517, [516]); (519, [518]);
   (521, [520]); (523, [522]); (525, [524]); (527, [526]); (529, [528]); (531, [530]);
   (533, [532]); (535, [534]); (537, [536]); (539, [538]); (541, [540]); (543, [542]);
   (547, [546]); (549, [548]); (551, [550]); (553, [552]); (555, [554]); (557, [556]);
   (559, [558]); (561, [560]); (563, [562]); (572, [571]); (575, [11390]); (576, [11391]);
   (578, [577]); (583, [582]); (585, [584]); (587, [586]); (589, [588]); (591, [590]);
   (592, [11375]); (593, [11373]); (594, [11376]); (595, [385]); (596, [390]); (598, [393]);
   (599, [394]); (601, [399]); (603, [400]); (604, [42923]); (608, [403]); (609, [42924]);
   (611, [404]); (613, [42893]); (614, [42922]); (616, [407]); (617, [406]); (618, [42926]);
   (619, [11362]); (620, [42925]); (623, [412]); (625, [11374]); (626, [413]); (629, [415]);
   (637, [11364]); (640, [422]); (642, [42949]); (643, [425]); (647, [42929]); (648, [430]);
   (649, [580]); (650, [433]); (651, [434]); (652, [581]); (658, [439]); (669, [42930]);
   (670, [42928]); (837, [921]); (881, [880]); (883, [882]); (887, [886]); (891, [1021]);
   (892, [1022]); (893, [1023]); (912, [921; 776; 769]); (940, [902]); (941, [904]); (942, [905]);
   (943, [906]); (944, [933; 776; 769]); (945, [913]); (946, [914]); (947, [915]); (948, [916]);
   (949, [917]); (950, [918]); (951, [919]); (952, [920]); (953, [921]); (954, [922]);
   (955, [923]); (956, [924]); (957, [925]); (958, [926]); (959, [927]); (960, [928]);
   (961, [929]); (962, [931]); (963, [931]); (964, [932]); (965, [933]); (966, [934]);
   (967, [935]); (968, [936]); (969, [937]); (970, [938]); (971, [939]); (972, [908]);
   (973, [910]); (974, [911]); (976, [914]); (977, [920]); (981, [934]); (982, [928]);
   (983, [975]); (985, [984]); (987, [986]); (989, [988]); (991, [990]); (993, [992]);
   (995, [994]); (997, [996]); (999, [998]); (1001, [1000]); (1003, [1002]); (1005, [1004]);
   (1007, [1006]); (1008, [922]); (1009, [929]); (1010, [1017]); (1011, [895]); (1013, [917]);
   (1016, [1015]); (1019, [1018]); (1072, [1040]); (1073, [1041]); (1074, [1042]); (1075, [1043]);
   (1076, [1044]); (1077, [1045]); (1078, [1046]); (1079, [1047]); (1080, [1048]); (1081, [1049]);
   (1082, [1050]); (1083, [1051]); (1084, [1052]); (1085, [1053]); (1086, [1054]); (1087, [1055]);
   (1088, [1056]); (1089, [1057]); (1090, [1058]); (1091, [1059]); (1092, [1060]); (1093, [1061]);
   (1094, [1062]); (1095, [1063]); (1096, [1064]); (1097, [1065]); (1098, [1066]); (1099, [1067]);
   (1100, [1068]); (1101, [1069]); (1102, [1070]); (1103, [1071]); (1104, [1024]); (1105, [1025]);
   (1106, [1026]); (1107, [1027]); (1108, [1028]); (1109, [1029]); (1110, [1030]); (1111, [1031]);
   (1112, [1032]); (1113, [1033]); (1114, [1034]); (1115, [1035]); (1116, [1036]); (1117, [1037]);
   (1118, [1038]); (1119, [1039]); (1121, [1120]); (1123, [1122]); (1125, [1124]); (1127, [1126]);
   (1129, [1128]); (1131, [1130]); (1133, [1132]); (1135, [1134]); (1137, [1136]); (1139, [1138]);
   (1141, [1140]); (1143, [1142]); (1145, [1144]); (1147, [1146]); (1149, [1148]); (1151, [1150]);
   (1153, [1152]); (1163, [1162]); (1165, [1164]); (1167, [1166]); (1169, [1168]); (1171, [1170]);
   (1173, [1172]); (1175, [1174]); (1177, [1176]); (1179, [1178]); (1181, [1180]); (1183, [1182]);
   (1185, [1184]); (1187, [1186]); (1189, [1188]); (1191, [1190]); (1193, [1192]); (1195, [1194]);
   (1197, [1196]); (1199, [1198]); (1201, [1200]); (1203, [1202]); (1205, [1204]); (1207, [1206]);
   (1209, [1208]); (1211, [1210]); (1213, [1212]); (1215, [1214]); (1218, [1217]); (1220, [1219]);
   (1222, [1221]); (1224, [1223]); (1226, [1225]); (1228, [1227]); (1230, [1229]); (1231, [1216]);
   (1233, [1232]); (1235, [1234]); (1237, [1236]); (1239, [1238]); (1241, [1240]); (1243, [1242]);
   (1245, [1244]); (1247, [1246]); (1249, [1248]); (1251, [1250]); (1253, [1252]); (1255, [1254]);
   (1257, [1256]); (1259, [1258]); (1261, [1260]); (1263, [1262]); (1265, [1264]); (1267, [1266]);
   (1269, [1268]); (1271, [1270]); (1273, [1272]); (1275, [1274]); (1277, [1276]); (1279, [1278]);
   (1281, [1280]); (1283, [1282]); (1285, [1284]); (1287, [1286]); (1289, [1288]); (1291, [1290]);
   (1293, [1292]); (1295, [1294]); (1297, [1296]); (1299, [1298]); (1301, [1300]); (1303, [1302]);
   (1305, [1304]); (1307, [1306]); (1309, [1308]); (1311, [1310]); (1313, [1312]); (1315, [1314]);
   (1317, [1316]); (1319, [1318]); (1321, [1320]); (1323, [1322]); (1325, [1324]); (1327, [1326]);
   (1377, [1329]); (1378, [1330]); (1379, [1331]); (1380, [1332]); (1381, [1333]); (1382, [1334]);
   (1383, [1335]); (1384, [1336]); (1385, [1337]); (1386, [1338]); (1387, [1339]); (1388, [1340]);
   (1389, [1341]); (1390, [1342]); (1391, [1343]); (1392, [1344]); (1393, [1345]); (1394, [1346]);
   (1395, [1347]); (1396, [1348]); (1397, [1349]); (1398, [1350]); (1399, [1351]); (1400, [1352]);
   (1401, [1353]); (1402, [1354]); (1403, [1355]); (1404, [1356]); (1405, [1357]); (1406, [1358]);
   (1407, [1359]); (1408, [1360]); (1409, [1361]); (1410, [1362]); (1411, [1363]); (1412, [1364]);
   (1413, [1365]); (1414, [1366]); (1415, [1333; 1362]); (4304, [7312]); (4305, [7313]); (4306, [7314]);
   (4307, [7315]); (4308, [7316]); (4309, [7317]); (4310, [7318]); (4311, [7319]); (4312, [7320]);
   (4313, [7321]); (4314, [7322]); (4315, [7323]); (4316, [7324]); (4317, [7325]); (4318, [7326]);
   (4319, [7327]); (4320, [7328]); (4321, [7329]); (4322, [7330]); (4323, [7331]); (4324, [7332]);
   (4325, [7333]); (4326, [7334]); (4327, [7335]); (4328, [7336]); (4329, [7337]); (4330, [7338]);
   (4331, [7339]); (4332, [7340]); (4333, [7341]); (4334, [7342]); (4335, [7343]); (4336, [7344]);
   (4337, [7345]); (4338, [7346]); (4339, [7347]); (4340, [7348]); (4341, [7349]); (4342, [7350]);
   (4343, [7351]); (4344, [7352]); (4345, [7353]); (4346, [7354]); (4349, [7357]); (4350, [7358]);
   (4351, [7359]); (5112, [5104]); (5113, [5105]); (5114, [5106]); (5115, [5107]); (5116, [5108]);
   (5117, [5109]); (7296, [1042]); (7297, [1044]); (7298, [1054]); (7299, [1057]); (7300, [1058]);
   (7301, [1058]); (7302, [1066]); (7303, [1122]); (7304, [42570]); (7545, [42877]); (7549, [11363]);
   (7566, [42950]); (7681, [7680]); (7683, [7682]); (7685, [7684]); (7687, [7686]); (7689, [7688]);
   (7691, [7690]); (7693, [7692]); (7695, [7694]); (7697, [7696]); (7699, [7698]); (7701, [7700]);
   (7703, [7702]); (7705, [7704]); (7707, [7706]); (7709, [7708]); (7711, [7710]); (7713, [7712]);
   (7715, [7714]); (7717, [7716]); (7719, [7718]); (7721, [7720]); (7723, [7722]); (7725, [7724]);
   (7727, [7726]); (7729, [7728]); (7731, [7730]); (7733, [7732]); (7735, [7734]); (7737, [7736]);
   (7739, [7738]); (7741, [7740]); (7743, [7742]); (7745, [7744]); (7747, [7746]); (7749, [7748]);
   (7751, [7750]); (7753, [7752]); (7755, [7754]); (7757, [7756]); (7759, [7758]); (7761, [7760]);
   (7763, [7762]); (7765, [7764]); (7767, [7766]); (7769, [7768]); (7771, [7770]); (7773, [7772]);
   (7775, [7774]); (7777, [7776]); (7779, [7778]); (7781, [7780]); (7783, [7782]); (7785, [7784]);
   (7787, [7786]); (7789, [7788]); (7791, [7790]); (7793, [7792]); (7795, [7794]); (7797, [7796]);
   (7799, [7798]); (7801, [7800]); (7803, [7802]); (7805, [7804]); (7807, [7806]); (7809, [7808]);
   (7811, [7810]); (7813, [7812]); (7815, [7814]); (7817, [7816]); (7819, [7818]); (7821, [7820]);
   (7823, [7822]); (7825, [7824]); (7827, [7826]); (7829, [7828]); (7830, [72; 817]); (7831, [84; 776]);
   (7832, [87; 778]); (7833, [89; 778]); (7834, [65; 702]); (7835, [7776]); (7841, [7840]); (7843, [7842]);
   (7845, [7844]); (7847, [7846]); (7849, [7848]); (7851, [7850]); (7853, [7852]); (7855, [7854]);
   (7857, [7856]); (7859, [7858]); (7861, [7860]); (7863, [7862]); (7865, [7864]); (7867, [7866]);
   (7869, [7868]); (7871, [7870]); (7873, [7872]); (7875, [7874]); (7877, [7876]); (7879, [7878]);
   (7881, [7880]); (7883, [7882]); (7885, [7884]); (7887, [7886]); (7889, [7888]); (7891, [7890]);
   (7893, [7892]); (7895, [7894]); (7897, [7896]); (7899, [7898]); (7901, [7900]); (7903, [7902]);
   (7905, [7904]); (7907, [7906]); (7909, [7908]); (7911, [7910]); (7913, [7912]); (7915, [7914]);
   (7917, [7916]); (7919, [7918]); (7921, [7920]); (7923, [7922]); (7925, [7924]); (7927, [7926]);
   (7929, [7928]); (7931, [7930]); (7933, [7932]); (7935, [7934]); (7936, [7944]); (7937, [7945]);
   (7938, [7946]); (7939, [7947]); (7940, [7948]); (7941, [7949]); (7942, [7950]); (7943, [7951]);
   (7952, [7960]); (7953, [7961]); (7954, [7962]); (7955, [7963]); (7956, [7964]); (7957, [7965]);
   (7968, [7976]); (7969, [7977]); (7970, [7978]); (7971, [7979]); (7972, [7980]); (7973, [7981]);
   (7974, [7982]); (7975, [7983]); (7984, [7992]); (7985, [7993]); (7986, [7994]); (7987, [7995]);
   (7988, [7996]); (7989, [7997]); (7990, [7998]); (7991, [7999]); (8000, [8008]); (8001, [8009]);
   (8002, [8010]); (8003, [8011]); (8004, [8012]); (8005, [8013]); (8016, [933; 787]); (8017, [8025]);
   (8018, [933; 787; 768]); (8019, [8027]); (8020, [933; 787; 769]); (8021, [8029]); (8022, [933; 787; 834]); (8023, [8031]);
   (8032, [8040]); (8033, [8041]); (8034, [8042]); (8035, [8043]); (8036, [8044]); (8037, [8045]);
   (8038, [8046]); (8039, [8047]); (8048, [8122]); (8049, [8123]); (8050, [8136]); (8051, [8137]);
   (8052, [8138]); (8053, [8139]); (8054, [8154]); (8055, [8155]); (8056, [8184]); (8057, [8185]);
   (8058, [8170]); (8059, [8171]); (8060, [8186]); (8061, [8187]); (8064, [7944; 921]); (8065, [7945; 921]);
   (8066, [7946; 921]); (8067, [7947; 921]); (8068, [7948; 921]); (8069, [7949; 921]); (8070, [7950; 921]); (8071, [7951; 921]);
   (8072, [7944; 921]); (8073, [7945; 921]); (8074, [7946; 921]); (8075, [7947; 921]); (8076, [7948; 921]); (8077, [7949; 921]);
   (8078, [7950; 921]); (8079, [7951; 921]); (8080, [7976; 921]); (8081, [7977; 921]); (8082, [7978; 921]); (8083, [7979; 921]);
   (8084, [7980; 921]); (8085, [7981; 921]); (8086, [7982; 921]); (8087, [7983; 921]); (8088, [7976; 921]); (8089, [7977; 921]);
   (8090, [7978; 921]); (8091, [7979; 921]); (8092, [7980; 921]); (8093, [7981; 921]); (8094, [7982; 921]); (8095, [7983; 921]);
   (8096, [8040; 921]); (8097, [8041; 921]); (8098, [8042; 921]); (8099, [8043; 921]); (8100, [8044; 921]); (8101, [8045; 921]);
   (8102, [8046; 921]); (8103, [8047; 921]); (8104, [8040; 921]); (8105, [8041; 921]); (8106, [8042; 921]); (8107, [8043; 921]);
   (8108, [8044; 921]); (8109, [8045; 921]); (8110, [8046; 921]); (8111, [8047; 921]); (8112, [8120]); (8113, [8121]);
   (8114, [8122; 921]); (8115, [913; 921]); (8116, [902; 921]); (8118, [913; 834]); (8119, [913; 834; 921]); (8124, [913; 921]);
   (8126, [921]); (8130, [8138; 921]); (8131, [919; 921]); (8132, [905; 921]); (8134, [919; 834]); (8135, [919; 834; 921]);
   (8140, [919; 921]); (8144, [8152]); (8145, [8153]); (8146, [921; 776; 768]); (8147, [921; 776; 769]); (8150, [921; 834]);
   (8151, [921; 776; 834]); (8160, [8168]); (8161, [8169]); (8162, [933; 776; 768]); (8163, [933; 776; 769]); (8164, [929; 787]);
   (8165, [8172]); (8166, [933; 834]); (8167, [933; 776; 834]); (8178, [8186; 921]); (8179, [937; 921]); (8180, [911; 921]);
   (8182, [937; 834]); (8183, [937; 834; 921]); (8188, [937; 921]); (8526, [8498]); (8560, [8544]); (8561, [8545]);
   (8562, [8546]); (8563, [8547]); (8564, [8548]); (8565, [8549]); (8566, [8550]); (8567, [8551]);
   (8568, [8552]); (8569, [8553]); (8570, [8554]); (8571, [8555]); (8572, [8556]); (8573, [8557]);
   (8574, [8558]); (8575, [8559]); (8580, [8579]); (9424, [9398]); (9425, [9399]); (9426, [9400]);
   (9427, [9401]); (9428, [9402]); (9429, [9403]); (9430, [9404]); (9431, [9405]); (9432, [9406]);
   (9433, [9407]); (9434, [9408]); (9435, [9409]); (9436, [9410]); (9437, [9411]); (9438, [9412]);
   (9439, [9413]); (9440, [9414]); (9441, [9415]); (9442, [9416]); (9443, [9417]); (9444, [9418]);
   (9445, [9419]); (9446, [9420]); (9447, [9421]); (9448, [9422]); (9449, [9423]); (11312, [11264]);
   (11313, [11265]); (11314, [11266]); (11315, [11267]); (11316, [11268]); (11317, [11269]); (11318, [11270]);
   (11319, [11271]); (11320, [11272]); (11321, [11273]); (11322, [11274]); (11323, [11275]); (11324, [11276]);
   (11325, [11277]); (11326, [11278]); (11327, [11279]); (11328, [11280]); (11329, [11281]); (11330, [11282]);
   (11331, [11283]); (11332, [11284]); (11333, [11285]); (11334, [11286]); (11335, [11287]); (11336, [11288]);
   (11337, [11289]); (11338, [11290]); (11339, [11291]); (11340, [11292]); (11341, [11293]); (11342, [11294]);
   (11343, [11295]); (11344, [11296]); (11345, [11297]); (11346, [11298]); (11347, [11299]); (11348, [11300]);
   (11349, [11301]); (11350, [11302]); (11351, [11303]); (11352, [11304]); (11353, [11305]); (11354, [11306]);
   (11355, [11307]); (11356, [11308]); (11357, [11309]); (11358, [11310]); (11359, [11311]); (11361, [11360]);
   (11365, [570]); (11366, [574]); (11368, [11367]); (11370, [11369]); (11372, [11371]); (11379, [11378]);
   (11382, [11381]); (11393, [11392]); (11395, [11394]); (11397, [11396]); (11399, [11398]); (11401, [11400]);
   (11403, [11402]); (11405, [11404]); (11407, [11406]); (11409, [11408]); (11411, [11410]); (11413, [11412]);
   (11415, [11414]); (11417, [11416]); (11419, [11418]); (11421, [11420]); (11423, [11422]); (11425, [11424]);
   (11427, [11426]); (11429, [11428]); (11431, [11430]); (11433, [11432]); (11435, [11434]); (11437, [11436]);
   (11439, [11438]); (11441, [11440]); (11443, [11442]); (11445, [11444]); (11447, [11446]); (11449, [11448]);
   (11451, [11450]); (11453, [11452]); (11455, [11454]); (11457, [11456]); (11459, [11458]); (11461, [11460]);
   (11463, [11462]); (11465, [11464]); (11467, [11466]); (11469, [11468]); (11471, [11470]); (11473, [11472]);
   (11475, [11474]); (11477, [11476]); (11479, [11478]); (11481, [11480]); (11483, [11482]); (11485, [11484]);
   (11487, [11486]); (11489, [11488]); (11491, [11490]); (11500, [11499]); (11502, [11501]); (11507, [11506]);
   (11520, [4256]); (11521, [4257]); (11522, [4258]); (11523, [4259]); (11524, [4260]); (11525, [4261]);
   (11526, [4262]); (11527, [4263]); (11528, [4264]); (11529, [4265]); (11530, [4266]); (11531, [4267]);
   (11532, [4268]); (11533, [4269]); (11534, [4270]); (11535, [4271]); (11536, [4272]); (11537, [4273]);
   (11538, [4274]); (11539, [4275]); (11540, [4276]); (11541, [4277]); (11542, [4278]); (11543, [4279]);
   (11544, [4280]); (11545, [4281]); (11546, [4282]); (11547, [4283]); (11548, [4284]); (11549, [4285]);
   (11550, [4286]); (11551, [4287]); (11552, [4288]); (11553, [4289]); (11554, [4290]); (11555, [4291]);
   (11556, [4292]); (11557, [4293]); (11559, [4295]); (11565, [4301]); (42561, [42560]); (42563, [42562]);
   (42565, [42564]); (42567, [42566]); (42569, [42568]); (42571, [42570]); (42573, [42572]); (42575, [42574]);
   (42577, [42576]); (42579, [42578]); (42581, [42580]); (42583, [42582]); (42585, [42584]); (42587, [42586]);
   (42589, [42588]); (42591, [42590]); (42593, [42592]); (42595, [42594]); (42597, [42596]); (42599, [42598]);
   (42601, [42600]); (42603, [42602]); (42605, [42604]); (42625, [42624]); (42627, [42626]); (42629, [42628]);
   (42631, [42630]); (42633, [42632]); (42635, [42634]); (42637, [42636]); (42639, [42638]); (42641, [42640]);
   (42643, [42642]); (42645, [42644]); (42647, [42646]); (42649, [42648]); (42651, [42650]); (42787, [42786]);
   (42789, [42788]); (42791, [42790]); (42793, [42792]); (42795, [42794]); (42797, [42796]); (42799, [42798]);
   (42803, [42802]); (42805, [42804]); (42807, [42806]); (42809, [42808]); (42811, [42810]); (42813, [42812]);
   (42815, [42814]); (42817, [42816]); (42819, [42818]); (42821, [42820]); (42823, [42822]); (42825, [42824]);
   (42827, [42826]); (42829, [42828]); (42831, [42830]); (42833, [42832]); (42835, [42834]); (42837, [42836]);
   (42839, [42838]); (42841, [42840]); (42843, [42842]); (42845, [42844]); (42847, [42846]); (42849, [42848]);
   (42851, [42850]); (42853, [42852]); (42855, [42854]); (42857, [42856]); (42859, [42858]); (42861, [42860]);
   (42863, [42862]); (42874, [42873]); (42876, [42875]); (42879, [42878]); (42881, [42880]); (42883, [42882]);
   (42885, [42884]); (42887, [42886]); (42892, [42891]); (42897, [42896]); (42899, [42898]); (42900, [42948]);
   (42903, [42902]); (42905, [42904]); (42907, [42906]); (42909, [42908]); (42911, [42910]); (42913, [42912]);
   (42915, [42914]); (42917, [42916]); (42919, [42918]); (42921, [42920]); (42933, [42932]); (42935, [42934]);
   (42937, [42936]); (42939, [42938]); (42941, [42940]); (42943, [42942]); (42945, [42944]); (42947, [42946]);
   (42952, [42951]); (42954, [42953]); (42961, [42960]); (42967, [42966]); (42969, [42968]); (42998, [42997]);
   (43859, [42931]); (43888, [5024]); (43889, [5025]); (43890, [5026]); (43891, [5027]); (43892, [5028]);
   (43893, [5029]); (43894, [5030]); (43895, [5031]); (43896, [5032]); (43897, [5033]); (43898, [5034]);
   (43899, [5035]); (43900, [5036]); (43901, [5037]); (43902, [5038]); (43903, [5039]); (43904, [5040]);
   (43905, [5041]); (43906, [5042]); (43907, [5043]); (43908, [5044]); (43909, [5045]); (43910, [5046]);
   (43911, [5047]); (43912, [5048]); (43913, [5049]); (43914, [5050]); (43915, [5051]); (43916, [5052]);
   (43917, [5053]); (43918, [5054]); (43919, [5055]); (43920, [5056]); (43921, [5057]); (43922, [5058]);
   (43923, [5059]); (43924, [5060]); (43925, [5061]); (43926, [5062]); (43927, [5063]); (43928, [5064]);
   (43929, [5065]); (43930, [5066]); (43931, [5067]); (43932, [5068]); (43933, [5069]); (43934, [5070]);
   (43935, [5071]); (43936, [5072]); (43937, [5073]); (43938, [5074]); (43939, [5075]); (43940, [5076]);
   (43941, [5077]); (43942, [5078]); (43943, [5079]); (43944, [5080]); (43945, [5081]); (43946, [5082]);
   (43947, [5083]); (43948, [5084]); (43949, [5085]); (43950, [5086]); (43951, [5087]); (43952, [5088]);
   (43953, [5089]); (43954, [5090]); (43955, [5091]); (43956, [5092]); (43957, [5093]); (43958, [5094]);
   (43959, [5095]); (43960, [5096]); (43961, [5097]); (43962, [5098]); (43963, [5099]); (43964, [5100]);
   (43965, [5101]); (43966, [5102]); (43967, [5103]); (64256, [70; 70]); (64257, [70; 73]); (64258, [70; 76]);
   (64259, [70; 70; 73]); (64260, [70; 70; 76]); (64261, [83; 84]); (64262, [83; 84]); (64275, [1348; 1350]); (64276, [1348; 1333]);
   (64277, [1348; 1339]); (64278, [1358; 1350]); (64279, [1348; 1341]); (65345, [65313]); (65346, [65314]); (65347, [65315]);
   (65348, [65316]); (65349, [65317]); (65350, [65318]); (65351, [65319]); (65352, [65320]); (65353, [65321]);
   (65354, [65322]); (65355, [65323]); (65356, [65324]); (65357, [65325]); (65358, [65326]); (65359, [65327]);
   (65360, [65328]); (65361, [65329]); (65362, [65330]); (65363, [65331]); (65364, [65332]); (65365, [65333]);
   (65366, [65334]); (65367, [65335]); (65368, [65336]); (65369, [65337]); (65370, [65338]); (66600, [66560]);
   (66601, [66561]); (66602, [66562]); (66603, [66563]); (66604, [66564]); (66605, [66565]); (66606, [66566]);
   (66607, [66567]); (66608, [66568]); (66609, [66569]); (66610, [66570]); (66611, [66571]); (66612, [66572]);
   (66613, [66573]); (66614, [66574]); (66615, [66575]); (66616, [66576]); (66617, [66577]); (66618, [66578]);
   (66619, [66579]); (66620, [66580]); (66621, [66581]); (66622, [66582]); (66623, [66583]); (66624, [66584]);
   (66625, [66585]); (66626, [66586]); (66627, [66587]); (66628, [66588]); (66629, [66589]); (66630, [66590]);
   (66631, [66591]); (66632, [66592]); (66633, [66593]); (66634, [66594]); (66635, [66595]); (66636, [66596]);
   (66637, [66597]); (66638, [66598]); (66639, [66599]); (66776, [66736]); (66777, [66737]); (66778, [66738]);
   (66779, [66739]); (66780, [66740]); (66781, [66741]); (66782, [66742]); (66783, [66743]); (66784, [66744]);
   (66785, [66745]); (66786, [66746]); (66787, [66747]); (66788, [66748]); (66789, [66749]); (66790, [66750]);
   (66791, [66751]); (66792, [66752]); (66793, [66753]); (66794, [66754]); (66795, [66755]); (66796, [66756]);
   (66797, [66757]); (66798, [66758]); (66799, [66759]); (66800, [66760]); (66801, [66761]); (66802, [66762]);
   (66803, [66763]); (66804, [66764]); (66805, [66765]); (66806, [66766]); (66807, [66767]); (66808, [66768]);
   (66809, [66769]); (66810, [66770]); (66811, [66771]); (66967, [66928]); (66968, [66929]); (66969, [66930]);
   (66970, [66931]); (66971, [66932]); (66972, [66933]); (66973, [66934]); (66974, [66935]); (66975, [66936]);
   (66976, [66937]); (66977, [66938]); (66979, [66940]); (66980, [66941]); (66981, [66942]); (66982, [66943]);
   (66983, [66944]); (66984, [66945]); (66985, [66946]); (66986, [66947]); (66987, [66948]); (66988, [66949]);
   (66989, [66950]); (66990, [66951]); (66991, [66952]); (66992, [66953]); (66993, [66954]); (66995, [66956]);
   (66996, [66957]); (66997, [66958]); (66998, [66959]); (66999, [66960]); (67000, [66961]); (67001, [66962]);
   (67003, [66964]); (67004, [66965]); (68800, [68736]); (68801, [68737]); (68802, [68738]); (68803, [68739]);
   (68804, [68740]); (68805, [68741]); (68806, [68742]); (68807, [68743]); (68808, [68744]); (68809, [68745]);
   (68810, [68746]); (68811, [68747]); (68812, [68748]); (68813, [68749]); (68814, [68750]); (68815, [68751]);
   (68816, [68752]); (68817, [68753]); (68818, [68754]); (68819, [68755]); (68820, [68756]); (68821, [68757]);
   (68822, [68758]); (68823, [68759]); (68824, [68760]); (68825, [68761]); (68826, [68762]); (68827, [68763]);
   (68828, [68764]); (68829, [68765]); (68830, [68766]); (68831, [68767]); (68832, [68768]); (68833, [68769]);
   (68834, [68770]); (68835, [68771]); (68836, [68772]); (68837, [68773]); (68838, [68774]); (68839, [68775]);
   (68840, [68776]); (68841, [68777]); (68842, [68778]); (68843, [68779]); (68844, [68780]); (68845, [68781]);
   (68846, [68782]); (68847, [68783]); (68848, [68784]); (68849, [68785]); (68850, [68786]); (71872, [71840]);
   (71873, [71841]); (71874, [71842]); (71875, [71843]); (71876, [71844]); (71877, [71845]); (71878, [71846]);
   (71879, [71847]); (71880, [71848]); (71881, [71849]); (71882, [71850]); (71883, [71851]); (71884, [71852]);
   (71885, [71853]); (71886, [71854]); (71887, [71855]); (71888, [71856]); (71889, [71857]); (71890, [71858]);
   (71891, [71859]); (71892, [71860]); (71893, [71861]); (71894, [71862]); (71895, [71863]); (71896, [71864]);
   (71897, [71865]); (71898, [71866]); (71899, [71867]); (71900, [71868]); (71901, [71869]); (71902, [71870]);
   (71903, [71871]); (93792, [93760]); (93793, [93761]); (93794, [93762]); (93795, [93763]); (93796, [93764]);
   (93797, [93765]); (93798, [93766]); (93799, [93767]); (93800, [93768]); (93801, [93769]); (93802, [93770]);
   (93803, [93771]); (93804, [93772]); (93805, [93773]); (93806, [93774]); (93807, [93775]); (93808, [93776]);
   (93809, [93777]); (93810, [93778]); (93811, [93779]); (93812, [93780]); (93813, [93781]); (93814, [93782]);
   (93815, [93783]); (93816, [93784]); (93817, [93785]); (93818, [93786]); (93819, [93787]); (93820, [93788]);
   (93821, [93789]); (93822, [93790]); (93823, [93791]); (125218, [125184]); (125219, [125185]); (125220, [125186]);
   (125221, [125187]); (125222, [125188]); (125223, [125189]); (125224, [125190]); (125225, [125191]); (125226, [125192]);
   (125227, [125193]); (125228, [125194]); (125229, [125195]); (125230, [125196]); (125231, [125197]); (125232, [125198]);
   (125233, [125199]); (125234, [125200]); (125235, [125201]); (125236, [125202]); (125237, [125203]); (125238, [125204]);
   (125239, [125205]); (125240, [125206]); (125241, [125207]); (125242, [125208]); (125243, [125209]); (125244, [125210]);
   (125245, [125211]); (125246, [125212]); (125247, [125213]); (125248, [125214]); (125249, [125215]); (125250, [125216]);
   (125251, [125217])].

(** The entry of [c] in an upper-case table. *)
Fixpoint upper_lookup (c : Z) (t : list (Z * list Z)) : option (list Z) :=
  match t with
  | [] => None
  | (k, u) :: t' => if Z.eqb c k then Some u else upper_lookup c t'
  end.

(** [ch.upper()] of one code point. *)
Definition upper_cp (c : Z) : list Z :=
  match upper_lookup c UPPER_TABLE with
  | Some u => u
  | None => [c]
  end.

(** [str.upper()]. *)
Definition py_upper_cp (s : list Z) : list Z := flat_map upper_cp s.

(** A table entry that upper-cases neither from nor into whitespace or a
    comma, is non-empty, and whose output is already upper-case. *)
Definition upper_entry_ok (e : Z * list Z) : bool :=
  negb (py_isspace_cp (fst e)) && negb (Z.eqb (fst e) 44) &&
  negb (bool_decide (snd e = [])) &&
  forallb (fun d => negb (py_isspace_cp d) && negb (Z.eqb d 44) &&
                    bool_decide (upper_cp d = [d])) (snd e).

Definition ALPHA_RANGES : list (Z * Z) :=
  [
   (65, 90); (97, 122); (170, 170); (181, 181); (186, 186); (192, 214);
   (216, 246); (248, 705); (710, 721); (736, 740); (748, 748); (750, 750);
   (880, 884); (886, 887); (890, 893); (895, 895); (902, 902); (904, 906);
   (908, 908); (910, 929); (931, 1013); (1015, 1153); (1162, 1327); (1329, 1366);
   (1369, 1369); (1376, 1416); (1488, 1514); (1519, 1522); (1568, 1610); (1646, 1647);
   (1649, 1747); (1749, 1749); (1765, 1766); (1774, 1775); (1786, 1788); (1791, 1791);
   (1808, 1808); (1810, 1839); (1869, 1957); (1969, 1969); (1994, 2026); (2036, 2037);
   (2042, 2042); (2048, 2069); (2074, 2074); (2084, 2084); (2088, 2088); (2112, 2136);
   (2144, 2154); (2160, 2183); (2185, 2190); (2208, 2249); (2308, 2361); (2365, 2365);
   (2384, 2384); (2392, 2401); (2417, 2432); (2437, 2444); (2447, 2448); (2451, 2472);
   (2474, 2480); (2482, 2482); (2486, 2489); (2493, 2493); (2510, 2510); (2524, 2525);
   (2527, 2529); (2544, 2545); (2556, 2556); (2565, 2570); (2575, 2576); (2579, 2600);
   (2602, 2608); (2610, 2611); (2613, 2614); (2616, 2617); (2649, 2652); (2654, 2654);
   (2674, 2676); (2693, 2701); (2703, 2705); (2707, 2728); (2730, 2736); (2738, 2739);
   (2741, 2745); (2749, 2749); (2768, 2768); (2784, 2785); (2809, 2809); (2821, 2828);
   (2831, 2832); (2835, 2856); (2858, 2864); (2866, 2867); (2869, 2873); (2877, 2877);
   (2908, 2909); (2911, 2913); (2929, 2929); (2947, 2947); (2949, 2954); (2958, 2960);
   (2962, 2965); (2969, 2970); (2972, 2972); (2974, 2975); (2979, 2980); (2984, 2986);
   (2990, 3001); (3024, 3024); (3077, 3084); (3086, 3088); (3090, 3112); (3114, 3129);
   (3133, 3133); (3160, 3162); (3165, 3165); (3168, 3169); (3200, 3200); (3205, 3212);
   (3214, 3216); (3218, 3240); (3242, 3251); (3253, 3257); (3261, 3261); (3293, 3294);
   (3296, 3297); (3313, 3314); (3332, 3340); (3342, 3344); (3346, 3386); (3389, 3389);
   (3406, 3406); (3412, 3414); (3423, 3425); (3450, 3455); (3461, 3478); (3482, 3505);
   (3507, 3515); (3517, 3517); (3520, 3526); (3585, 3632); (3634, 3635); (3648, 3654);
   (3713, 3714); (3716, 3716); (3718, 3722); (3724, 3747); (3749, 3749); (3751, 3760);
   (3762, 3763); (3773, 3773); (3776, 3780); (3782, 3782); (3804, 3807); (3840, 3840);
   (3904, 3911); (3913, 3948); (3976, 3980); (4096, 4138); (4159, 4159); (4176, 4181);
   (4186, 4189); (4193, 4193); (4197, 4198); (4206, 4208); (4213, 4225); (4238, 4238);
   (4256, 4293); (4295, 4295); (4301, 4301); (4304, 4346); (4348, 4680); (4682, 4685);
   (4688, 4694); (4696, 4696); (4698, 4701); (4704, 4744); (4746, 4749); (4752, 4784);
   (4786, 4789); (4792, 4798); (4800, 4800); (4802, 4805); (4808, 4822); (4824, 4880);
   (4882, 4885); (4888, 4954); (4992, 5007); (5024, 5109); (5112, 5117); (5121, 5740);
   (5743, 5759); (5761, 5786); (5792, 5866); (5873, 5880); (5888, 5905); (5919, 5937);
   (5952, 5969); (5984, 5996); (5998, 6000); (6016, 6067); (6103, 6103); (6108, 6108);
   (6176, 6264); (6272, 6276); (6279, 6312); (6314, 6314); (6320, 6389); (6400, 6430);
   (6480, 6509); (6512, 6516); (6528, 6571); (6576, 6601); (6656, 6678); (6688, 6740);
   (6823, 6823); (6917, 6963); (6981, 6988); (7043, 7072); (7086, 7087); (7098, 7141);
   (7168, 7203); (7245, 7247); (7258, 7293); (7296, 7304); (7312, 7354); (7357, 7359);
   (7401, 7404); (7406, 7411); (7413, 7414); (7418, 7418); (7424, 7615); (7680, 7957);
   (7960, 7965); (7968, 8005); (8008, 8013); (8016, 8023); (8025, 8025); (8027, 8027);
   (8029, 8029); (8031, 8061); (8064, 8116); (8118, 8124); (8126, 8126); (8130, 8132);
   (8134, 8140); (8144, 8147); (8150, 8155); (8160, 8172); (8178, 8180); (8182, 8188);
   (8305, 8305); (8319, 8319); (8336, 8348); (8450, 8450); (8455, 8455); (8458, 8467);
   (8469, 8469); (8473, 8477); (8484, 8484); (8486, 8486); (8488, 8488); (8490, 8493);
   (8495, 8505); (8508, 8511); (8517, 8521); (8526, 8526); (8579, 8580); (11264, 11492);
   (11499, 11502); (11506, 11507); (11520, 11557); (11559, 11559); (11565, 11565); (11568, 11623);
   (11631, 11631); (11648, 11670); (11680, 11686); (11688, 11694); (11696, 11702); (11704, 11710);
   (11712, 11718); (11720, 11726); (11728, 11734); (11736, 11742); (11823, 11823); (12293, 12294);
   (12337, 12341); (12347, 12348); (12353, 12438); (12445, 12447); (12449, 12538); (12540, 12543);
   (12549, 12591); (12593, 12686); (12704, 12735); (12784, 12799); (13312, 19903); (19968, 42124);
   (42192, 42237); (42240, 42508); (42512, 42527); (42538, 42539); (42560, 42606); (42623, 42653);
   (42656, 42725); (42775, 42783); (42786, 42888); (42891, 42954); (42960, 42961); (42963, 42963);
   (42965, 42969); (42994, 43009); (43011, 43013); (43015, 43018); (43020, 43042); (43072, 43123);
   (43138, 43187); (43250, 43255); (43259, 43259); (43261, 43262); (43274, 43301); (43312, 43334);
   (43360, 43388); (43396, 43442); (43471, 43471); (43488, 43492); (43494, 43503); (43514, 43518);
   (43520, 43560); (43584, 43586); (43588, 43595); (43616, 43638); (43642, 43642); (43646, 43695);
   (43697, 43697); (43701, 43702); (43705, 43709); (43712, 43712); (43714, 43714); (43739, 43741);
   (43744, 43754); (43762, 43764); (43777, 43782); (43785, 43790); (43793, 43798); (43808, 43814);
   (43816, 43822); (43824, 43866); (43868, 43881); (43888, 44002); (44032, 55203); (55216, 55238);
   (55243, 55291); (63744, 64109); (64112, 64217); (64256, 64262); (64275, 64279); (64285, 64285);
   (64287, 64296); (64298, 64310); (64312, 64316); (64318, 64318); (64320, 64321); (64323, 64324);
   (64326, 64433); (64467, 64829); (64848, 64911); (64914, 64967); (65008, 65019); (65136, 65140);
   (65142, 65276); (65313, 65338); (65345, 65370); (65382, 65470); (65474, 65479); (65482, 65487);
   (65490, 65495); (65498, 65500); (65536, 65547); (65549, 65574); (65576, 65594); (65596, 65597);
   (65599, 65613); (65616, 65629); (65664, 65786); (66176, 66204); (66208, 66256); (66304, 66335);
   (66349, 66368); (66370, 66377); (66384, 66421); (66432, 66461); (66464, 66499); (66504, 66511);
   (66560, 66717); (66736, 66771); (66776, 66811); (66816, 66855); (66864, 66915); (66928, 66938);
   (66940, 66954); (66956, 66962); (66964, 66965); (66967, 66977); (66979, 66993); (66995, 67001);
   (67003, 67004); (67072, 67382); (67392, 67413); (67424, 67431); (67456, 67461); (67463, 67504);
   (67506, 67514); (67584, 67589); (67592, 67592); (67594, 67637); (67639, 67640); (67644, 67644);
   (67647, 67669); (67680, 67702); (67712, 67742); (67808, 67826); (67828, 67829); (67840, 67861);
   (67872, 67897); (67968, 68023); (68030, 68031); (68096, 68096); (68112, 68115); (68117, 68119);
   (68121, 68149); (68192, 68220); (68224, 68252); (68288, 68295); (68297, 68324); (68352, 68405);
   (68416, 68437); (68448, 68466); (68480, 68497); (68608, 68680); (68736, 68786); (68800, 68850);
   (68864, 68899); (69248, 69289); (69296, 69297); (69376, 69404); (69415, 69415); (69424, 69445);
   (69488, 69505); (69552, 69572); (69600, 69622); (69635, 69687); (69745, 69746); (69749, 69749);
   (69763, 69807); (69840, 69864); (69891, 69926); (69956, 69956); (69959, 69959); (69968, 70002);
   (70006, 70006); (70019, 70066); (70081, 70084); (70106, 70106); (70108, 70108); (70144, 70161);
   (70163, 70187); (70272, 70278); (70280, 70280); (70282, 70285); (70287, 70301); (70303, 70312);
   (70320, 70366); (70405, 70412); (70415, 70416); (70419, 70440); (70442, 70448); (70450, 70451);
   (70453, 70457); (70461, 70461); (70480, 70480); (70493, 70497); (70656, 70708); (70727, 70730);
   (70751, 70753); (70784, 70831); (70852, 70853); (70855, 70855); (71040, 71086); (71128, 71131);
   (71168, 71215); (71236, 71236); (71296, 71338); (71352, 71352); (71424, 71450); (71488, 71494);
   (71680, 71723); (71840, 71903); (71935, 71942); (71945, 71945); (71948, 71955); (71957, 71958);
   (71960, 71983); (71999, 71999); (72001, 72001); (72096, 72103); (72106, 72144); (72161, 72161);
   (72163, 72163); (72192, 72192); (72203, 72242); (72250, 72250); (72272, 72272); (72284, 72329);
   (72349, 72349); (72368, 72440); (72704, 72712); (72714, 72750); (72768, 72768); (72818, 72847);
   (72960, 72966); (72968, 72969); (72971, 73008); (73030, 73030); (73056, 73061); (73063, 73064);
   (73066, 73097); (73112, 73112); (73440, 73458); (73648, 73648); (73728, 74649); (74880, 75075);
   (77712, 77808); (77824, 78894); (82944, 83526); (92160, 92728); (92736, 92766); (92784, 92862);
   (92880, 92909); (92928, 92975); (92992, 92995); (93027, 93047); (93053, 93071); (93760, 93823);
   (93952, 94026); (94032, 94032); (94099, 94111); (94176, 94177); (94179, 94179); (94208, 100343);
   (100352, 101589); (101632, 101640); (110576, 110579); (110581, 110587); (110589, 110590); (110592, 110882);
   (110928, 110930); (110948, 110951); (110960, 111355); (113664, 113770); (113776, 113788); (113792, 113800);
   (113808, 113817); (119808, 119892); (119894, 119964); (119966, 119967); (119970, 119970); (119973, 119974);
   (119977, 119980); (119982, 119993); (119995, 119995); (119997, 120003); (120005, 120069); (120071, 120074);
   (120077, 120084); (120086, 120092); (120094, 120121); (120123, 120126); (120128, 120132); (120134, 120134);
   (120138, 120144); (120146, 120485); (120488, 120512); (120514, 120538); (120540, 120570); (120572, 120596);
   (120598, 120628); (120630, 120654); (120656, 120686); (120688, 120712); (120714, 120744); (120746, 120770);
   (120772, 120779); (122624, 122654); (123136, 123180); (123191, 123197); (123214, 123214); (123536, 123565);
   (123584, 123627); (124896, 124902); (124904, 124907); (124909, 124910); (124912, 124926); (124928, 125124);
   (125184, 125251); (125259, 125259); (126464, 126467); (126469, 126495); (126497, 126498); (126500, 126500);
   (126503, 126503); (126505, 126514); (126516, 126519); (126521, 126521); (126523, 126523); (126530, 126530);
   (126535, 126535); (126537, 126537); (126539, 126539); (126541, 126543); (126545, 126546); (126548, 126548);
   (126551, 126551); (126553, 126553); (126555, 126555); (126557, 126557); (126559, 126559); (126561, 126562);
   (126564, 126564); (126567, 126570); (126572, 126578); (126580, 126583); (126585, 126588); (126590, 126590);
   (126592, 126601); (126603, 126619); (126625, 126627); (126629, 126633); (126635, 126651); (131072, 173791);
   (173824, 177976); (177984, 178205); (178208, 183969); (183984, 191456); (194560, 195101); (196608, 201546)].

Definition isalpha_cp (c : Z) : bool :=
  existsb (fun r => (fst r <=? c) && (c <=? snd r)) ALPHA_RANGES.

(** [str.isalpha()]: non-empty and every code point a letter. *)
Definition py_isalpha_cp (s : list Z) : bool :=
  match s with
  | [] => false
  | _ => forallb isalpha_cp s
  end.

(** The code points of an ASCII string. *)
Definition ascii_cps (s : string) : list Z :=
  map (fun c => Z.of_nat (nat_of_ascii c)) (list_ascii_of_string s).

(** The text before and after the first occurrence of [c]. *)
Fixpoint split_first_cp (c : Z) (l : list Z) : option (list Z * list Z) :=
  match l with
  | [] => None
  | d :: l' =>
      if Z.eqb c d then Some ([], l')
      else match split_first_cp c l' with
           | Some (b, a) => Some (d :: b, a)
           | None => None
           end
  end.

(** [s.rsplit(".", 1)] when [s] contains a dot ([46]): [Some (base, suffix)]. *)
Definition rsplit_dot_cp (s : list Z) : option (list Z * list Z) :=
  match split_first_cp 46 (rev s) with
  | Some (suf_rev, base_rev) => Some (rev base_rev, rev suf_rev)
  | None => None
  end.

(** [str(symbol or "").strip().upper()]. *)
Definition norm_symbol_cp (s : list Z) : list Z := py_upper_cp (strip_cp s).

(* ------------------------------------------------------------------ *)
(** ** Currency inference from the ticker suffix *)

Definition SYMBOL_SUFFIX_CURRENCY_MAP : list (string * string) :=
  [("HK", "HKD"); ("SS", "CNY"); ("SZ", "CNY"); ("SH", "CNY"); ("BJ", "CNY");
   ("T", "JPY"); ("KS", "KRW"); ("KQ", "KRW"); ("TW", "TWD"); ("TWO", "TWD");
   ("L", "GBP"); ("PA", "EUR"); ("AS", "EUR"); ("BR", "EUR"); ("MI", "EUR");
   ("DE", "EUR"); ("MC", "EUR"); ("HE", "EUR"); ("CO", "DKK"); ("ST", "SEK");
   ("OL", "NOK"); ("SW", "CHF"); ("AX", "AUD"); ("TO", "CAD"); ("V", "CAD");
   ("SI", "SGD"); ("NS", "INR"); ("BO", "INR"); ("BK", "THB"); ("JK", "IDR");
   ("KL", "MYR"); ("VN", "VND"); ("SA", "BRL"); ("MX", "MXN"); ("JO", "ZAR");
   ("TA", "ILS"); ("ME", "RUB"); ("BA", "ARS")].

(** [dict.get(key)] on an association list with distinct keys. *)
Fixpoint assoc_get {V} (k : string) (m : list (string * V)) : option V :=
  match m with
  | [] => None
  | (k', v) :: m' => if String.eqb k k' then Some v else assoc_get k m'
  end.

(** [SYMBOL_SUFFIX_CURRENCY_MAP.get(suffix)]. *)
Fixpoint suffix_currency (suffix : list Z) (m : list (string * string)) : option string :=
  match m with
  | [] => None
  | (k, v) :: m' => if decide (suffix = ascii_cps k) then Some v else suffix_currency suffix m'
  end.

(** [_infer_currency_from_symbol(symbol)]; [len(suffix)] counts code points. *)
Definition _infer_currency_from_symbol (symbol : list Z) : option string :=
  let raw := norm_symbol_cp symbol in
  match raw with
  | [] => None
  | _ =>
      match rsplit_dot_cp raw with
      | Some (base, suffix) =>
          match suffix_currency suffix SYMBOL_SUFFIX_CURRENCY_MAP with
          | Some mapped => Some mapped
          | None =>
              if (List.length suffix =? 1)%nat && py_isalpha_cp base
              then Some "USD" else None
          end
      | None => Some "USD"
      end
  end.

(* ------------------------------------------------------------------ *)
(** ** Share-count normalisation for EPS reconstruction *)

(** [_normalize_shares_for_eps(shares, net_income)]; the [and] chain
    short-circuits left to right. *)
Definition _normalize_shares_for_eps (shares net_income : pyval) : res (option float) :=
  let* ok := _is_number shares in
  if negb ok then Ok None else
  let* s := py_float_num shares in
  if PrimFloat.leb s 0%float then Ok None else
  if negb (PrimFloat.ltb s 1e6%float) then Ok (Some s) else
  let* okn := _is_number net_income in
  if negb okn then Ok (Some s) else
  let* n := py_float_num net_income in
  if PrimFloat.leb 1e8%float (PrimFloat.abs n)
  then Ok (Some (PrimFloat.mul s 1e6%float))
  else Ok (Some s).

(* ------------------------------------------------------------------ *)
(** ** Earnings-surprise classification *)

Inductive surprise_class := Beat | Miss | Inline | Insufficient.

(** Python's [v > 0.5] and [v < -0.5] for an [int] or [float] [v]; an
    [int] is compared exactly. *)
Definition py_gt_half (v : pyval) : bool :=
  match v with
  | PyFloat f => PrimFloat.ltb 0.5%float f
  | PyInt z => 1 <=? z
  | _ => false
  end.
Definition py_lt_neg_half (v : pyval) : bool :=
  match v with
  | PyFloat f => PrimFloat.ltb f (-0.5)%float
  | PyInt z => z <=? -1
  | _ => false
  end.

(** [_classify_surprise(surprise_pct)]. *)
Definition _classify_surprise (v : pyval) : res surprise_class :=
  let* ok := _is_number v in
  if negb ok then Ok Insufficient else
  if py_gt_half v then Ok Beat else
  if py_lt_neg_half v then Ok Miss else Ok Inline.

(* ------------------------------------------------------------------ *)
(** ** [list.sort]

    CPython's sort is stable.  [sort_le le] inserts each element in front
    of the first element it is [le] to, scanning from the back of the
    input, so equal elements keep their input order. *)

Fixpoint insert_le {A} (le : A -> A -> bool) (x : A) (l : list A) : list A :=
  match l with
  | [] => [x]
  | y :: l' => if le x y then x :: y :: l' else y :: insert_le le x l'
  end.
Fixpoint sort_le {A} (le : A -> A -> bool) (l : list A) : list A :=
  match l with
  | [] => []
  | x :: l' => insert_le le x (sort_le le l')
  end.

(* ------------------------------------------------------------------ *)
(** ** JSON-shaped values (bundles and cached payloads) *)

Inductive json :=
| JNull
| JBool (b : bool)
| JNum (f : float)
| JStr (s : string)
| JArr (l : list json)
| JObj (kvs : list (string * json)).

(** A Python [dict] with string keys, in insertion order. *)
Abbreviation dict := (list (string * json)).

(* ------------------------------------------------------------------ *)
(** ** [str.strip()] on UTF-8 text

    A [string] here is the UTF-8 encoding of a Python [str].  Besides the
    ASCII whitespace of [py_isspace], [str.strip()] removes U+0085 and
    U+00A0 (two bytes [C2 85], [C2 A0]) and U+1680, U+2000..U+200A,
    U+2028, U+2029, U+202F, U+205F and U+3000 (three bytes).  In valid
    UTF-8 a lead byte starts a code point, so matching these byte
    sequences at either end removes whole code points. *)

Definition utf8_space2 (a b : nat) : bool :=
  (a =? 194)%nat && ((b =? 133)%nat || (b =? 160)%nat).

Definition utf8_space3 (a b c : nat) : bool :=
  ((a =? 225)%nat && (b =? 154)%nat && (c =? 128)%nat) ||
  ((a =? 226)%nat && (b =? 128)%nat &&
     (((128 <=? c)%nat && (c <=? 138)%nat) || (c =? 168)%nat || (c =? 169)%nat || (c =? 175)%nat)) ||
  ((a =? 226)%nat && (b =? 129)%nat && (c =? 159)%nat) ||
  ((a =? 227)%nat && (b =? 128)%nat && (c =? 128)%nat).

(** [str.lstrip()]. *)
Fixpoint utf8_lstrip (l : list ascii) : list ascii :=
  match l with
  | [] => []
  | c :: l1 =>
      if py_isspace c then utf8_lstrip l1 else
      match l1 with
      | [] => l
      | d :: l2 =>
          if utf8_space2 (nat_of_ascii c) (nat_of_ascii d) then utf8_lstrip l2 else
          match l2 with
          | [] => l
          | e :: l3 =>
              if utf8_space3 (nat_of_ascii c) (nat_of_ascii d) (nat_of_ascii e)
              then utf8_lstrip l3 else l
          end
      end
  end.

(** [str.rstrip()] on the reversed bytes: the last byte comes first. *)
Fixpoint utf8_rstrip_rev (l : list ascii) : list ascii :=
  match l with
  | [] => []
  | c :: l1 =>
      if py_isspace c then utf8_rstrip_rev l1 else
      match l1 with
      | [] => l
      | d :: l2 =>
          if utf8_space2 (nat_of_ascii d) (nat_of_ascii c) then utf8_rstrip_rev l2 else
          match l2 with
          | [] => l
          | e :: l3 =>
              if utf8_space3 (nat_of_ascii e) (nat_of_ascii d) (nat_of_ascii c)
              then utf8_rstrip_rev l3 else l
          end
      end
  end.

(** [str.strip()]. *)
Definition py_strip_utf8 (s : string) : string :=
  string_of_list_ascii
    (rev (utf8_rstrip_rev (rev (utf8_lstrip (list_ascii_of_string s))))).

(* ------------------------------------------------------------------ *)
(** ** Fetch orchestrator: [fetch_multiple_stocks] (app.py)

    [get_stock_bundle] is the unit of work: it returns a bundle dict or
    raises (an [Exception] subclass).  [as_completed] hands the futures
    back in some completion order, given as a list of positions in
    [symbols]. *)

Section Orchestrator.

Variable get_stock_bundle : string -> res dict.

Definition fetch_error_prefix : string := "抓取失败: ".

(** [f"抓取失败: {type(exc).__name__}: {exc}".strip()]. *)
Definition fetch_error_text (e : exn) : string :=
  py_strip_utf8 (fetch_error_prefix ++ exn_type e ++ ": " ++ exn_msg e).

Definition error_bundle (symbol : string) (e : exn) : dict :=
  [("symbol", JStr symbol);
   ("error", JStr (fetch_error_text e));
   ("currency", JObj [("quote", JNull); ("financial", JNull); ("forecast", JNull)]);
   ("realtime", JObj [("stock_name", JNull); ("trade_date", JNull); ("currency", JNull)]);
   ("financial", JObj [("currency", JNull)]);
   ("forecast", JObj [("currency", JNull)]);
   ("news", JArr []);
   ("expectation_guidance", JObj [])].

(** One completed future: [future.result()], or the error bundle. *)
Definition unit_result (symbol : string) : dict :=
  match get_stock_bundle symbol with
  | Ok b => b
  | Raise e => error_bundle symbol e
  end.

(** [order = {s: i for i, s in enumerate(symbols)}]; [order.get(s)].
    A later position overwrites an earlier one. *)
Fixpoint order_get_from (i : nat) (symbols : list string) (s : string) : option nat :=
  match symbols with
  | [] => None
  | s' :: rest =>
      match order_get_from (S i) rest s with
      | Some j => Some j
      | None => if String.eqb s s' then Some i else None
      end
  end.
Definition order_get (symbols : list string) (s : string) : option nat :=
  order_get_from 0 symbols s.

(** [order.get(item.get("symbol", ""), 999)] on a hashable key: a
    [None], bool or number never equals a [str] key of [order]. *)
Definition sort_key (symbols : list string) (item : dict) : nat :=
  let s := match assoc_get "symbol" item with
           | Some v => v
           | None => JStr ""
           end in
  match s with
  | JStr str => default 999%nat (order_get symbols str)
  | _ => 999%nat
  end.

(** [order.get] hashes its key: a list or a dict raises [TypeError]. *)
Definition sort_key_hashable (item : dict) : bool :=
  match assoc_get "symbol" item with
  | Some (JArr _) | Some (JObj _) => false
  | _ => true
  end.

Definition sort_by {A} (key : A -> nat) : list A -> list A :=
  sort_le (fun x y => (key x <=? key y)%nat).

(** [results.sort(key=...)] computes every key before sorting. *)
Definition fetch_multiple_stocks (symbols : list string) (completion : list nat)
    : res (list dict) :=
  let results := map (fun i => unit_result (nth i symbols "")) completion in
  if forallb sort_key_hashable results
  then Ok (sort_by (sort_key symbols) results)
  else Raise (mk_exn "TypeError" "unhashable type").

End Orchestrator.

(* ------------------------------------------------------------------ *)
(** ** Financial cache (persistence.py)

    The [financial_cache] table is a map from the symbol (primary key) to
    its row.  The TEXT columns are seen through their parsers: a payload
    is the JSON document [json.loads] reads back, or malformed text; a
    timestamp is the instant [datetime.fromisoformat] reads back (in
    microseconds, UTC), or malformed text. *)

Inductive payload_text := PayloadJson (j : json) | PayloadMalformed (s : string).
Inductive ts_text := TsIso (t : Z) | TsMalformed (s : string).

Record cache_row := { payload_json : payload_text; updated_at : ts_text }.

Abbreviation cache_db := (gmap string cache_row).





(* ------------------------------------------------------------------ *)
(** ** Financial statement frames (stock_service.py)

    A statement frame has line-item labels as its index and period
    timestamps as its columns; a period is the day number of its date
    ([days_from_civil]).  [float(text)] on a string cell is the parser
    [str_to_float] ([None]: [ValueError]). *)

(** Day number of a proleptic Gregorian date (0 = 1970-01-01). *)
Definition days_from_civil (y m d : Z) : Z :=
  let y' := if m <=? 2 then y - 1 else y in
  let era := y' / 400 in
  let yoe := y' - era * 400 in
  let mp := if 2 <? m then m - 3 else m + 9 in
  let doy := (153 * mp + 2) / 5 + d - 1 in
  let doe := yoe * 365 + yoe / 4 - yoe / 100 + doy in
  era * 146097 + doe - 719468.

Record frame := {
  df_index : list string;
  df_columns : list Z;
  df_at : string -> Z -> pyval
}.

Definition df_empty (df : frame) : bool :=
  match df_index df, df_columns df with
  | [], _ | _, [] => true
  | _, _ => false
  end.

(** [_normalize_label_key(label)]: lower-case, keep [a-z0-9]. *)
Definition _normalize_label_key (label : string) : string :=
  string_of_list_ascii
    (filter (fun c => is_lower c || is_digit c) (list_ascii_of_string (py_lower label))).

(** [row_map.get(key)]: the first index label with that non-empty key. *)
Definition row_map_get (index : list string) (key : string) : option string :=
  if String.eqb key "" then None else
  find (fun idx => String.eqb (_normalize_label_key idx) key) index.

(** [_statement_columns_sorted(df)]: newest first, stable. *)
Definition _statement_columns_sorted (df : frame) : list Z :=
  if df_empty df then [] else sort_le (fun x y => y <=? x) (df_columns df).

Section Statements.

Variable str_to_float : string -> option float.

Definition ValueError : exn := mk_exn "ValueError" "could not convert string to float".

(** [float(value)] on a cell. *)
Definition py_float_cell (v : pyval) : res float :=
  match v with
  | PyStr s => match str_to_float s with Some f => Ok f | None => Raise ValueError end
  | _ => py_float_num v
  end.

(** The alias loop of [_extract_income_stmt_value]; the [try] around
    [float(value)] turns its exceptions into [continue]. *)
Fixpoint extract_aliases (df : frame) (column : Z) (aliases : list string) : res (option float) :=
  match aliases with
  | [] => Ok None
  | alias :: rest =>
      match row_map_get (df_index df) (_normalize_label_key alias) with
      | None => extract_aliases df column rest
      | Some idx =>
          let value := df_at df idx column in
          let* ok := _is_number value in
          if ok then (let* f := py_float_num value in Ok (Some f)) else
          match py_float_cell value with
          | Ok v => if negb (PrimFloat.is_nan v) then Ok (Some v)
                    else extract_aliases df column rest
          | Raise _ => extract_aliases df column rest
          end
      end
  end.

(** [_extract_income_stmt_value(df, column, aliases)]. *)
Definition _extract_income_stmt_value (df : frame) (column : option Z)
    (aliases : list string) : res (option float) :=
  if df_empty df then Ok None else
  match column with
  | None => Ok None
  | Some c =>
      if negb (existsb (Z.eqb c) (df_columns df)) then Ok None
      else extract_aliases df c aliases
  end.

(** [_find_same_period_last_year(columns, latest_col)]. *)
Definition _find_same_period_last_year (columns : list Z) (latest_col : option Z) : option Z :=
  match columns, latest_col with
  | [], _ | _, None => None
  | _ :: older, Some latest_ts =>
      let candidates :=
        flat_map (fun col =>
          let delta_days := latest_ts - col in
          if (250 <=? delta_days) && (delta_days <=? 500)
          then [(Z.abs (delta_days - 365), delta_days, col)] else [])
          older in
      match sort_le (fun '(a0, a1, _) '(b0, b1, _) => (a0 <? b0) || ((a0 =? b0) && (a1 <=? b1)))
              candidates with
      | (_, _, col) :: _ => Some col
      | [] => nth_error columns 4
      end
  end.

Definition revenue_aliases := ["Total Revenue"; "TotalRevenue"; "Revenue"].
Definition gross_profit_aliases := ["Gross Profit"; "GrossProfit"].
Definition operating_income_aliases :=
  ["Operating Income"; "OperatingIncome"; "Income From Operations"].
Definition net_income_aliases :=
  ["Net Income"; "NetIncome"; "Net Income Common Stockholders";
   "Net Income Including Noncontrolling Interests"].
Definition eps_aliases :=
  ["Diluted EPS"; "DilutedEPS"; "Basic EPS"; "BasicEPS"; "Earnings Per Share Diluted"].

Definition core_alias_groups :=
  [revenue_aliases; gross_profit_aliases; operating_income_aliases; net_income_aliases].

Definition of_opt (o : option float) : pyval :=
  match o with Some f => PyFloat f | None => PyNone end.

(** One pass of the latest-usable loop: the four extractions, then
    [any(_is_number(v) for v in (...))]. *)
Definition column_has_core (df : frame) (col : Z) : res bool :=
  let* r := _extract_income_stmt_value df (Some col) revenue_aliases in
  let* g := _extract_income_stmt_value df (Some col) gross_profit_aliases in
  let* o := _extract_income_stmt_value df (Some col) operating_income_aliases in
  let* n := _extract_income_stmt_value df (Some col) net_income_aliases in
  Ok (existsb (fun v => match _is_number (of_opt v) with Ok b => b | Raise _ => false end)
        [r; g; o; n]).

Fixpoint first_core_column (df : frame) (cols : list Z) : res (option Z) :=
  match cols with
  | [] => Ok None
  | c :: rest =>
      let* u := column_has_core df c in
      if u then Ok (Some c) else first_core_column df rest
  end.

(** [latest_col]: the first usable column, else [columns[0]]. *)
Definition latest_usable_column (df : frame) (columns : list Z) : res (option Z) :=
  match columns with
  | [] => Ok None
  | c0 :: _ =>
      let* found := first_core_column df columns in
      Ok (Some (default c0 found))
  end.

Inductive period_type := Quarterly | Annual.

(** Lines 1501-1504: the year-over-year comparison column. *)
Definition comparison_column (pt : period_type) (columns : list Z) (latest_col : option Z) : option Z :=
  match pt with
  | Quarterly => _find_same_period_last_year columns latest_col
  | Annual => nth_error columns 1
  end.

Record financial_snapshot := {
  latest_period : option Z;
  latest_period_type : period_type;
  revenue_b : option float;
  revenue_yoy_pct : option float;
  net_income_b : option float;
  net_income_yoy_pct : option float;
  eps : option float;
  gross_margin_pct : option float;
  operating_margin_pct : option float;
  net_margin_pct : option float
}.

Definition empty_financial_snapshot (pt : period_type) : financial_snapshot :=
  {| latest_period := None; latest_period_type := pt; revenue_b := None;
     revenue_yoy_pct := None; net_income_b := None; net_income_yoy_pct := None;
     eps := None; gross_margin_pct := None; operating_margin_pct := None;
     net_margin_pct := None |}.

(** [_build_financial_from_income_stmt(df, period_type, return_latest_col=True)]. *)
Definition _build_financial_from_income_stmt (df : frame) (pt : period_type)
    : res (financial_snapshot * option Z) :=
  let columns := _statement_columns_sorted df in
  match columns with
  | [] => Ok (empty_financial_snapshot pt, None)
  | _ =>
      let* latest_col := latest_usable_column df columns in
      let prev_col := comparison_column pt columns latest_col in
      let ext := _extract_income_stmt_value df in
      let* revenue_latest := ext latest_col revenue_aliases in
      let* revenue_prev := ext prev_col revenue_aliases in
      let* gross_profit_latest := ext latest_col gross_profit_aliases in
      let* operating_income_latest := ext latest_col operating_income_aliases in
      let* net_income_latest := ext latest_col net_income_aliases in
      let* net_income_prev := ext prev_col net_income_aliases in
      let* eps_latest := ext latest_col eps_aliases in
      let* rb := _to_billions (of_opt revenue_latest) in
      let* ryoy := _pct_change (of_opt revenue_latest) (of_opt revenue_prev) in
      let* nb := _to_billions (of_opt net_income_latest) in
      let* nyoy := _pct_change (of_opt net_income_latest) (of_opt net_income_prev) in
      let* e := _round (of_opt eps_latest) in
      let* gm := _to_bounded_pct (of_opt gross_profit_latest) (of_opt revenue_latest) in
      let* om := _to_bounded_pct (of_opt operating_income_latest) (of_opt revenue_latest) in
      let* nm := _to_bounded_pct (of_opt net_income_latest) (of_opt revenue_latest) in
      Ok ({| latest_period := latest_col; latest_period_type := pt; revenue_b := rb;
             revenue_yoy_pct := ryoy; net_income_b := nb; net_income_yoy_pct := nyoy;
             eps := e; gross_margin_pct := gm; operating_margin_pct := om;
             net_margin_pct := nm |}, latest_col)
  end.

End Statements.

(* ------------------------------------------------------------------ *)
(** ** Beat/miss snapshot ([_build_beat_miss_snapshot])

    Each earnings-history row becomes a record through [row_record]:
    its quarter ([_safe_iso_date(idx)]), the rounded actual and estimate,
    and the surprise percentage ([_to_pct] of the surprise field, else
    [_pct_change(actual, estimate)]), each [None] or a float. *)

Record bm_record := {
  quarter : option string;
  actual : option float;
  estimate : option float;
  surprise_pct : option float
}.

Inductive bm_conclusion :=
| ConsecutiveBeats   (* 近4季连续超预期，历史兑现能力强。 *)
| MostlyBeats        (* 近4季以超预期为主，历史表现偏稳健。 *)
| FrequentMisses     (* 近4季 miss 次数偏多，历史兑现存在压力。 *)
| MixedResults       (* 近4季 beat/miss 交替出现，历史表现分化。 *)
| NoBeatMissData.    (* the "insufficient" conclusion of the empty snapshot *)

Record beat_miss_snapshot := {
  latest_quarter : option string;
  latest_eps_actual : option float;
  latest_eps_estimate : option float;
  latest_surprise_pct : option float;
  latest_result : surprise_class;
  beat_count_4q : nat;
  miss_count_4q : nat;
  inline_count_4q : nat;
  beat_streak_4q : nat;
  avg_surprise_pct_4q : option float;
  history_surprise_pct_4q : list float;
  bm_conclusion_text : bm_conclusion
}.

(** [_empty_expectation_guidance_snapshot()["beat_miss"]]. *)
Definition empty_beat_miss : beat_miss_snapshot :=
  {| latest_quarter := None; latest_eps_actual := None; latest_eps_estimate := None;
     latest_surprise_pct := None; latest_result := Insufficient;
     beat_count_4q := 0; miss_count_4q := 0; inline_count_4q := 0;
     beat_streak_4q := 0; avg_surprise_pct_4q := None;
     history_surprise_pct_4q := []; bm_conclusion_text := NoBeatMissData |}.

(** [_classify_surprise] on a record's surprise ([None] or a float),
    where it never raises ([classify_surprise_opt_ok]). *)
Definition classify_opt (o : option float) : surprise_class :=
  match _classify_surprise (of_opt o) with Ok c => c | Raise _ => Insufficient end.

(** [[item.get("surprise_pct") for item in recent if _is_number(...)]]. *)
Definition numeric_surprises (recent : list bm_record) : list float :=
  flat_map (fun item => match surprise_pct item with
                        | Some f => if PrimFloat.is_nan f then [] else [f]
                        | None => []
                        end) recent.

(** The counting loop: [(beat_count, miss_count, inline_count)]. *)
Fixpoint count_classes (values : list float) : nat * nat * nat :=
  match values with
  | [] => (0, 0, 0)%nat
  | v :: rest =>
      let '(b, m, i) := count_classes rest in
      match classify_opt (Some v) with
      | Beat => (S b, m, i)
      | Miss => (b, S m, i)
      | _ => (b, m, S i)
      end
  end.

(** [for item in reversed(recent)]: beats counted until the first non-beat;
    the argument is [recent] reversed. *)
Fixpoint beat_streak (rev_recent : list bm_record) : nat :=
  match rev_recent with
  | [] => 0
  | item :: rest =>
      match classify_opt (surprise_pct item) with
      | Beat => S (beat_streak rest)
      | _ => 0
      end
  end.

Definition quarter_key (r : bm_record) : string := default "" (quarter r).

Definition has_quarter (r : bm_record) : bool :=
  match quarter r with Some q => negb (String.eqb q "") | None => false end.

(** [records[-4:]]. *)
Definition last4 {A} (l : list A) : list A := skipn (List.length l - 4) l.

Section BeatMiss.

Variable history_row : Type.
Variable row_record : history_row -> bm_record.

Definition _build_beat_miss_snapshot (history_df : list history_row) : beat_miss_snapshot :=
  match history_df with
  | [] => empty_beat_miss
  | _ =>
      let records := filter has_quarter (map row_record history_df) in
      match records with
      | [] => empty_beat_miss
      | _ =>
          let records := sort_le (fun a b => String.leb (quarter_key a) (quarter_key b)) records in
          let recent := last4 records in
          let latest := List.last recent {| quarter := None; actual := None;
                                       estimate := None; surprise_pct := None |} in
          let surprise_values := numeric_surprises recent in
          let '(beat_count, miss_count, inline_count) := count_classes surprise_values in
          let streak := beat_streak (rev recent) in
          let avg :=
            match surprise_values with
            | [] => None
            | _ =>
                (* [_round] gives [None] on a NaN mean *)
                let mean := PrimFloat.div
                     (fold_left PrimFloat.add surprise_values 0%float)
                     (PrimFloat.of_uint63 (Uint63.of_Z (Z.of_nat (List.length surprise_values)))) in
                if PrimFloat.is_nan mean then None else Some (py_round2 mean)
            end in
          let concl :=
            if (3 <=? streak)%nat then ConsecutiveBeats
            else if (3 <=? beat_count)%nat && (miss_count =? 0)%nat then MostlyBeats
            else if (2 <=? miss_count)%nat && (beat_count <=? 1)%nat then FrequentMisses
            else match surprise_values with [] => NoBeatMissData | _ => MixedResults end in
          {| latest_quarter := quarter latest;
             latest_eps_actual := actual latest;
             latest_eps_estimate := estimate latest;
             latest_surprise_pct := surprise_pct latest;
             latest_result := classify_opt (surprise_pct latest);
             beat_count_4q := beat_count;
             miss_count_4q := miss_count;
             inline_count_4q := inline_count;
             beat_streak_4q := streak;
             avg_surprise_pct_4q := avg;
             history_surprise_pct_4q := surprise_values;
             bm_conclusion_text := concl |}
      end
  end.

End BeatMiss.

(** [int] arguments too large for a float make [math.isnan] raise. *)
Definition float_convertible (v : pyval) : bool :=
  match v with
  | PyInt z => match int_to_float z with Ok _ => true | Raise _ => false end
  | _ => true
  end.

(* ------------------------------------------------------------------ *)
(** ** Concrete statement frames *)

(** A column in which one of the four core fields (revenue, gross profit,
    operating income, net income) is extracted as a number. *)
Definition core_field_numeric (str_to_float : string -> option float) (df : frame) (c : Z) : Prop :=
  exists aliases f, In aliases core_alias_groups /\
    _extract_income_stmt_value str_to_float df (Some c) aliases = Ok (Some f) /\
    _is_number (PyFloat f) = Ok true.

Definition q_2025_12_31 : Z := days_from_civil 2025 12 31.
Definition q_2025_09_30 : Z := days_from_civil 2025 9 30.

(** A quarterly statement whose newest quarter reports only the EPS. *)
Definition stub_quarter_income_stmt : frame :=
  {| df_index := ["Total Revenue"; "Diluted EPS"];
     df_columns := [q_2025_12_31; q_2025_09_30];
     df_at := fun idx c =>
       if String.eqb idx "Total Revenue" then
         (if c =? q_2025_12_31 then PyFloat PrimFloat.nan else PyFloat 7.69e9%float)
       else if String.eqb idx "Diluted EPS" then
         (if c =? q_2025_12_31 then PyFloat 1.63%float else PyFloat 1.2%float)
       else PyNone |}.

Definition y_2025 : Z := days_from_civil 2025 12 31.
Definition y_2024 : Z := days_from_civil 2024 12 31.
Definition y_2023 : Z := days_from_civil 2023 12 31.

(** An annual statement whose newest year reports only the EPS. *)
Definition stub_year_income_stmt : frame :=
  {| df_index := ["Total Revenue"; "Diluted EPS"];
     df_columns := [y_2025; y_2024; y_2023];
     df_at := fun idx c =>
       if String.eqb idx "Total Revenue" then
         (if c =? y_2025 then PyFloat PrimFloat.nan
          else if c =? y_2024 then PyFloat 100%float else PyFloat 80%float)
       else if String.eqb idx "Diluted EPS" then
         (if c =? y_2025 then PyFloat 2%float else PyFloat 1%float)
       else PyNone |}.

(* ------------------------------------------------------------------ *)
(** ** Beat counting *)

(** The records of a list whose surprise classifies as a beat. *)
Fixpoint beats_of (l : list bm_record) : nat :=
  match l with
  | [] => 0
  | item :: rest =>
      match classify_opt (surprise_pct item) with
      | Beat => S (beats_of rest)
      | _ => beats_of rest
      end
  end.

(* ------------------------------------------------------------------ *)
(** ** Request symbols ([app.py: parse_symbols]) *)

(** [raw.replace("，", ",")]: U+FF0C becomes [,] (44). *)
Definition replace_fullwidth_comma (l : list Z) : list Z :=
  map (fun c => if Z.eqb c 65292 then 44 else c) l.

(** [s.split(sep)] for a one-character separator. *)
Fixpoint split_on (sep : Z) (l : list Z) : list (list Z) :=
  match l with
  | [] => [[]]
  | c :: l' =>
      if Z.eqb sep c then [] :: split_on sep l'
      else match split_on sep l' with
           | w :: ws => (c :: w) :: ws
           | [] => [[c]]
           end
  end.

(** One token of the loop: [symbol = token.strip().upper()], appended when
    it is non-empty and not yet in [symbols]. *)
Definition parse_symbols_step (symbols : list (list Z)) (token : list Z) : list (list Z) :=
  let symbol := py_upper_cp (strip_cp token) in
  match symbol with
  | [] => symbols
  | _ => if decide (symbol ∈ symbols) then symbols else symbols ++ [symbol]
  end.

(** [parse_symbols(raw)]. *)
Definition parse_symbols (raw : list Z) : list (list Z) :=
  match raw with
  | [] => []
  | _ => firstn 10 (fold_left parse_symbols_step (split_on 44 (replace_fullwidth_comma raw)) [])
  end.

(** [str.strip()] on the bytes of a string, as [py_strip] computes it. *)
Definition strip_l (l : list ascii) : list ascii := rev (drop_spaces (rev (drop_spaces l))).

(** What [parse_symbols] returns: distinct symbols, each non-empty,
    stripped, upper-case and without a comma. *)
Definition parsed_symbols_ok (out : list (list Z)) : Prop :=
  NoDup out /\ Forall (fun s => s <> [] /\ strip_cp s = s /\ py_upper_cp s = s /\ ~ In 44 s) out.

(* ------------------------------------------------------------------ *)
(** ** Stored symbols ([persistence.py: _SYMBOL_PATTERN, _normalize_symbols]) *)

(** [[A-Z0-9.\-]]. *)
Definition symbol_char (c : ascii) : bool :=
  is_upper c || is_digit c || Ascii.eqb c "."%char || Ascii.eqb c "-"%char.

Definition symbol_body (l : list ascii) : bool :=
  (1 <=? List.length l)%nat && (List.length l <=? 10)%nat && forallb symbol_char l.

(** [_SYMBOL_PATTERN.match(s)] for [^[A-Z0-9.\-]{1,10}$]: [$] also
    matches before a final newline. *)
Definition _SYMBOL_PATTERN_match (s : string) : bool :=
  let l := list_ascii_of_string s in
  symbol_body l ||
  match rev l with
  | c :: r => Ascii.eqb c "010"%char && symbol_body (rev r)
  | [] => false
  end.

(** The loop of [_normalize_symbols], with [out] so far. *)
Fixpoint normalize_symbols_loop (out : list string) (symbols : list string) : list string :=
  match symbols with
  | [] => out
  | raw :: rest =>
      let symbol := norm_symbol raw in
      if String.eqb symbol "" || existsb (String.eqb symbol) out
      then normalize_symbols_loop out rest
      else if negb (_SYMBOL_PATTERN_match symbol) then normalize_symbols_loop out rest
      else
        let out := out ++ [symbol] in
        if (10 <=? List.length out)%nat then out else normalize_symbols_loop out rest
  end.

(** [_normalize_symbols(symbols)] on a list of strings. *)
Definition _normalize_symbols (symbols : list string) : list string :=
  normalize_symbols_loop [] symbols.

(** A symbol [_normalize_symbols] keeps: it matches [_SYMBOL_PATTERN]
    and is already stripped and upper-case. *)
Definition stored_symbol_ok (s : string) : Prop :=
  _SYMBOL_PATTERN_match s = true /\ norm_symbol s = s.

(* ------------------------------------------------------------------ *)
(** ** Watchlist names ([persistence.py: _normalize_watchlist_name]) *)


Definition WATCHLIST_NAME_MAX : nat := 40.

(** [_normalize_watchlist_name(name)]. *)
Definition _normalize_watchlist_name (name : list Z) : option (list Z) :=
  let text := strip_cp name in
  match text with
  | [] => None
  | _ =>
      if (WATCHLIST_NAME_MAX <? List.length text)%nat
      then Some (rstrip_cp (firstn WATCHLIST_NAME_MAX text))
      else Some text
  end.

(* ------------------------------------------------------------------ *)
(** ** The watchlist store ([persistence.py]) *)

(** The table [watchlist_items] as a finite map from [id] to its row,
    together with the counter [sqlite_sequence] that
    [INTEGER PRIMARY KEY AUTOINCREMENT] keeps: a new row gets the id one
    above the larger of the counter and the largest id in the table, and
    the insert fails with [SQLITE_FULL] once that would exceed the
    largest rowid.  Times are the ISO strings [_utc_now_iso()] returns,
    passed in; the symbols are stored as the list [json.dumps] writes and
    [_decode_symbols_json] reads back. *)
Record watchlist_row := {
  wl_name : list Z;
  wl_symbols : list string;
  wl_created_at : list Z;
  wl_updated_at : list Z
}.

Record watchlist_db := {
  wl_rows : gmap Z watchlist_row;
  wl_seq : Z
}.

Record watchlist_entry := {
  entry_id : Z;
  entry_name : list Z;
  entry_symbols : list string;
  entry_created_at : list Z;
  entry_updated_at : list Z
}.

(** ["未命名"] and ["自选"]. *)
Definition UNNAMED_WATCHLIST : list Z := [26410; 21629; 21517].
Definition DEFAULT_WATCHLIST_PREFIX : list Z := [33258; 36873].

(** The dict [_watchlist_row_to_dict] builds from a row. *)
Definition entry_of_row (id : Z) (r : watchlist_row) : watchlist_entry :=
  {| entry_id := id;
     entry_name := match strip_cp (wl_name r) with [] => UNNAMED_WATCHLIST | t => t end;
     entry_symbols := _normalize_symbols (wl_symbols r);
     entry_created_at := wl_created_at r;
     entry_updated_at := wl_updated_at r |}.

(** [_watchlist_row_to_dict(row)] on the row of [id], if any. *)
Definition _watchlist_row_to_dict (id : Z) (row : option watchlist_row) : option watchlist_entry :=
  match row with Some r => Some (entry_of_row id r) | None => None end.

(** [f"自选{now[5:16].replace('-', '').replace(':', '')}"]. *)
Definition default_watchlist_name (now_iso : list Z) : list Z :=
  DEFAULT_WATCHLIST_PREFIX ++
  filter (fun c => negb (c =? 45) && negb (c =? 58)) (firstn 11 (skipn 5 now_iso)).

(** SQLite's largest rowid, [2^63 - 1]. *)
Definition SQLITE_MAX_ROWID : Z := 9223372036854775807.

(** [sqlite3.OperationalError] of an insert beyond it. *)
Definition SQLITE_FULL : exn := mk_exn "OperationalError" "database or disk is full".

(** The largest id in the table ([0] when empty). *)
Definition max_rowid (rows : gmap Z watchlist_row) : Z :=
  foldr Z.max 0 (map fst (map_to_list rows)).

(** [create_watchlist_entry(name, symbols)]: the new store and the new id,
    or [None] when no symbol survives [_normalize_symbols]; [now_name]
    and [now_ts] are the two [_utc_now_iso()] it reads. *)
Definition create_watchlist_entry (db : watchlist_db) (name : list Z) (symbols : list string)
    (now_name now_ts : list Z) : res (watchlist_db * option Z) :=
  let normalized_symbols := _normalize_symbols symbols in
  match normalized_symbols with
  | [] => Ok (db, None)
  | _ =>
      let normalized_name :=
        match _normalize_watchlist_name name with
        | Some (c :: t) => c :: t
        | _ => default_watchlist_name now_name
        end in
      let last := Z.max (wl_seq db) (max_rowid (wl_rows db)) in
      if SQLITE_MAX_ROWID <=? last then Raise SQLITE_FULL else
      let new_id := last + 1 in
      let row := {| wl_name := normalized_name; wl_symbols := normalized_symbols;
                    wl_created_at := now_ts; wl_updated_at := now_ts |} in
      Ok ({| wl_rows := <[new_id := row]> (wl_rows db); wl_seq := new_id |}, Some new_id)
  end.

(** [get_watchlist_entry(watchlist_id)]. *)
Definition get_watchlist_entry (db : watchlist_db) (watchlist_id : Z) : option watchlist_entry :=
  _watchlist_row_to_dict watchlist_id (wl_rows db !! watchlist_id).

(** [update_watchlist_entry_name(watchlist_id, name)]: the [UPDATE] and the
    entry read back ([None] when no row changed). *)
Definition update_watchlist_entry_name (db : watchlist_db) (watchlist_id : Z) (name : list Z)
    (now_ts : list Z) : watchlist_db * option watchlist_entry :=
  match _normalize_watchlist_name name with
  | None | Some [] => (db, None)
  | Some normalized_name =>
      match wl_rows db !! watchlist_id with
      | None => (db, None)
      | Some r =>
          let db' := {| wl_rows := <[watchlist_id := {| wl_name := normalized_name;
                                                        wl_symbols := wl_symbols r;
                                                        wl_created_at := wl_created_at r;
                                                        wl_updated_at := now_ts |}]> (wl_rows db);
                        wl_seq := wl_seq db |} in
          (db', get_watchlist_entry db' watchlist_id)
      end
  end.

(** [delete_watchlist_entry(watchlist_id)]: the [DELETE] and [rowcount > 0]. *)
Definition delete_watchlist_entry (db : watchlist_db) (watchlist_id : Z) : watchlist_db * bool :=
  match wl_rows db !! watchlist_id with
  | None => (db, false)
  | Some _ => ({| wl_rows := delete watchlist_id (wl_rows db); wl_seq := wl_seq db |}, true)
  end.

(** [max(1, min(int(limit or 100), 500))]. *)
Definition watchlist_page_size (limit : option Z) : Z :=
  let l := match limit with Some l => if l =? 0 then 100 else l | None => 100 end in
  Z.max 1 (Z.min l 500).

(** [list_watchlist_entries(limit)]: [ORDER BY id DESC LIMIT size]. *)
Definition list_watchlist_entries (db : watchlist_db) (limit : option Z) : list watchlist_entry :=
  let rows := sort_le (fun a b : Z * watchlist_row => b.1 <=? a.1) (map_to_list (wl_rows db)) in
  map (fun '(id, r) => entry_of_row id r) (firstn (Z.to_nat (watchlist_page_size limit)) rows).

(** The AUTOINCREMENT counter is at least every id in the table. *)
Definition wl_ids_below_seq (db : watchlist_db) : Prop :=
  forall k r, wl_rows db !! k = Some r -> k <= wl_seq db.

(* ------------------------------------------------------------------ *)
(** ** EPS trend and the expectation snapshot ([stock_service.py]) *)

(** The values [_series_value_by_aliases] reads from the EPS-trend row:
    [None] or a float that is not NaN. *)
Record eps_trend_row := {
  tr_current : option float;
  tr_d7 : option float;
  tr_d30 : option float;
  tr_d60 : option float;
  tr_d90 : option float
}.

Inductive eps_signal := SignalUp | SignalDown | SignalFlat | SignalInsufficient.

Inductive eps_trend_conclusion :=
| TrendStrongUp    (* EPS Trend 显示近90天一致预期明显上修。 *)
| TrendMildUp      (* EPS Trend 显示一致预期温和上修。 *)
| TrendStrongDown  (* EPS Trend 显示近90天一致预期明显下修。 *)
| TrendMildDown    (* EPS Trend 显示一致预期温和下修。 *)
| TrendFlat        (* EPS Trend 显示一致预期整体平稳。 *)
| TrendNoData.     (* the "insufficient" conclusion of the empty snapshot *)

Record eps_trend_snapshot := {
  et_period : option string;
  et_current : option float;
  et_d7 : option float;
  et_d30 : option float;
  et_d60 : option float;
  et_d90 : option float;
  et_change_vs_30d_pct : option float;
  et_change_vs_90d_pct : option float;
  et_signal : eps_signal;
  et_conclusion : eps_trend_conclusion
}.

(** [_empty_expectation_guidance_snapshot()["eps_trend"]]. *)
Definition empty_eps_trend : eps_trend_snapshot :=
  {| et_period := None; et_current := None; et_d7 := None; et_d30 := None; et_d60 := None;
     et_d90 := None; et_change_vs_30d_pct := None; et_change_vs_90d_pct := None;
     et_signal := SignalInsufficient; et_conclusion := TrendNoData |}.

(** [d != 0] on [None] or a float. *)
Definition py_ne_zero (o : option float) : bool :=
  match o with Some f => negb (PrimFloat.eqb f 0%float) | None => true end.

(** [_pct_change(current, d) if _is_number(current) and _is_number(d) and d != 0 else None]. *)
Definition trend_change (current d : option float) : res (option float) :=
  let* okc := _is_number (of_opt current) in
  if negb okc then Ok None else
  let* okd := _is_number (of_opt d) in
  if negb okd then Ok None else
  if negb (py_ne_zero d) then Ok None else
  _pct_change (of_opt current) (of_opt d).

(** [_build_eps_trend_snapshot(eps_trend_df)], given the row
    [_find_period_row] found (its label and values), or [None]. *)
Definition _build_eps_trend_snapshot (found : option (string * eps_trend_row)) : res eps_trend_snapshot :=
  match found with
  | None => Ok empty_eps_trend
  | Some (period, row) =>
      let* current := _round (of_opt (tr_current row)) in
      let* d7 := _round (of_opt (tr_d7 row)) in
      let* d30 := _round (of_opt (tr_d30 row)) in
      let* d60 := _round (of_opt (tr_d60 row)) in
      let* d90 := _round (of_opt (tr_d90 row)) in
      let* change_30 := trend_change current d30 in
      let* change_90 := trend_change current d90 in
      let* ok90 := _is_number (of_opt change_90) in
      let driver_change := if ok90 then change_90 else change_30 in
      let* okd := _is_number (of_opt driver_change) in
      let '(signal, conclusion) :=
        match driver_change with
        | Some d =>
            if negb okd then (SignalInsufficient, TrendNoData)
            else if PrimFloat.leb 8 d then (SignalUp, TrendStrongUp)
            else if PrimFloat.leb 3 d then (SignalUp, TrendMildUp)
            else if PrimFloat.leb d (-8) then (SignalDown, TrendStrongDown)
            else if PrimFloat.leb d (-3) then (SignalDown, TrendMildDown)
            else (SignalFlat, TrendFlat)
        | None => (SignalInsufficient, TrendNoData)
        end in
      Ok {| et_period := Some period; et_current := current; et_d7 := d7; et_d30 := d30;
            et_d60 := d60; et_d90 := d90; et_change_vs_30d_pct := change_30;
            et_change_vs_90d_pct := change_90; et_signal := signal; et_conclusion := conclusion |}
  end.

Inductive overall_conclusion :=
| OverallInsufficient  (* 信息不足：预期与指引证据不完整，暂不形成方向性判断。 *)
| OverallPositive      (* 综合结论：预期与指引信号偏积极，... *)
| OverallCautious      (* 综合结论：预期与指引信号偏谨慎，... *)
| OverallMixed.        (* 综合结论：预期与指引信号分化，... *)

(** [_build_expectation_overall_conclusion(beat_miss, guidance, eps_trend)];
    the [guidance] argument is not read. *)
Definition _build_expectation_overall_conclusion (beat_miss : beat_miss_snapshot)
    (eps_trend : eps_trend_snapshot) : overall_conclusion :=
  let '(score, has_signal) :=
    match latest_result beat_miss with
    | Beat => (1, true)
    | Miss => (-1, true)
    | _ => (0, false)
    end in
  let '(score, has_signal) :=
    if (3 <=? beat_streak_4q beat_miss)%nat then (score + 1, true)
    else if (2 <=? miss_count_4q beat_miss)%nat then (score - 1, true)
    else (score, has_signal) in
  let '(score, has_signal) :=
    match et_signal eps_trend with
    | SignalUp => (score + 1, true)
    | SignalDown => (score - 1, true)
    | _ => (score, has_signal)
    end in
  if negb has_signal then OverallInsufficient
  else if 2 <=? score then OverallPositive
  else if score <=? -2 then OverallCautious
  else OverallMixed.

(** [snapshot] of [_build_expectation_guidance_snapshot]: the beat/miss and
    EPS-trend snapshots and the overall conclusion (the guidance part is an
    empty structure kept for the front end). *)
Record expectation_snapshot := {
  ex_beat_miss : beat_miss_snapshot;
  ex_eps_trend : eps_trend_snapshot;
  ex_overall : overall_conclusion
}.

(** [_build_expectation_guidance_snapshot(symbol)], given what yfinance
    returned: the earnings-history rows and the EPS-trend row found. *)
Definition _build_expectation_guidance_snapshot {history_row : Type}
    (row_record : history_row -> bm_record) (earnings_history_df : list history_row)
    (eps_found : option (string * eps_trend_row)) : res expectation_snapshot :=
  let beat_miss := _build_beat_miss_snapshot history_row row_record earnings_history_df in
  let* eps_trend := _build_eps_trend_snapshot eps_found in
  let overall := _build_expectation_overall_conclusion beat_miss eps_trend in
  Ok {| ex_beat_miss := beat_miss; ex_eps_trend := eps_trend; ex_overall := overall |}.

(* ------------------------------------------------------------------ *)
(** ** Realtime quotes ([stock_service.py: _merge_realtime_snapshot]) *)

(** [d[key] = value] on a dict: replaces the value in place, or appends. *)
Fixpoint dict_set (k : string) (v : json) (m : dict) : dict :=
  match m with
  | [] => [(k, v)]
  | (k', v') :: m' => if String.eqb k k' then (k', v) :: m' else (k', v') :: dict_set k v m'
  end.

(** One pass of the loop: [if merged.get(key) is None: merged[key] = value]. *)
Definition merge_realtime_step (merged : dict) (kv : string * json) : dict :=
  let '(key, value) := kv in
  match assoc_get key merged with
  | None | Some JNull => dict_set key value merged
  | Some _ => merged
  end.

(** [_merge_realtime_snapshot(primary, fallback)] ([merged = dict(primary)]). *)
Definition _merge_realtime_snapshot (primary fallback : dict) : dict :=
  fold_left merge_realtime_step fallback primary.

(* ------------------------------------------------------------------ *)
(** ** Search snippets ([stock_service.py: _compact_text]) *)

(** [str.split()] with no separator: runs of whitespace separate the
    words, and no word is empty; [acc] is the current word, reversed. *)
Fixpoint split_ws_acc (acc : list Z) (l : list Z) : list (list Z) :=
  match l with
  | [] => match acc with [] => [] | _ => [rev acc] end
  | c :: r =>
      if py_isspace_cp c
      then match acc with [] => split_ws_acc [] r | _ => rev acc :: split_ws_acc [] r end
      else split_ws_acc (c :: acc) r
  end.

Definition py_split_ws (l : list Z) : list (list Z) := split_ws_acc [] l.

(** [" ".join(words)]. *)
Fixpoint join_space (ws : list (list Z)) : list Z :=
  match ws with
  | [] => []
  | w :: r => match r with [] => w | _ => w ++ 32 :: join_space r end
  end.

(** [text[:n]], a negative [n] counting from the end. *)
Definition py_take (n : Z) (l : list Z) : list Z :=
  firstn (Z.to_nat (if 0 <=? n then n else Z.of_nat (List.length l) + n)) l.

Definition SEARCH_SNIPPET_MAX_LEN : Z := 260.

(** [_compact_text(value, max_len)], on [str(value or "")]. *)
Definition _compact_text (value : list Z) (max_len : Z) : list Z :=
  let text := join_space (py_split_ws value) in
  if Z.of_nat (List.length text) <=? max_len then text
  else if max_len <=? 3 then py_take max_len text
  else rstrip_cp (py_take (max_len - 3) text) ++ [46; 46; 46].

(** Words as [str.split()] returns them. *)
Definition good_word (w : list Z) : Prop :=
  w <> [] /\ Forall (fun c => py_isspace_cp c = false) w.

(** Text that is [" ".join] of such words. *)
Definition single_spaced (t : list Z) : Prop :=
  exists ws, Forall good_word ws /\ t = join_space ws.

(* ------------------------------------------------------------------ *)
(** ** Requested stocks ([stock_service.py: _select_requested_stocks]) *)

(** Python truthiness of a JSON value. *)
Definition py_truthy (v : json) : bool :=
  match v with
  | JNull => false
  | JBool b => b
  | JNum f => negb (PrimFloat.eqb f 0%float)
  | JStr s => negb (String.eqb s "")
  | JArr l => match l with [] => false | _ => true end
  | JObj kvs => match kvs with [] => false | _ => true end
  end.


Section SelectRequested.

(** [str(v)] of a number, list or dict. *)
Variable py_str_other : json -> string.

(** [str(v)]. *)
Definition py_str_json (v : json) : string :=
  match v with
  | JNull => "None"
  | JBool true => "True"
  | JBool false => "False"
  | JStr s => s
  | _ => py_str_other v
  end.




End SelectRequested.

(* ------------------------------------------------------------------ *)
(** ** Fetch errors ([app.py: _extract_stock_errors]) *)

Section StockErrors.

(** [str(v)] of a number, list or dict. *)

Variable py_str_other : json -> string.

(** [str(v or "")] on [dict.get]'s result. *)
Definition py_str_or_empty (o : option json) : string :=
  match o with
  | Some v => if py_truthy v then py_str_json py_str_other v else ""
  | None => ""
  end.

(** [_extract_stock_errors(stocks)]; each item [{"symbol": ..., "error": ...}]
    as the pair of its two strings. *)
Definition _extract_stock_errors (stocks : list json) : list (string * string) :=
  flat_map (fun stock =>
    match stock with
    | JObj kvs =>
        let text := py_strip (py_str_or_empty (assoc_get "error" kvs)) in
        if String.eqb text "" then [] else
        let symbol := py_upper (py_strip (py_str_or_empty (assoc_get "symbol" kvs))) in
        [(if String.eqb symbol "" then "--" else symbol, text)]
    | _ => []
    end) stocks.

End StockErrors.

(* ================================================================== *)
(** * Properties *)

(* ------------------------------------------------------------------ *)
(** ** Binary64 facts *)

Lemma sfdiv_self s m e :
  SpecFloat.SFdiv FloatOps.prec FloatOps.emax
    (SpecFloat.S754_finite s m e) (SpecFloat.S754_finite s m e)
  = SpecFloat.S754_finite false (2 ^ 52)%positive (-52).
Proof.
  unfold SpecFloat.SFdiv, SpecFloat.SFdiv_core_binary.
  rewrite Z.sub_diag, Z.sub_diag, Bool.xorb_nilpotent.
  change (SpecFloat.fexp FloatOps.prec FloatOps.emax 0) with (-53).
  change (Z.min (-53) 0) with (-53).
  change (0 - -53) with 53.
  rewrite Z.shiftl_mul_pow2 by lia.
  assert (Hd : Z.div_eucl (Z.pos m * 2 ^ 53) (Z.pos m) = (2 ^ 53, 0)).
  { pose proof (Z.div_mul (2 ^ 53) (Z.pos m) ltac:(lia)) as Hq.
    pose proof (Z.mod_mul (2 ^ 53) (Z.pos m) ltac:(lia)) as Hr.
    rewrite Z.mul_comm in Hq, Hr.
    unfold Z.div, Z.modulo in *.
    destruct (Z.div_eucl (Z.pos m * 2 ^ 53) (Z.pos m)).
    subst; reflexivity. }
  rewrite Hd.
  assert (Hl : SpecFloat.new_location (Z.pos m) 0 = SpecFloat.loc_Exact).
  { unfold SpecFloat.new_location, SpecFloat.new_location_even,
      SpecFloat.new_location_odd.
    destruct (Z.even (Z.pos m)); reflexivity. }
  rewrite Hl.
  vm_compute. reflexivity.
Qed.

(** [x / x = 1] for every finite non-zero double. *)
Lemma prim_div_self (x : float) :
  PrimFloat.is_finite x = true -> PrimFloat.eqb x 0%float = false ->
  PrimFloat.div x x = 1%float.
Proof.
  unfold PrimFloat.is_finite, PrimFloat.is_nan, PrimFloat.is_infinity.
  rewrite !FloatAxioms.eqb_spec, FloatAxioms.abs_spec.
  intros Hfin Hnz.
  rewrite <- (FloatAxioms.SF2Prim_Prim2SF (PrimFloat.div x x)), FloatAxioms.div_spec.
  change (FloatOps.Prim2SF PrimFloat.infinity) with (SpecFloat.S754_infinity false) in Hfin.
  change (FloatOps.Prim2SF 0%float) with (SpecFloat.S754_zero false) in Hnz.
  destruct (FloatOps.Prim2SF x) as [sx|sx| |sx mx ex]; simpl in Hfin, Hnz;
    try discriminate.
  - destruct sx; discriminate.
  - unfold FloatAxioms.SF64div. rewrite sfdiv_self. vm_compute. reflexivity.
Qed.

(** No float is both above [0.5] and below [-0.5]. *)
Lemma float_not_above_and_below (s : float) :
  PrimFloat.ltb 0.5%float s = true -> PrimFloat.ltb s (-0.5)%float = false.
Proof.
  rewrite !FloatAxioms.ltb_spec.
  change (FloatOps.Prim2SF 0.5%float) with (SpecFloat.S754_finite false 4503599627370496 (-53)).
  change (FloatOps.Prim2SF (-0.5)%float) with (SpecFloat.S754_finite true 4503599627370496 (-53)).
  destruct (FloatOps.Prim2SF s) as [[]|[]| |[] m e]; try reflexivity; discriminate.
Qed.

(** A float above zero is not at most zero. *)
Lemma float_pos_not_le0 (s : float) :
  PrimFloat.ltb 0%float s = true -> PrimFloat.leb s 0%float = false.
Proof.
  rewrite FloatAxioms.ltb_spec, FloatAxioms.leb_spec.
  change (FloatOps.Prim2SF 0%float) with (SpecFloat.S754_zero false).
  destruct (FloatOps.Prim2SF s) as [[]|[]| |[] m e]; try reflexivity; discriminate.
Qed.

(* ------------------------------------------------------------------ *)
(** ** Evaluation of the numeric guards *)

Lemma is_number_convertible (v : pyval) :
  float_convertible v = true -> exists b, _is_number v = Ok b.
Proof.
  destruct v; cbn [float_convertible]; unfold _is_number, py_isnan; eauto.
  destruct (int_to_float z); simpl; eauto. discriminate.
Qed.

Lemma float_num_of_number (v : pyval) :
  float_convertible v = true -> _is_number v = Ok true -> exists f, py_float_num v = Ok f.
Proof.
  intros Hc Hn; destruct v; cbn [float_convertible py_float_num] in *;
    try (vm_compute in Hn; discriminate); eauto.
  destruct (int_to_float z); eauto; discriminate.
Qed.

Lemma classify_surprise_opt_ok (o : option float) :
  exists c, _classify_surprise (of_opt o) = Ok c.
Proof.
  destruct o as [f|]; unfold _classify_surprise; simpl; eauto.
  destruct (PrimFloat.is_nan f); simpl; eauto.
  destruct (PrimFloat.ltb 0.5 f), (PrimFloat.ltb f (-0.5)); eauto.
Qed.

(* ------------------------------------------------------------------ *)
(** ** C7: earnings-surprise classification *)

(** C7 (confirmed). A numeric surprise [s] (a non-NaN float, or an int
    that [_is_number] accepts) classifies as [beat] exactly when
    [s > 0.5], as [miss] exactly when [s < -0.5], and as [inline]
    otherwise; [7.87] is a beat, [-3.0] a miss, [0.2] inline; a value
    [_is_number] rejects is [insufficient]. *)
Theorem classify_surprise_thresholds :
  (forall s : float, PrimFloat.is_nan s = false ->
     (_classify_surprise (PyFloat s) = Ok Beat <-> PrimFloat.ltb 0.5%float s = true) /\
     (_classify_surprise (PyFloat s) = Ok Miss <-> PrimFloat.ltb s (-0.5)%float = true) /\
     (_classify_surprise (PyFloat s) = Ok Inline <->
        PrimFloat.ltb 0.5%float s = false /\ PrimFloat.ltb s (-0.5)%float = false)) /\
  (forall z : Z, _is_number (PyInt z) = Ok true ->
     (_classify_surprise (PyInt z) = Ok Beat <-> 1 < 2 * z) /\
     (_classify_surprise (PyInt z) = Ok Miss <-> 2 * z < -1) /\
     (_classify_surprise (PyInt z) = Ok Inline <-> -1 <= 2 * z <= 1)) /\
  (forall v : pyval, _is_number v = Ok false -> _classify_surprise v = Ok Insufficient) /\
  _classify_surprise (PyFloat 7.87%float) = Ok Beat /\
  _classify_surprise (PyFloat (-3.0)%float) = Ok Miss /\
  _classify_surprise (PyFloat 0.2%float) = Ok Inline.
Proof.
  split; [|split; [|split; [|split; [|split]]]];
    try (vm_compute; reflexivity).
  - intros s Hs. unfold _classify_surprise, _is_number, py_isnan. simpl.
    rewrite Hs. simpl.
    destruct (PrimFloat.ltb 0.5 s) eqn:Hgt.
    + pose proof (float_not_above_and_below s Hgt) as Hlt. rewrite Hlt.
      repeat split; intros; try discriminate; try reflexivity;
        destruct_and?; congruence.
    + destruct (PrimFloat.ltb s (-0.5)) eqn:Hlt;
        repeat split; intros; try discriminate; try reflexivity;
        destruct_and?; congruence.
  - intros z Hz. unfold _classify_surprise. rewrite Hz. simpl.
    destruct (1 <=? z) eqn:H1; [|destruct (z <=? -1) eqn:H2];
      rewrite ?Z.leb_le, ?Z.leb_gt in *;
      repeat split; intros; try discriminate; try reflexivity; lia.
  - intros v Hv. unfold _classify_surprise. rewrite Hv. reflexivity.
Qed.

Lemma classify_surprise_thresholds_witness :
  PrimFloat.is_nan 7.87%float = false /\
  _classify_surprise (PyFloat 7.87%float) = Ok Beat /\
  _is_number (PyInt 3) = Ok true /\
  _classify_surprise (PyInt 3) = Ok Beat /\
  _classify_surprise PyNone = Ok Insufficient.
Proof.
  destruct classify_surprise_thresholds as [Hf [Hz [Hn _]]].
  split; [reflexivity|]. split; [apply (proj1 (Hf 7.87%float eq_refl)); reflexivity|].
  split; [reflexivity|]. split; [apply (proj1 (Hz 3 eq_refl)); lia|].
  apply Hn. reflexivity.
Defined.

(* ------------------------------------------------------------------ *)
(** ** C8: [_pct_change] *)

(** C8 (counterexample). [_pct_change(inf, inf)] is NaN, not [0]: the
    infinity is a non-zero number that [_is_number] accepts. *)
Lemma pct_change_self_at_infinity :
  _pct_change (PyFloat PrimFloat.infinity) (PyFloat PrimFloat.infinity)
    <> Ok (Some 0%float).
Proof. vm_compute. discriminate. Qed.

(** C8 (amended). For every finite non-zero float [x],
    [_pct_change(x, x) = 0]; for arguments that convert to float,
    [_pct_change(new, old)] is [None] when either is non-numeric or [old]
    is zero, and otherwise [round((new / old - 1) * 100, 2)]. *)
Theorem pct_change_spec :
  (forall x : float, PrimFloat.is_finite x = true -> PrimFloat.eqb x 0%float = false ->
     _pct_change (PyFloat x) (PyFloat x) = Ok (Some 0%float)) /\
  (forall new old : pyval, float_convertible new = true -> float_convertible old = true ->
     (_is_number new = Ok false \/ _is_number old = Ok false \/
      (exists fo, _is_number old = Ok true /\ py_float_num old = Ok fo /\
                  PrimFloat.eqb fo 0%float = true)) ->
     _pct_change new old = Ok None) /\
  (forall (new old : pyval) (fn fo : float),
     _is_number new = Ok true -> _is_number old = Ok true ->
     py_float_num new = Ok fn -> py_float_num old = Ok fo ->
     PrimFloat.eqb fo 0%float = false ->
     _pct_change new old =
       Ok (Some (py_round2 (PrimFloat.mul (PrimFloat.sub (PrimFloat.div fn fo) 1%float) 100%float)))).
Proof.
  split; [|split].
  - intros x Hfin Hnz.
    assert (Hnan : PrimFloat.is_nan x = false).
    { unfold PrimFloat.is_finite in Hfin. destruct (PrimFloat.is_nan x); [discriminate|reflexivity]. }
    unfold _pct_change, _is_number, py_isnan. simpl. rewrite Hnan. simpl.
    rewrite Hnz. simpl. rewrite prim_div_self by assumption.
    vm_compute. reflexivity.
  - intros new old Hcn Hco Hcase.
    destruct (is_number_convertible new Hcn) as [bn Hn].
    destruct (is_number_convertible old Hco) as [bo Ho].
    unfold _pct_change. rewrite Hn. simpl.
    destruct bn; simpl; [|reflexivity].
    rewrite Ho. simpl. destruct bo; simpl; [|reflexivity].
    destruct Hcase as [H|[H|[fo [_ [Hf Hz]]]]]; try congruence.
    rewrite Hf. simpl. rewrite Hz. reflexivity.
  - intros new old fn fo Hn Ho Hfn Hfo Hz.
    unfold _pct_change. rewrite Hn. simpl. rewrite Ho. simpl. rewrite Hfo. simpl.
    rewrite Hz. simpl. rewrite Hfn. reflexivity.
Qed.

Lemma pct_change_spec_witness :
  _pct_change (PyFloat 3.5%float) (PyFloat 3.5%float) = Ok (Some 0%float) /\
  _pct_change (PyInt 5) (PyInt 0) = Ok None /\
  _pct_change (PyFloat 110%float) (PyFloat 100%float) =
    Ok (Some (py_round2 (PrimFloat.mul (PrimFloat.sub (PrimFloat.div 110 100) 1) 100)))%float.
Proof.
  destruct pct_change_spec as [H1 [H2 H3]].
  split; [apply H1; reflexivity|]. split.
  - apply H2; try reflexivity. right; right. exists 0%float. repeat split.
  - apply H3; reflexivity.
Defined.

(* ------------------------------------------------------------------ *)
(** ** C9: totality of the numeric helpers *)

(** [float(int)] fails only with [OverflowError]. *)
Lemma int_to_float_overflow (z : Z) :
  float_convertible (PyInt z) = false -> int_to_float z = Raise OverflowError.
Proof.
  cbn [float_convertible]. unfold int_to_float.
  destruct (SpecFloat.binary_normalize FloatOps.prec FloatOps.emax z 0 false);
    try discriminate; reflexivity.
Qed.

Lemma is_number_overflow (z : Z) :
  float_convertible (PyInt z) = false -> _is_number (PyInt z) = Raise OverflowError.
Proof.
  intros Hz. unfold _is_number, py_isnan. rewrite (int_to_float_overflow z Hz). reflexivity.
Qed.

Lemma round_float_ok (x : float) : exists r, _round (PyFloat x) = Ok r.
Proof.
  unfold _round, _is_number, py_isnan. simpl.
  destruct (PrimFloat.is_nan x); simpl; eauto.
Qed.

(** C9 (counterexample). [_pct_change(inf, inf)] returns NaN, and
    [_to_billions(2**1024)] raises [OverflowError] inside [_is_number]. *)
Lemma numeric_helpers_nan_and_overflow :
  (exists f, _pct_change (PyFloat PrimFloat.infinity) (PyFloat PrimFloat.infinity) = Ok (Some f)
             /\ PrimFloat.is_nan f = true) /\
  _to_billions (PyInt (2 ^ 1024)) = Raise OverflowError.
Proof.
  split.
  - exists PrimFloat.nan. split; vm_compute; reflexivity.
  - vm_compute. reflexivity.
Qed.

(** The four helpers never raise on arguments that convert to float. *)
Lemma numeric_helpers_ok (a b : pyval) :
  float_convertible a = true -> float_convertible b = true ->
  (exists r, _pct_change a b = Ok r) /\ (exists r, _to_bounded_pct a b = Ok r) /\
  (exists r, _to_billions a = Ok r) /\ (exists r, _round a = Ok r).
Proof.
  intros Ha Hb.
  destruct (is_number_convertible a Ha) as [ba Hna].
  destruct (is_number_convertible b Hb) as [bb Hnb].
  assert (Hfa : ba = true -> exists f, py_float_num a = Ok f)
    by (intros ->; apply float_num_of_number; assumption).
  assert (Hfb : bb = true -> exists f, py_float_num b = Ok f)
    by (intros ->; apply float_num_of_number; assumption).
  split; [|split; [|split]].
  - unfold _pct_change. rewrite Hna. simpl. destruct ba; simpl; eauto.
    rewrite Hnb. simpl. destruct bb; simpl; eauto.
    destruct (Hfb eq_refl) as [fb ->]. simpl. destruct (PrimFloat.eqb fb 0); simpl; eauto.
    destruct (Hfa eq_refl) as [fa ->]. simpl. eauto.
  - unfold _to_bounded_pct. rewrite Hna. simpl. destruct ba; simpl; eauto.
    rewrite Hnb. simpl. destruct bb; simpl; eauto.
    destruct (Hfb eq_refl) as [fb ->]. simpl. destruct (PrimFloat.eqb fb 0); simpl; eauto.
    destruct (Hfa eq_refl) as [fa ->]. simpl. apply round_float_ok.
  - unfold _to_billions. rewrite Hna. simpl. destruct ba; simpl; eauto.
    destruct (Hfa eq_refl) as [fa ->]. simpl. eauto.
  - unfold _round. rewrite Hna. simpl. destruct ba; simpl; eauto.
    destruct (Hfa eq_refl) as [fa ->]. simpl. eauto.
Qed.

(** C9 (amended). The shared [_is_number] guard rejects booleans, NaN,
    strings and [None]. On arguments that convert to float (every value
    except an int beyond the float range) [_pct_change], [_to_bounded_pct],
    [_to_billions] and [_round] never raise and return [None] or a float;
    that float may be infinite ([_round(inf)] is [inf]), and
    [_to_bounded_pct(inf, inf)] is [None] because [_round] turns its NaN
    ratio into [None]. An int [z] beyond the float range makes
    [_is_number] raise [OverflowError]: [_round] and [_to_billions] raise
    it on [z], and [_pct_change] and [_to_bounded_pct] raise it when [z]
    is the first argument, or the second after a numeric first argument;
    after a non-numeric first argument they return [None]. *)
Theorem numeric_helpers_total :
  (forall b : bool, _is_number (PyBool b) = Ok false) /\
  (forall f : float, PrimFloat.is_nan f = true -> _is_number (PyFloat f) = Ok false) /\
  (forall s : string, _is_number (PyStr s) = Ok false) /\
  _is_number PyNone = Ok false /\
  (forall a b : pyval, float_convertible a = true -> float_convertible b = true ->
     (exists r, _pct_change a b = Ok r) /\ (exists r, _to_bounded_pct a b = Ok r) /\
     (exists r, _to_billions a = Ok r) /\ (exists r, _round a = Ok r)) /\
  _round (PyFloat PrimFloat.infinity) = Ok (Some PrimFloat.infinity) /\
  _to_bounded_pct (PyFloat PrimFloat.infinity) (PyFloat PrimFloat.infinity) = Ok None /\
  (forall z : Z, float_convertible (PyInt z) = false ->
     _is_number (PyInt z) = Raise OverflowError /\
     _round (PyInt z) = Raise OverflowError /\
     _to_billions (PyInt z) = Raise OverflowError /\
     (forall b : pyval, _pct_change (PyInt z) b = Raise OverflowError /\
                        _to_bounded_pct (PyInt z) b = Raise OverflowError) /\
     (forall a : pyval, _is_number a = Ok true ->
        _pct_change a (PyInt z) = Raise OverflowError /\
        _to_bounded_pct a (PyInt z) = Raise OverflowError) /\
     (forall a : pyval, _is_number a = Ok false ->
        _pct_change a (PyInt z) = Ok None /\ _to_bounded_pct a (PyInt z) = Ok None)).
Proof.
  split; [reflexivity|]. split; [|split; [reflexivity|split; [reflexivity|split; [|split; [|split]]]]].
  - intros f Hf. unfold _is_number, py_isnan. simpl. rewrite Hf. reflexivity.
  - exact numeric_helpers_ok.
  - vm_compute. reflexivity.
  - vm_compute. reflexivity.
  - intros z Hz. pose proof (is_number_overflow z Hz) as Hn.
    split; [exact Hn|]. split; [|split; [|split; [|split]]].
    + unfold _round. rewrite Hn. reflexivity.
    + unfold _to_billions. rewrite Hn. reflexivity.
    + intros b. unfold _pct_change, _to_bounded_pct. rewrite Hn. split; reflexivity.
    + intros a Ha. unfold _pct_change, _to_bounded_pct. rewrite Ha, Hn. split; reflexivity.
    + intros a Ha. unfold _pct_change, _to_bounded_pct. rewrite Ha. split; reflexivity.
Qed.

Lemma numeric_helpers_total_witness :
  _is_number (PyFloat PrimFloat.nan) = Ok false /\
  (exists r, _pct_change (PyInt 7) (PyFloat 2%float) = Ok r) /\
  _pct_change (PyFloat 3%float) (PyInt (2 ^ 1024)) = Raise OverflowError /\
  _to_bounded_pct (PyStr "x") (PyInt (2 ^ 1024)) = Ok None.
Proof.
  destruct numeric_helpers_total as [_ [Hnan [_ [_ [Htot [_ [_ Hbig]]]]]]].
  split; [apply Hnan; reflexivity|]. split.
  - apply (Htot (PyInt 7) (PyFloat 2%float)); reflexivity.
  - destruct (Hbig (2 ^ 1024)) as [_ [_ [_ [_ [Hnum Hnon]]]]]; [vm_compute; reflexivity|].
    split; [apply (Hnum (PyFloat 3%float)); reflexivity|].
    apply (Hnon (PyStr "x")); reflexivity.
Defined.

(* ------------------------------------------------------------------ *)
(** ** C5: share-count normalisation for EPS *)

(** C5 (counterexample). A net income of exactly [100,000,000] already
    triggers the multiplication: the comparison is [>=], not [>]. *)
Lemma normalize_shares_at_threshold :
  _normalize_shares_for_eps (PyFloat 500000%float) (PyFloat 1e8%float)
    = Ok (Some 5e11%float) /\
  _normalize_shares_for_eps (PyFloat 500000%float) (PyFloat 1e8%float)
    <> Ok (Some 500000%float).
Proof. split; vm_compute; [reflexivity | discriminate]. Qed.

(** C5 (amended). Non-numeric shares, and numeric shares [s <= 0], give
    [None]; a share count [0 < s < 1,000,000] is multiplied by [1,000,000]
    when the net income is numeric with magnitude at least [100,000,000];
    any other positive share count is returned unchanged. *)
Theorem normalize_shares_spec :
  (forall shares ni : pyval, _is_number shares = Ok false ->
     _normalize_shares_for_eps shares ni = Ok None) /\
  (forall (shares ni : pyval) (s : float),
     _is_number shares = Ok true -> py_float_num shares = Ok s ->
     PrimFloat.leb s 0%float = true ->
     _normalize_shares_for_eps shares ni = Ok None) /\
  (forall (shares ni : pyval) (s n : float),
     _is_number shares = Ok true -> py_float_num shares = Ok s ->
     PrimFloat.ltb 0%float s = true -> PrimFloat.ltb s 1e6%float = true ->
     _is_number ni = Ok true -> py_float_num ni = Ok n ->
     PrimFloat.leb 1e8%float (PrimFloat.abs n) = true ->
     _normalize_shares_for_eps shares ni = Ok (Some (PrimFloat.mul s 1e6%float))) /\
  (forall (shares ni : pyval) (s : float),
     _is_number shares = Ok true -> py_float_num shares = Ok s ->
     PrimFloat.ltb 0%float s = true ->
     (PrimFloat.ltb s 1e6%float = false \/ _is_number ni = Ok false \/
      exists n, _is_number ni = Ok true /\ py_float_num ni = Ok n /\
                PrimFloat.leb 1e8%float (PrimFloat.abs n) = false) ->
     _normalize_shares_for_eps shares ni = Ok (Some s)).
Proof.
  split; [|split; [|split]].
  - intros shares ni H. unfold _normalize_shares_for_eps. rewrite H. reflexivity.
  - intros shares ni s Hn Hs Hle. unfold _normalize_shares_for_eps.
    rewrite Hn. simpl. rewrite Hs. simpl. rewrite Hle. reflexivity.
  - intros shares ni s n Hn Hs Hpos Hlt Hni Hnf Hbig. unfold _normalize_shares_for_eps.
    rewrite Hn. simpl. rewrite Hs. simpl. rewrite (float_pos_not_le0 s Hpos), Hlt.
    simpl. rewrite Hni. simpl. rewrite Hnf. simpl. rewrite Hbig. reflexivity.
  - intros shares ni s Hn Hs Hpos Hcase. unfold _normalize_shares_for_eps.
    rewrite Hn. simpl. rewrite Hs. simpl. rewrite (float_pos_not_le0 s Hpos).
    destruct Hcase as [Hge | [Hni | [n [Hni [Hnf Hsmall]]]]].
    + rewrite Hge. reflexivity.
    + destruct (PrimFloat.ltb s 1e6); simpl; [rewrite Hni|]; reflexivity.
    + destruct (PrimFloat.ltb s 1e6); simpl; [|reflexivity].
      rewrite Hni. simpl. rewrite Hnf. simpl. rewrite Hsmall. reflexivity.
Qed.

Lemma normalize_shares_spec_witness :
  _normalize_shares_for_eps (PyStr "n/a") PyNone = Ok None /\
  _normalize_shares_for_eps (PyInt 0) PyNone = Ok None /\
  _normalize_shares_for_eps (PyFloat 500000%float) (PyInt (-200000000))
    = Ok (Some (PrimFloat.mul 500000%float 1e6%float)) /\
  _normalize_shares_for_eps (PyFloat 500000%float) (PyFloat 5e7%float)
    = Ok (Some 500000%float).
Proof.
  destruct normalize_shares_spec as [H1 [H2 [H3 H4]]].
  split; [apply H1; reflexivity|]. split.
  - apply (H2 (PyInt 0) PyNone 0%float); reflexivity.
  - split.
    + apply (H3 _ _ 500000%float (-2e8)%float); vm_compute; reflexivity.
    + apply (H4 _ _ 500000%float); try reflexivity.
      right; right. exists 5e7%float. split; [reflexivity|]. split; [reflexivity|].
      vm_compute; reflexivity.
Defined.

(* ------------------------------------------------------------------ *)
(** ** C6: currency inference *)

Lemma split_first_cp_some (c : Z) (l b a : list Z) :
  split_first_cp c l = Some (b, a) -> l = b ++ c :: a /\ ~ In c b.
Proof.
  revert b a. induction l as [|d l IH]; intros b a; simpl; [discriminate|].
  destruct (Z.eqb_spec c d) as [E|E].
  - intros H. injection H as <- <-. subst. simpl. auto.
  - destruct (split_first_cp c l) as [[b' a']|] eqn:Hs; [|discriminate].
    intros H. injection H as <- <-. destruct (IH b' a' eq_refl) as [-> Hn].
    split; [reflexivity|]. intros [H|H]; [congruence|auto].
Qed.

Lemma split_first_cp_none (c : Z) (l : list Z) :
  split_first_cp c l = None <-> ~ In c l.
Proof.
  split.
  - induction l as [|d l IH]; simpl; [tauto|].
    destruct (Z.eqb_spec c d) as [E|E]; [discriminate|].
    destruct (split_first_cp c l); [destruct p; discriminate|].
    intros _ [H|H]; [congruence|]. exact (IH eq_refl H).
  - intros Hn. destruct (split_first_cp c l) as [[b a]|] eqn:Hs; [|reflexivity].
    exfalso. apply Hn. destruct (split_first_cp_some c l b a Hs) as [-> _].
    apply in_or_app. right. left. reflexivity.
Qed.

Lemma rsplit_dot_cp_some (s base suffix : list Z) :
  rsplit_dot_cp s = Some (base, suffix) -> s = base ++ 46 :: suffix /\ ~ In 46 suffix.
Proof.
  unfold rsplit_dot_cp.
  destruct (split_first_cp 46 (rev s)) as [[sr br]|] eqn:Hs; [|discriminate].
  intros H. injection H as <- <-.
  destruct (split_first_cp_some _ _ _ _ Hs) as [Heq Hn].
  split.
  - rewrite <- (rev_involutive s), Heq, rev_app_distr.
    simpl. rewrite <- app_assoc. reflexivity.
  - rewrite <- in_rev. exact Hn.
Qed.

Lemma rsplit_dot_cp_none (s : list Z) : rsplit_dot_cp s = None <-> ~ In 46 s.
Proof.
  unfold rsplit_dot_cp. rewrite in_rev, <- split_first_cp_none.
  destruct (split_first_cp 46 (rev s)) as [[? ?]|]; split; congruence.
Qed.

(** C6 (counterexample). A one-letter suffix after a non-alphabetic base
    gives no currency ([1A.B]), and a blank symbol, which has no dot, gives
    none either. *)
Lemma infer_currency_unmatched_cases :
  _infer_currency_from_symbol (ascii_cps "1A.B") = None /\
  _infer_currency_from_symbol (ascii_cps "  ") = None.
Proof. split; vm_compute; reflexivity. Qed.

(** C6 (amended). With [raw] the stripped, upper-cased symbol (Unicode
    [str.strip()] and [str.upper()]): an empty [raw] gives no currency; a
    non-empty [raw] without a dot gives [USD]; otherwise [raw] is split at
    its last dot into a base and a suffix, and a suffix of the exchange
    table gives that table's currency, a one-code-point suffix outside the
    table with a base that [str.isalpha()] accepts (non-empty, all
    letters) gives [USD], and anything else gives no currency. [0700.HK]
    gives [HKD]; [BF.B], [NVDA] and [äb.c] give [USD]. *)
Theorem infer_currency_spec :
  (forall symbol, norm_symbol_cp symbol = [] -> _infer_currency_from_symbol symbol = None) /\
  (forall symbol, norm_symbol_cp symbol <> [] -> ~ In 46 (norm_symbol_cp symbol) ->
     _infer_currency_from_symbol symbol = Some "USD"%string) /\
  (forall symbol base suffix, rsplit_dot_cp (norm_symbol_cp symbol) = Some (base, suffix) ->
     norm_symbol_cp symbol = base ++ 46 :: suffix /\
     ~ In 46 suffix /\
     (forall m, suffix_currency suffix SYMBOL_SUFFIX_CURRENCY_MAP = Some m ->
        _infer_currency_from_symbol symbol = Some m) /\
     (suffix_currency suffix SYMBOL_SUFFIX_CURRENCY_MAP = None ->
        List.length suffix = 1%nat -> py_isalpha_cp base = true ->
        _infer_currency_from_symbol symbol = Some "USD"%string) /\
     (suffix_currency suffix SYMBOL_SUFFIX_CURRENCY_MAP = None ->
        (List.length suffix <> 1%nat \/ py_isalpha_cp base = false) ->
        _infer_currency_from_symbol symbol = None)) /\
  _infer_currency_from_symbol (ascii_cps "0700.HK") = Some "HKD"%string /\
  _infer_currency_from_symbol (ascii_cps "BF.B") = Some "USD"%string /\
  _infer_currency_from_symbol (ascii_cps "NVDA") = Some "USD"%string /\
  _infer_currency_from_symbol [228; 98; 46; 99] = Some "USD"%string.
Proof.
  split; [|split; [|split]]; [| | |repeat split; vm_compute; reflexivity].
  - intros symbol H. unfold _infer_currency_from_symbol. rewrite H. reflexivity.
  - intros symbol Hne Hn. apply rsplit_dot_cp_none in Hn.
    unfold _infer_currency_from_symbol.
    destruct (norm_symbol_cp symbol) as [|c r]; [congruence|]. rewrite Hn. reflexivity.
  - intros symbol base suffix Hs.
    destruct (rsplit_dot_cp_some _ _ _ Hs) as [Heq Hn].
    unfold _infer_currency_from_symbol.
    assert (Hne : exists c r, norm_symbol_cp symbol = c :: r)
      by (rewrite Heq; destruct base as [|c r]; eexists _, _; reflexivity).
    destruct Hne as [c [r Hcr]]. rewrite Hcr. rewrite Hcr in Hs. rewrite Hs.
    split; [rewrite <- Hcr; exact Heq|]. split; [exact Hn|].
    split; [intros m -> ; reflexivity|]. split.
    + intros -> Hl Ha. rewrite Hl, Ha. reflexivity.
    + intros -> [Hl|Ha].
      * apply Nat.eqb_neq in Hl. rewrite Hl. reflexivity.
      * rewrite Ha, andb_false_r. reflexivity.
Qed.

Lemma infer_currency_spec_witness :
  norm_symbol_cp (ascii_cps "   ") = [] /\
  _infer_currency_from_symbol (ascii_cps "   ") = None /\
  _infer_currency_from_symbol (ascii_cps " nvda ") = Some "USD"%string /\
  _infer_currency_from_symbol (ascii_cps "brk.b") = Some "USD"%string /\
  _infer_currency_from_symbol [12288; 228; 98; 46; 99] = Some "USD"%string /\
  _infer_currency_from_symbol (ascii_cps "7203.t") = Some "JPY"%string /\
  _infer_currency_from_symbol (ascii_cps "ABC.XYZ") = None.
Proof.
  destruct infer_currency_spec as [H1 [H2 [H3 _]]].
  split; [vm_compute; reflexivity|]. split; [apply H1; vm_compute; reflexivity|]. split.
  { apply H2; vm_compute;
      [discriminate|intros H; repeat (destruct H as [H|H]; [discriminate|]); exact H]. }
  split.
  { destruct (H3 (ascii_cps "brk.b") [66; 82; 75] [66]) as [_ [_ [_ [H _]]]];
      [vm_compute; reflexivity|].
    apply H; vm_compute; reflexivity. }
  split.
  { destruct (H3 [12288; 228; 98; 46; 99] [196; 66] [67]) as [_ [_ [_ [H _]]]];
      [vm_compute; reflexivity|].
    apply H; vm_compute; reflexivity. }
  split.
  { destruct (H3 (ascii_cps "7203.t") (ascii_cps "7203") [84]) as [_ [_ [H _]]];
      [vm_compute; reflexivity|].
    apply H. vm_compute. reflexivity. }
  { destruct (H3 (ascii_cps "ABC.XYZ") (ascii_cps "ABC") (ascii_cps "XYZ")) as [_ [_ [_ [_ H]]]];
      [vm_compute; reflexivity|].
    apply H; [vm_compute; reflexivity|left; vm_compute; discriminate]. }
Defined.

(* ------------------------------------------------------------------ *)
(** ** C10: invariants of the beat/miss snapshot *)

Lemma beats_of_app (l1 l2 : list bm_record) :
  beats_of (l1 ++ l2) = (beats_of l1 + beats_of l2)%nat.
Proof.
  induction l1 as [|x l1 IH]; simpl; [reflexivity|].
  destruct (classify_opt (surprise_pct x)); rewrite IH; reflexivity.
Qed.

Lemma beats_of_rev (l : list bm_record) : beats_of (rev l) = beats_of l.
Proof.
  induction l as [|x l IH]; simpl; [reflexivity|].
  rewrite beats_of_app, IH. simpl.
  destruct (classify_opt (surprise_pct x)); lia.
Qed.

Lemma beat_streak_le_beats (l : list bm_record) : (beat_streak l <= beats_of l)%nat.
Proof.
  induction l as [|x l IH]; simpl; [lia|].
  destruct (classify_opt (surprise_pct x)); lia.
Qed.

Lemma classify_opt_nan_not_beat (f : float) :
  PrimFloat.is_nan f = true -> classify_opt (Some f) = Insufficient.
Proof.
  intros H. unfold classify_opt, _classify_surprise, _is_number, py_isnan. simpl.
  rewrite H. reflexivity.
Qed.

Lemma count_classes_sum (v : list float) :
  let '(b, m, i) := count_classes v in (b + m + i)%nat = List.length v.
Proof.
  induction v as [|x v IH]; simpl; [reflexivity|].
  destruct (count_classes v) as [[b m] i].
  destruct (classify_opt (Some x)); simpl; lia.
Qed.

Lemma count_classes_beats (l : list bm_record) :
  fst (fst (count_classes (numeric_surprises l))) = beats_of l.
Proof.
  induction l as [|x l IH]; simpl; [reflexivity|].
  destruct (surprise_pct x) as [f|] eqn:Hs.
  - destruct (PrimFloat.is_nan f) eqn:Hn.
    + rewrite (classify_opt_nan_not_beat f Hn). exact IH.
    + simpl. destruct (count_classes (numeric_surprises l)) as [[b m] i].
      simpl in IH. subst. destruct (classify_opt (Some f)); reflexivity.
  - exact IH.
Qed.

Lemma numeric_surprises_numeric (l : list bm_record) :
  Forall (fun f => _is_number (PyFloat f) = Ok true) (numeric_surprises l).
Proof.
  induction l as [|x l IH]; simpl; [constructor|].
  destruct (surprise_pct x) as [f|]; [|exact IH].
  destruct (PrimFloat.is_nan f) eqn:Hn; simpl; [exact IH|].
  constructor; [|exact IH]. unfold _is_number, py_isnan. simpl. rewrite Hn. reflexivity.
Qed.

Lemma numeric_surprises_length (l : list bm_record) :
  (List.length (numeric_surprises l) <= List.length l)%nat.
Proof.
  induction l as [|x l IH]; simpl; [lia|].
  destruct (surprise_pct x) as [f|]; [destruct (PrimFloat.is_nan f)|]; simpl; lia.
Qed.

Lemma last4_length {A} (l : list A) : (List.length (last4 l) <= 4)%nat.
Proof. unfold last4. rewrite length_skipn. lia. Qed.

(** C10. For every earnings-history frame, the snapshot's beat, miss and
    inline counts add up to the length of [history_surprise_pct_4q], which
    is at most 4; every element of [history_surprise_pct_4q] is numeric;
    and the beat streak is at most the beat count. *)
Theorem beat_miss_snapshot_invariants (history_row : Type)
    (row_record : history_row -> bm_record) (history_df : list history_row) :
  let s := _build_beat_miss_snapshot history_row row_record history_df in
  (beat_count_4q s + miss_count_4q s + inline_count_4q s)%nat
    = List.length (history_surprise_pct_4q s) /\
  (List.length (history_surprise_pct_4q s) <= 4)%nat /\
  Forall (fun f => _is_number (PyFloat f) = Ok true) (history_surprise_pct_4q s) /\
  (0 <= beat_streak_4q s <= beat_count_4q s)%nat.
Proof.
  unfold _build_beat_miss_snapshot.
  destruct history_df as [|hd tl]; [cbn; split; [|split; [|split]]; try constructor; lia|].
  destruct (filter _ (map row_record (hd :: tl))) as [|r rs];
    [cbn; split; [|split; [|split]]; try constructor; lia|].
  remember (last4 (sort_le (λ a b : bm_record, String.leb (quarter_key a) (quarter_key b)) (r :: rs)))
    as recent eqn:Hrec.
  pose proof (count_classes_sum (numeric_surprises recent)) as Hsum.
  pose proof (count_classes_beats recent) as Hbeats.
  destruct (count_classes (numeric_surprises recent)) as [[b m] i] eqn:Hc.
  cbn. simpl in Hbeats. subst b.
  split; [lia|]. split.
  { pose proof (numeric_surprises_length recent). pose proof (last4_length
      (sort_le (λ a b : bm_record, String.leb (quarter_key a) (quarter_key b)) (r :: rs))).
    rewrite <- Hrec in *. lia. }
  split; [apply numeric_surprises_numeric|].
  split; [lia|]. rewrite <- (beats_of_rev recent). apply beat_streak_le_beats.
Qed.

(* ------------------------------------------------------------------ *)
(** ** The stable insertion sort *)

Section SortLemmas.

Context {A : Type} (le : A -> A -> bool).

Lemma insert_le_perm (x : A) (l : list A) : insert_le le x l ≡ₚ x :: l.
Proof.
  induction l as [|y l IH]; simpl; [reflexivity|].
  destruct (le x y); [reflexivity|].
  rewrite IH. apply Permutation_swap.
Qed.

Lemma sort_le_perm (l : list A) : sort_le le l ≡ₚ l.
Proof.
  induction l as [|x l IH]; simpl; [reflexivity|].
  rewrite insert_le_perm, IH. reflexivity.
Qed.

Hypothesis le_total : forall x y, le x y = false -> le y x = true.

Lemma insert_le_sorted (x : A) (l : list A) :
  Sorted (fun a b => le a b = true) l -> Sorted (fun a b => le a b = true) (insert_le le x l).
Proof.
  induction l as [|y l IH]; simpl; intros Hs; [repeat constructor|].
  destruct (le x y) eqn:Hxy; [constructor; [exact Hs|constructor; exact Hxy]|].
  apply Sorted_inv in Hs as [Hs Hhd].
  constructor; [exact (IH Hs)|].
  destruct l as [|z l]; simpl; [constructor; apply le_total; exact Hxy|].
  destruct (le x z); constructor; [apply le_total; exact Hxy|].
  inversion Hhd; assumption.
Qed.

Lemma sort_le_sorted (l : list A) : Sorted (fun a b => le a b = true) (sort_le le l).
Proof.
  induction l as [|x l IH]; simpl; [constructor|]. apply insert_le_sorted, IH.
Qed.

End SortLemmas.

(* ------------------------------------------------------------------ *)
(** ** C3: the latest usable statement column *)

Section Extraction.

Variable str_to_float : string -> option float.
Variable df : frame.
Hypothesis cells_convertible : forall idx c, float_convertible (df_at df idx c) = true.

Lemma is_number_float_not_nan (v : pyval) (f : float) :
  _is_number v = Ok true -> py_float_num v = Ok f -> PrimFloat.is_nan f = false.
Proof.
  destruct v; unfold _is_number, py_isnan; simpl; try discriminate.
  - destruct (int_to_float z); simpl; [|discriminate].
    intros H1 H2. injection H2 as ->. injection H1 as H1. destruct (PrimFloat.is_nan f); simpl in *; congruence.
  - intros H1 H2. injection H2 as ->. injection H1 as H1. destruct (PrimFloat.is_nan f); simpl in *; congruence.
Qed.

Lemma extract_aliases_ok (col : Z) (aliases : list string) :
  exists r, extract_aliases str_to_float df col aliases = Ok r /\
            (forall f, r = Some f -> PrimFloat.is_nan f = false).
Proof.
  induction aliases as [|a rest IH]; simpl; [exists None; split; [reflexivity|discriminate]|].
  destruct (row_map_get (df_index df) (_normalize_label_key a)) as [idx|]; [|exact IH].
  pose proof (cells_convertible idx col) as Hc.
  destruct (is_number_convertible _ Hc) as [b Hb]. rewrite Hb. simpl.
  destruct b.
  - destruct (float_num_of_number _ Hc Hb) as [f Hf]. rewrite Hf. simpl.
    exists (Some f). split; [reflexivity|]. intros g Hg. injection Hg as <-.
    exact (is_number_float_not_nan _ _ Hb Hf).
  - destruct (py_float_cell str_to_float (df_at df idx col)) as [v|e]; [|exact IH].
    destruct (PrimFloat.is_nan v) eqn:Hn; simpl; [exact IH|].
    exists (Some v). split; [reflexivity|]. intros g Hg. injection Hg as <-. exact Hn.
Qed.

Lemma extract_ok (col : option Z) (aliases : list string) :
  exists r, _extract_income_stmt_value str_to_float df col aliases = Ok r /\
            (forall f, r = Some f -> PrimFloat.is_nan f = false).
Proof.
  unfold _extract_income_stmt_value.
  destruct (df_empty df); [exists None; split; [reflexivity|discriminate]|].
  destruct col as [c|]; [|exists None; split; [reflexivity|discriminate]].
  destruct (negb (existsb (Z.eqb c) (df_columns df)));
    [exists None; split; [reflexivity|discriminate]|].
  apply extract_aliases_ok.
Qed.

Lemma of_opt_is_number (r : option float) :
  (forall f, r = Some f -> PrimFloat.is_nan f = false) ->
  _is_number (of_opt r) = Ok (if r then true else false).
Proof.
  destruct r as [f|]; simpl; [|reflexivity]. intros H.
  unfold _is_number, py_isnan. simpl. rewrite (H f eq_refl). reflexivity.
Qed.

Lemma column_has_core_spec (c : Z) :
  exists b, column_has_core str_to_float df c = Ok b /\
            (b = true <-> core_field_numeric str_to_float df c).
Proof.
  unfold column_has_core, core_field_numeric.
  destruct (extract_ok (Some c) revenue_aliases) as [r [Hr Hrn]].
  destruct (extract_ok (Some c) gross_profit_aliases) as [g [Hg Hgn]].
  destruct (extract_ok (Some c) operating_income_aliases) as [o [Ho Hon]].
  destruct (extract_ok (Some c) net_income_aliases) as [n [Hn Hnn]].
  rewrite Hr, Hg, Ho, Hn. simpl.
  rewrite (of_opt_is_number r Hrn), (of_opt_is_number g Hgn),
    (of_opt_is_number o Hon), (of_opt_is_number n Hnn).
  eexists. split; [reflexivity|]. split.
  - intros H.
    destruct r as [f|]; [exists revenue_aliases, f; split; [left; reflexivity|];
      split; [exact Hr|]; unfold _is_number, py_isnan; simpl; rewrite (Hrn f eq_refl); reflexivity|].
    destruct g as [f|]; [exists gross_profit_aliases, f; split; [right; left; reflexivity|];
      split; [exact Hg|]; unfold _is_number, py_isnan; simpl; rewrite (Hgn f eq_refl); reflexivity|].
    destruct o as [f|]; [exists operating_income_aliases, f; split; [right; right; left; reflexivity|];
      split; [exact Ho|]; unfold _is_number, py_isnan; simpl; rewrite (Hon f eq_refl); reflexivity|].
    destruct n as [f|]; [exists net_income_aliases, f; split; [right; right; right; left; reflexivity|];
      split; [exact Hn|]; unfold _is_number, py_isnan; simpl; rewrite (Hnn f eq_refl); reflexivity|].
    discriminate.
  - intros [aliases [f [Hin [He _]]]].
    destruct Hin as [<-|[<-|[<-|[<-|[]]]]].
    + rewrite Hr in He. injection He as ->. reflexivity.
    + rewrite Hg in He. injection He as ->. destruct r; reflexivity.
    + rewrite Ho in He. injection He as ->. destruct r, g; reflexivity.
    + rewrite Hn in He. injection He as ->. destruct r, g, o; reflexivity.
Qed.

Lemma first_core_column_spec (cols : list Z) :
  (exists c pre post, first_core_column str_to_float df cols = Ok (Some c) /\
     cols = pre ++ c :: post /\ core_field_numeric str_to_float df c /\
     Forall (fun c' => ~ core_field_numeric str_to_float df c') pre) \/
  (first_core_column str_to_float df cols = Ok None /\
     Forall (fun c' => ~ core_field_numeric str_to_float df c') cols).
Proof.
  induction cols as [|c rest IH]; simpl; [right; split; [reflexivity|constructor]|].
  destruct (column_has_core_spec c) as [b [Hb Hiff]]. rewrite Hb. simpl.
  destruct b.
  - left. exists c, [], rest. repeat split; [apply Hiff; reflexivity|constructor].
  - assert (Hnot : ~ core_field_numeric str_to_float df c)
      by (intros H; apply Hiff in H; discriminate).
    destruct IH as [[c' [pre [post [H1 [H2 [H3 H4]]]]]]|[H1 H2]].
    + left. exists c', (c :: pre), post. rewrite H1, H2. repeat split; [assumption|].
      constructor; assumption.
    + right. rewrite H1. split; [reflexivity|constructor; assumption].
Qed.

End Extraction.

Lemma Sorted_weaken {A} (R R' : A -> A -> Prop) (l : list A) :
  (forall x y, R x y -> R' x y) -> Sorted R l -> Sorted R' l.
Proof.
  intros HR Hs. induction Hs as [|x l Hs IH Hhd]; constructor; [exact IH|].
  destruct Hhd; constructor; auto.
Qed.

Lemma statement_columns_sorted_desc (df : frame) :
  Sorted (fun x y => y <= x) (_statement_columns_sorted df).
Proof.
  unfold _statement_columns_sorted. destruct (df_empty df); [constructor|].
  eapply Sorted_weaken; [|apply sort_le_sorted].
  - intros x y H. apply Z.leb_le. exact H.
  - intros x y H. apply Z.leb_gt in H. apply Z.leb_le. lia.
Qed.

Lemma of_opt_convertible (r : option float) : float_convertible (of_opt r) = true.
Proof. destruct r; reflexivity. Qed.

Ltac extract_steps sf df Hcv :=
  repeat (simpl;
    match goal with
    | |- context [_extract_income_stmt_value sf df ?c ?a] =>
        let r := fresh "r" in
        destruct (extract_ok sf df Hcv c a) as [r [-> _]]
    | |- context [_pct_change (of_opt ?x) (of_opt ?y)] =>
        let v := fresh "v" in
        destruct (numeric_helpers_ok (of_opt x) (of_opt y)
                    (of_opt_convertible x) (of_opt_convertible y)) as [[v ->] _]
    | |- context [_to_bounded_pct (of_opt ?x) (of_opt ?y)] =>
        let v := fresh "v" in
        destruct (numeric_helpers_ok (of_opt x) (of_opt y)
                    (of_opt_convertible x) (of_opt_convertible y)) as [_ [[v ->] _]]
    | |- context [_to_billions (of_opt ?x)] =>
        let v := fresh "v" in
        destruct (numeric_helpers_ok (of_opt x) (of_opt x)
                    (of_opt_convertible x) (of_opt_convertible x)) as [_ [_ [[v ->] _]]]
    | |- context [_round (of_opt ?x)] =>
        let v := fresh "v" in
        destruct (numeric_helpers_ok (of_opt x) (of_opt x)
                    (of_opt_convertible x) (of_opt_convertible x)) as [_ [_ [_ [v ->]]]]
    end).

Lemma build_financial_ok (sf : string -> option float) (df : frame) (pt : period_type)
    (Hcv : forall idx c, float_convertible (df_at df idx c) = true)
    (c0 : Z) (rest : list Z) (lc : option Z) :
  _statement_columns_sorted df = c0 :: rest ->
  latest_usable_column sf df (c0 :: rest) = Ok lc ->
  exists snap, _build_financial_from_income_stmt sf df pt = Ok (snap, lc) /\
               latest_period snap = lc.
Proof.
  intros Hcols Hl. unfold _build_financial_from_income_stmt. rewrite Hcols.
  cbv zeta. rewrite Hl. extract_steps sf df Hcv.
  eexists. split; reflexivity.
Qed.

(** C3. For every statement frame whose cells all convert to float, with
    period columns sorted newest first, the latest column chosen by
    [_build_financial_from_income_stmt] (and reported as its
    [latest_period]) is the first column, newest first, where revenue,
    gross profit, operating income or net income is numeric, all columns
    before it having none of the four; the newest column is the fallback
    when no column has any. For the frame whose 2025-12-31 column has only
    Diluted EPS (Total Revenue NaN) and whose 2025-09-30 column has revenue
    7.69e9, the latest column is 2025-09-30. *)
Theorem latest_usable_column_spec :
  (forall (sf : string -> option float) (df : frame) (pt : period_type),
     (forall idx c, float_convertible (df_at df idx c) = true) ->
     _statement_columns_sorted df <> [] ->
     Sorted (fun x y => y <= x) (_statement_columns_sorted df) /\
     exists c snap,
       _build_financial_from_income_stmt sf df pt = Ok (snap, Some c) /\
       latest_period snap = Some c /\
       ((exists pre post, _statement_columns_sorted df = pre ++ c :: post /\
           core_field_numeric sf df c /\
           Forall (fun c' => ~ core_field_numeric sf df c') pre) \/
        (Forall (fun c' => ~ core_field_numeric sf df c') (_statement_columns_sorted df) /\
         head (_statement_columns_sorted df) = Some c))) /\
  (forall (sf : string -> option float) (pt : period_type),
     _statement_columns_sorted stub_quarter_income_stmt = [q_2025_12_31; q_2025_09_30] /\
     exists snap, _build_financial_from_income_stmt sf stub_quarter_income_stmt pt
                    = Ok (snap, Some q_2025_09_30)).
Proof.
  split.
  - intros sf df pt Hcv Hne. split; [apply statement_columns_sorted_desc|].
    destruct (_statement_columns_sorted df) as [|c0 rest] eqn:Hcols; [congruence|].
    destruct (first_core_column_spec sf df Hcv (c0 :: rest))
      as [[c [pre [post [Hf [Heq [Hc Hpre]]]]]]|[Hf Hall]].
    + assert (Hl : latest_usable_column sf df (c0 :: rest) = Ok (Some c))
        by (unfold latest_usable_column; rewrite Hf; reflexivity).
      destruct (build_financial_ok sf df pt Hcv c0 rest _ Hcols Hl) as [snap [Hb Hp]].
      exists c, snap. split; [exact Hb|]. split; [exact Hp|].
      left. exists pre, post. auto.
    + assert (Hl : latest_usable_column sf df (c0 :: rest) = Ok (Some c0))
        by (unfold latest_usable_column; rewrite Hf; reflexivity).
      destruct (build_financial_ok sf df pt Hcv c0 rest _ Hcols Hl) as [snap [Hb Hp]].
      exists c0, snap. split; [exact Hb|]. split; [exact Hp|].
      right. split; [exact Hall|reflexivity].
  - intros sf pt. split; [vm_compute; reflexivity|].
    destruct pt; eexists; vm_compute; reflexivity.
Qed.

Lemma latest_usable_column_spec_witness :
  (forall idx c, float_convertible (df_at stub_quarter_income_stmt idx c) = true) /\
  _statement_columns_sorted stub_quarter_income_stmt <> [] /\
  exists c snap,
    _build_financial_from_income_stmt (fun _ => None) stub_quarter_income_stmt Quarterly
      = Ok (snap, Some c) /\ latest_period snap = Some c.
Proof.
  assert (Hcv : forall idx c, float_convertible (df_at stub_quarter_income_stmt idx c) = true).
  { intros idx c. simpl.
    destruct (String.eqb idx "Total Revenue"); [|destruct (String.eqb idx "Diluted EPS")];
      destruct (c =? q_2025_12_31); reflexivity. }
  assert (Hne : _statement_columns_sorted stub_quarter_income_stmt <> []).
  { vm_compute. discriminate. }
  split; [exact Hcv|]. split; [exact Hne|].
  destruct (proj1 latest_usable_column_spec (fun _ => None) stub_quarter_income_stmt Quarterly Hcv Hne)
    as [_ [c [snap [Hb [Hp _]]]]].
  exists c, snap. split; assumption.
Defined.

(* ------------------------------------------------------------------ *)
(** ** C4: the year-over-year comparison column *)

(** C4. For annual statements the comparison column is [columns[1]],
    whatever the latest column is. When the newest year reports only the
    EPS, the latest column is [columns[1]] itself, so the annual revenue
    YoY compares 2024 with 2024 and is [0.0]; the quarterly branch on the
    same frame picks 2023 and gives [25.0]. *)
Theorem annual_comparison_column_is_second_column :
  (forall (cols : list Z) (latest_col : option Z),
     comparison_column Annual cols latest_col = nth_error cols 1) /\
  (forall sf : string -> option float,
     _statement_columns_sorted stub_year_income_stmt = [y_2025; y_2024; y_2023] /\
     comparison_column Annual [y_2025; y_2024; y_2023] (Some y_2024) = Some y_2024 /\
     comparison_column Quarterly [y_2025; y_2024; y_2023] (Some y_2024) = Some y_2023 /\
     (exists snap, _build_financial_from_income_stmt sf stub_year_income_stmt Annual
                     = Ok (snap, Some y_2024) /\ revenue_yoy_pct snap = Some 0%float) /\
     (exists snap, _build_financial_from_income_stmt sf stub_year_income_stmt Quarterly
                     = Ok (snap, Some y_2024) /\ revenue_yoy_pct snap = Some 25%float)).
Proof.
  split; [reflexivity|].
  intros sf. split; [vm_compute; reflexivity|].
  split; [vm_compute; reflexivity|]. split; [vm_compute; reflexivity|].
  split; (eexists; split; [vm_compute; reflexivity|vm_compute; reflexivity]).
Qed.

(* ------------------------------------------------------------------ *)
(** ** C2: the financial cache *)




(* ------------------------------------------------------------------ *)
(** ** C1: the batch orchestrator *)

Lemma list_ascii_of_string_append (a b : string) :
  list_ascii_of_string (String.append a b) = list_ascii_of_string a ++ list_ascii_of_string b.
Proof. induction a as [|c a IH]; simpl; [reflexivity|]. rewrite IH. reflexivity. Qed.

Lemma drop_spaces_keep (c : ascii) (l : list ascii) :
  py_isspace c = false -> drop_spaces (c :: l) = c :: l.
Proof. intros H. simpl. rewrite H. reflexivity. Qed.

Lemma utf8_space2_bounds (a b : nat) :
  utf8_space2 a b = true -> a = 194%nat /\ (133 <= b <= 160)%nat.
Proof.
  unfold utf8_space2. intros H.
  repeat (rewrite Bool.andb_true_iff in H || rewrite Bool.orb_true_iff in H).
  rewrite ?Nat.eqb_eq in H. lia.
Qed.

Lemma utf8_space3_bounds (a b c : nat) :
  utf8_space3 a b c = true ->
  (225 <= a <= 227)%nat /\ (128 <= b <= 154)%nat /\ (128 <= c <= 175)%nat.
Proof.
  unfold utf8_space3. intros H.
  repeat (rewrite Bool.andb_true_iff in H || rewrite Bool.orb_true_iff in H).
  rewrite ?Nat.eqb_eq, ?Nat.leb_le in H. lia.
Qed.

Lemma utf8_rstrip_rev_suffix (l : list ascii) : exists p, l = p ++ utf8_rstrip_rev l.
Proof.
  induction l as [l IH] using (induction_ltof1 _ (@List.length ascii)). unfold ltof in IH.
  destruct l as [|c l1]; [exists []; reflexivity|].
  cbn [utf8_rstrip_rev]. destruct (py_isspace c).
  { destruct (IH l1 ltac:(simpl; lia)) as [p Hp]. exists (c :: p). simpl. f_equal. exact Hp. }
  destruct l1 as [|d l2]; [exists []; reflexivity|].
  destruct (utf8_space2 _ _).
  { destruct (IH l2 ltac:(simpl; lia)) as [p Hp]. exists (c :: d :: p). simpl. rewrite <- Hp. reflexivity. }
  destruct l2 as [|e l3]; [exists []; reflexivity|].
  destruct (utf8_space3 _ _ _).
  { destruct (IH l3 ltac:(simpl; lia)) as [p Hp]. exists (c :: d :: e :: p). simpl. rewrite <- Hp. reflexivity. }
  exists []. reflexivity.
Qed.

Lemma utf8_rstrip_rev_head (l : list ascii) :
  match utf8_rstrip_rev l with c :: _ => py_isspace c = false | [] => True end.
Proof.
  induction l as [l IH] using (induction_ltof1 _ (@List.length ascii)). unfold ltof in IH.
  destruct l as [|c l1]; [exact I|].
  cbn [utf8_rstrip_rev]. destruct (py_isspace c) eqn:Hc; [apply IH; simpl; lia|].
  destruct l1 as [|d l2]; [exact Hc|].
  destruct (utf8_space2 _ _); [apply IH; simpl; lia|].
  destruct l2 as [|e l3]; [exact Hc|].
  destruct (utf8_space3 _ _ _); [apply IH; simpl; lia|exact Hc].
Qed.

Lemma utf8_lstrip_head (l : list ascii) :
  match utf8_lstrip l with c :: _ => py_isspace c = false | [] => True end.
Proof.
  induction l as [l IH] using (induction_ltof1 _ (@List.length ascii)). unfold ltof in IH.
  destruct l as [|c l1]; [exact I|].
  cbn [utf8_lstrip]. destruct (py_isspace c) eqn:Hc; [apply IH; simpl; lia|].
  destruct l1 as [|d l2]; [exact Hc|].
  destruct (utf8_space2 _ _); [apply IH; simpl; lia|].
  destruct l2 as [|e l3]; [exact Hc|].
  destruct (utf8_space3 _ _ _); [apply IH; simpl; lia|exact Hc].
Qed.

(** A last byte [E6], as in the lead byte of [抓], is never stripped. *)
Lemma utf8_rstrip_rev_snoc_230 (l : list ascii) : utf8_rstrip_rev (l ++ ["230"%char]) <> [].
Proof.
  induction l as [l IH] using (induction_ltof1 _ (@List.length ascii)). unfold ltof in IH.
  destruct l as [|c l1]; [cbn; discriminate|].
  cbn [app utf8_rstrip_rev]. destruct (py_isspace c) eqn:Hc; [apply IH; simpl; lia|].
  destruct l1 as [|d l2]; cbn [app].
  { destruct (utf8_space2 _ _) eqn:E; [|discriminate].
    apply utf8_space2_bounds in E. change (nat_of_ascii "230"%char) with 230%nat in E. lia. }
  destruct (utf8_space2 _ _); [apply IH; simpl; lia|].
  destruct l2 as [|e l3]; cbn [app].
  { destruct (utf8_space3 _ _ _) eqn:E; [|discriminate].
    apply utf8_space3_bounds in E. change (nat_of_ascii "230"%char) with 230%nat in E. lia. }
  destruct (utf8_space3 _ _ _); [apply IH; simpl; lia|discriminate].
Qed.

Lemma utf8_rstrip_rev_keep (c : ascii) (l : list ascii) :
  py_isspace c = false -> (nat_of_ascii c < 128)%nat -> utf8_rstrip_rev (c :: l) = c :: l.
Proof.
  intros Hs Hc. cbn [utf8_rstrip_rev]. rewrite Hs.
  destruct l as [|d [|e l]]; [reflexivity| |].
  - destruct (utf8_space2 _ _) eqn:E; [apply utf8_space2_bounds in E; lia|reflexivity].
  - destruct (utf8_space2 _ _) eqn:E; [apply utf8_space2_bounds in E; lia|].
    destruct (utf8_space3 _ _ _) eqn:E3; [apply utf8_space3_bounds in E3; lia|reflexivity].
Qed.

Lemma utf8_lstrip_keep (c : ascii) (l : list ascii) :
  py_isspace c = false -> nat_of_ascii c <> 194%nat -> ~ (225 <= nat_of_ascii c <= 227)%nat ->
  utf8_lstrip (c :: l) = c :: l.
Proof.
  intros Hs H1 H2. cbn [utf8_lstrip]. rewrite Hs.
  destruct l as [|d [|e l]]; [reflexivity| |].
  - destruct (utf8_space2 _ _) eqn:E; [apply utf8_space2_bounds in E; lia|reflexivity].
  - destruct (utf8_space2 _ _) eqn:E; [apply utf8_space2_bounds in E; lia|].
    destruct (utf8_space3 _ _ _) eqn:E3; [apply utf8_space3_bounds in E3; lia|reflexivity].
Qed.

(** The UTF-8 strip leaves no ASCII whitespace at either end. *)
Lemma py_strip_of_strip_utf8 (s : string) : py_strip (py_strip_utf8 s) = py_strip_utf8 s.
Proof.
  unfold py_strip_utf8, py_strip. rewrite list_ascii_of_string_of_list_ascii.
  pose proof (utf8_lstrip_head (list_ascii_of_string s)) as HL.
  set (L := utf8_lstrip (list_ascii_of_string s)) in *.
  destruct (utf8_rstrip_rev_suffix (rev L)) as [p Hp].
  pose proof (utf8_rstrip_rev_head (rev L)) as HR.
  set (R := utf8_rstrip_rev (rev L)) in *.
  destruct R as [|c R1] eqn:ER; [reflexivity|].
  assert (HL' : L = rev (c :: R1) ++ rev p)
    by (rewrite <- rev_app_distr, <- Hp, rev_involutive; reflexivity).
  f_equal.
  destruct (rev (c :: R1)) as [|h t] eqn:Eh.
  { cbn in Eh. destruct (rev R1); discriminate. }
  rewrite HL' in HL. cbn in HL.
  rewrite (drop_spaces_keep h t HL), <- Eh, rev_involutive, (drop_spaces_keep c R1 HR).
  reflexivity.
Qed.

Lemma fetch_error_prefix_bytes :
  exists rest, list_ascii_of_string fetch_error_prefix = "230"%char :: rest.
Proof. eexists. reflexivity. Qed.

Lemma fetch_error_text_lstrip (e : exn) :
  utf8_lstrip (list_ascii_of_string
    (String.append fetch_error_prefix (String.append (exn_type e) (String.append ": " (exn_msg e)))))
  = list_ascii_of_string
      (String.append fetch_error_prefix (String.append (exn_type e) (String.append ": " (exn_msg e)))).
Proof.
  rewrite list_ascii_of_string_append.
  destruct fetch_error_prefix_bytes as [rest Hp]. rewrite Hp, <- app_comm_cons.
  apply utf8_lstrip_keep; [reflexivity|change (nat_of_ascii "230"%char) with 230%nat; lia|
                           change (nat_of_ascii "230"%char) with 230%nat; lia].
Qed.

Lemma fetch_error_text_nonempty (e : exn) : fetch_error_text e <> ""%string.
Proof.
  unfold fetch_error_text, py_strip_utf8.
  change (fetch_error_prefix ++ exn_type e ++ ": " ++ exn_msg e)%string
    with (String.append fetch_error_prefix (String.append (exn_type e) (String.append ": " (exn_msg e)))).
  rewrite fetch_error_text_lstrip, list_ascii_of_string_append.
  destruct fetch_error_prefix_bytes as [rest Hp]. rewrite Hp, <- app_comm_cons.
  cbn [rev].
  pose proof (utf8_rstrip_rev_snoc_230
    (rev (rest ++ list_ascii_of_string (String.append (exn_type e) (String.append ": " (exn_msg e))))))
    as Hne.
  destruct (utf8_rstrip_rev _) as [|c l]; [contradiction|].
  cbn [rev]. destruct (rev l); discriminate.
Qed.

Lemma fetch_error_text_exact (e : exn) (m : list ascii) (c : ascii) :
  list_ascii_of_string (exn_msg e) = m ++ [c] ->
  py_isspace c = false -> (nat_of_ascii c < 128)%nat ->
  fetch_error_text e
    = String.append fetch_error_prefix (String.append (exn_type e) (String.append ": " (exn_msg e))).
Proof.
  intros Hm Hs Hc. unfold fetch_error_text, py_strip_utf8.
  change (fetch_error_prefix ++ exn_type e ++ ": " ++ exn_msg e)%string
    with (String.append fetch_error_prefix (String.append (exn_type e) (String.append ": " (exn_msg e)))).
  rewrite fetch_error_text_lstrip.
  set (full := String.append fetch_error_prefix
                 (String.append (exn_type e) (String.append ": " (exn_msg e)))).
  assert (Hfull : list_ascii_of_string full
            = (list_ascii_of_string fetch_error_prefix ++ list_ascii_of_string (exn_type e)
                 ++ [":"%char; " "%char] ++ m) ++ [c]).
  { unfold full. rewrite !list_ascii_of_string_append, Hm.
    simpl. repeat rewrite <- app_assoc. reflexivity. }
  assert (Hr : utf8_rstrip_rev (rev (list_ascii_of_string full))
               = rev (list_ascii_of_string full)).
  { rewrite Hfull, rev_app_distr. cbn [rev app]. apply utf8_rstrip_rev_keep; assumption. }
  rewrite Hr, rev_involutive. apply string_of_list_ascii_of_string.
Qed.

Lemma order_get_from_notin (base : nat) (l : list string) (s : string) :
  ~ In s l -> order_get_from base l s = None.
Proof.
  revert base. induction l as [|s' l IH]; intros base Hn; simpl; [reflexivity|].
  rewrite IH by (intros H; apply Hn; right; exact H).
  destruct (String.eqb s s') eqn:E; [|reflexivity].
  apply String.eqb_eq in E. subst. exfalso. apply Hn. left. reflexivity.
Qed.

Lemma order_get_from_nth (base : nat) (l : list string) (i : nat) (s : string) :
  NoDup l -> nth_error l i = Some s -> order_get_from base l s = Some (base + i)%nat.
Proof.
  revert base i. induction l as [|s' l IH]; intros base i Hnd Hi; [destruct i; discriminate|].
  apply NoDup_cons in Hnd as [Hnin Hnd]. rewrite list_elem_of_In in Hnin. simpl.
  destruct i as [|i]; simpl in Hi.
  - injection Hi as ->. rewrite order_get_from_notin by exact Hnin.
    rewrite String.eqb_refl. f_equal. lia.
  - rewrite (IH (S base) i Hnd Hi). f_equal. lia.
Qed.

Lemma map_nth_seq_id {A} (d : A) (l : list A) :
  map (fun i => nth i l d) (seq 0 (List.length l)) = l.
Proof.
  induction l as [|x l IH]; [reflexivity|].
  simpl. f_equal. rewrite <- seq_shift, map_map. exact IH.
Qed.

Lemma map_eq_seq {A} (f : A -> nat) (l : list A) (k : nat) :
  (forall i x, nth_error l i = Some x -> f x = (k + i)%nat) -> map f l = seq k (List.length l).
Proof.
  revert k. induction l as [|x l IH]; intros k H; [reflexivity|].
  simpl. f_equal.
  - rewrite (H 0%nat x eq_refl). lia.
  - apply IH. intros i y Hy. rewrite (H (S i) y Hy). lia.
Qed.

Lemma Sorted_of_seq_keys {A} (f : A -> nat) (l : list A) (k : nat) :
  map f l = seq k (List.length l) -> Sorted (fun x y => (f x <= f y)%nat) l.
Proof.
  revert k. induction l as [|x l IH]; intros k H; [constructor|].
  simpl in H. injection H as Hx Hl.
  constructor; [exact (IH (S k) Hl)|].
  destruct l as [|y l]; constructor. simpl in Hl. injection Hl as Hy _. lia.
Qed.

Section FetchLemmas.

Variable get_stock_bundle : string -> res dict.
Variable symbols : list string.
Hypothesis symbols_nodup : NoDup symbols.
Hypothesis bundle_symbol : forall s b, In s symbols -> get_stock_bundle s = Ok b ->
  assoc_get "symbol" b = Some (JStr s).

Lemma sort_key_unit_result (i : nat) (s : string) :
  nth_error symbols i = Some s ->
  sort_key symbols (unit_result get_stock_bundle s) = i.
Proof.
  intros Hi. unfold unit_result, sort_key.
  destruct (get_stock_bundle s) as [b|e] eqn:Hb.
  - rewrite (bundle_symbol s b (nth_error_In _ _ Hi) Hb).
    unfold order_get. rewrite (order_get_from_nth 0 symbols i s symbols_nodup Hi). reflexivity.
  - simpl. unfold order_get. rewrite (order_get_from_nth 0 symbols i s symbols_nodup Hi). reflexivity.
Qed.

Lemma fetch_results_sorted :
  Sorted (fun x y => (sort_key symbols x <= sort_key symbols y)%nat)
    (map (unit_result get_stock_bundle) symbols).
Proof.
  apply (Sorted_of_seq_keys _ _ 0).
  apply map_eq_seq. intros i x Hx.
  rewrite (List.nth_error_map (unit_result get_stock_bundle) i symbols) in Hx.
  destruct (nth_error symbols i) as [s|] eqn:Hs; [|discriminate].
  injection Hx as <-. apply sort_key_unit_result. exact Hs.
Qed.

Lemma unit_result_hashable (s : string) :
  In s symbols -> sort_key_hashable (unit_result get_stock_bundle s) = true.
Proof.
  intros Hin. unfold unit_result, sort_key_hashable.
  destruct (get_stock_bundle s) as [b|e] eqn:Hb; [|reflexivity].
  rewrite (bundle_symbol s b Hin Hb). reflexivity.
Qed.

Lemma fetch_multiple_stocks_in_order (completion : list nat) :
  completion ≡ₚ seq 0 (List.length symbols) ->
  fetch_multiple_stocks get_stock_bundle symbols completion
    = Ok (map (unit_result get_stock_bundle) symbols).
Proof.
  intros Hperm.
  assert (Hh : forallb (sort_key_hashable)
                 (map (fun i => unit_result get_stock_bundle (nth i symbols "")) completion) = true).
  { apply forallb_forall. intros x Hx. apply in_map_iff in Hx as [i [<- Hi]].
    apply unit_result_hashable, nth_In.
    apply (Permutation_in _ Hperm), in_seq in Hi. lia. }
  unfold fetch_multiple_stocks. cbv zeta. rewrite Hh. f_equal.
  set (R := fun x y => (sort_key symbols x <= sort_key symbols y)%nat).
  assert (HT : Transitive R) by (intros x y z; unfold R; lia).
  assert (Hres : map (fun i => unit_result get_stock_bundle (nth i symbols "")) completion
                 ≡ₚ map (unit_result get_stock_bundle) symbols).
  { rewrite Hperm. rewrite <- (map_nth_seq_id "" symbols) at 2.
    rewrite map_map. reflexivity. }
  unfold sort_by.
  apply (Sorted_unique_strong R).
  - intros x1 x2 Hx1 Hx2 H12 H21.
    rewrite list_elem_of_In in Hx1, Hx2.
    eapply Permutation_in in Hx1; [|rewrite sort_le_perm; exact Hres].
    apply in_map_iff in Hx1 as [s1 [<- Hs1]].
    apply in_map_iff in Hx2 as [s2 [<- Hs2]].
    apply In_nth_error in Hs1 as [i1 Hi1]. apply In_nth_error in Hs2 as [i2 Hi2].
    unfold R in H12, H21.
    rewrite (sort_key_unit_result _ _ Hi1), (sort_key_unit_result _ _ Hi2) in H12, H21.
    assert (i1 = i2) as <- by lia. congruence.
  - eapply Sorted_weaken; [|apply sort_le_sorted].
    + intros x y H. unfold R. apply Nat.leb_le. exact H.
    + intros x y H. apply Nat.leb_gt in H. apply Nat.leb_le. lia.
  - exact fetch_results_sorted.
  - rewrite sort_le_perm. exact Hres.
Qed.

End FetchLemmas.

Lemma printable_not_space (c : ascii) :
  (33 <= nat_of_ascii c <= 126)%nat -> py_isspace c = false.
Proof.
  intros [H1 H2]. unfold py_isspace.
  destruct (Nat.leb_spec 9 (nat_of_ascii c)), (Nat.leb_spec (nat_of_ascii c) 13),
    (Nat.leb_spec 28 (nat_of_ascii c)), (Nat.leb_spec (nat_of_ascii c) 32);
    simpl; try reflexivity; lia.
Qed.

(** C1 (confirmed). The callers pass the output of [parse_symbols]
    (upper-cased and de-duplicated), and a successful [get_stock_bundle]
    reports [symbol.upper()], i.e. the requested symbol, under ["symbol"].
    For such distinct requested symbols and any completion order,
    [fetch_multiple_stocks] returns exactly one bundle per requested
    symbol, in the requested order, each the unit's own result: a
    successful bundle unchanged, and for a symbol whose [get_stock_bundle]
    raises, the error bundle. Its ["error"] is non-empty and is
    ["抓取失败: <type>: <message>"] when the message ends with a printable
    ASCII character; its sub-objects [currency], [realtime], [financial]
    and [forecast] hold null fields, [news] is empty,
    [expectation_guidance] is empty and there is no
    [ai_financial_context]. *)
Theorem fetch_multiple_stocks_spec :
  (forall (get_stock_bundle : string -> res dict) (symbols : list string) (completion : list nat),
     NoDup symbols ->
     (forall s b, In s symbols -> get_stock_bundle s = Ok b -> assoc_get "symbol" b = Some (JStr s)) ->
     completion ≡ₚ seq 0 (List.length symbols) ->
     fetch_multiple_stocks get_stock_bundle symbols completion
       = Ok (map (unit_result get_stock_bundle) symbols)) /\
  (forall (get_stock_bundle : string -> res dict) s b,
     get_stock_bundle s = Ok b -> unit_result get_stock_bundle s = b) /\
  (forall (get_stock_bundle : string -> res dict) s e,
     get_stock_bundle s = Raise e ->
     unit_result get_stock_bundle s = error_bundle s e /\
     assoc_get "error" (error_bundle s e) = Some (JStr (fetch_error_text e)) /\
     fetch_error_text e <> ""%string /\
     assoc_get "currency" (error_bundle s e)
       = Some (JObj [("quote", JNull); ("financial", JNull); ("forecast", JNull)]) /\
     assoc_get "realtime" (error_bundle s e)
       = Some (JObj [("stock_name", JNull); ("trade_date", JNull); ("currency", JNull)]) /\
     assoc_get "financial" (error_bundle s e) = Some (JObj [("currency", JNull)]) /\
     assoc_get "forecast" (error_bundle s e) = Some (JObj [("currency", JNull)]) /\
     assoc_get "news" (error_bundle s e) = Some (JArr []) /\
     assoc_get "expectation_guidance" (error_bundle s e) = Some (JObj []) /\
     assoc_get "ai_financial_context" (error_bundle s e) = None /\
     (forall m c, list_ascii_of_string (exn_msg e) = m ++ [c] ->
        (33 <= nat_of_ascii c <= 126)%nat ->
        fetch_error_text e
          = String.append fetch_error_prefix
              (String.append (exn_type e) (String.append ": " (exn_msg e))))).
Proof.
  split; [|split].
  - intros gsb symbols completion Hnd Hsym Hperm.
    exact (fetch_multiple_stocks_in_order gsb symbols Hnd Hsym completion Hperm).
  - intros gsb s b H. unfold unit_result. rewrite H. reflexivity.
  - intros gsb s e H. split; [unfold unit_result; rewrite H; reflexivity|].
    split; [reflexivity|]. split; [apply fetch_error_text_nonempty|].
    do 7 (split; [reflexivity|]).
    intros m c Hm Hc.
    exact (fetch_error_text_exact e m c Hm (printable_not_space c Hc) ltac:(lia)).
Qed.

Lemma fetch_multiple_stocks_spec_witness :
  let gsb := fun s => if String.eqb s "BAD" then Raise (mk_exn "ValueError" "boom")
                      else Ok [("symbol", JStr s)] in
  fetch_multiple_stocks gsb ["NVDA"; "BAD"; "AAPL"] [2; 0; 1]%nat
    = Ok [[("symbol", JStr "NVDA")]; error_bundle "BAD" (mk_exn "ValueError" "boom");
          [("symbol", JStr "AAPL")]] /\
  fetch_error_text (mk_exn "ValueError" "boom")
    = String.append fetch_error_prefix (String.append "ValueError" (String.append ": " "boom")).
Proof.
  intros gsb. destruct fetch_multiple_stocks_spec as [Hord [_ Herr]]. split.
  - rewrite (Hord gsb ["NVDA"; "BAD"; "AAPL"] [2; 0; 1]%nat).
    + reflexivity.
    + repeat constructor; rewrite list_elem_of_In; simpl; intuition discriminate.
    + intros s b Hin. simpl in Hin.
      destruct Hin as [<-|[<-|[<-|[]]]]; simpl; intros Hb; try discriminate;
        injection Hb as <-; reflexivity.
    + exact (Permutation_cons_append [0; 1]%nat 2%nat).
  - destruct (Herr gsb "BAD" (mk_exn "ValueError" "boom") eq_refl)
      as [_ [_ [_ [_ [_ [_ [_ [_ [_ [_ Hx]]]]]]]]]].
    apply (Hx (list_ascii_of_string "boo") "m"%char); [reflexivity|vm_compute; lia].
Defined.

(* ------------------------------------------------------------------ *)
(** ** Properties of the request, watchlist and snippet helpers *)

Lemma upper_char_idem (c : ascii) : upper_char (upper_char c) = upper_char c.
Proof. destruct c as [[] [] [] [] [] [] [] []]; reflexivity. Qed.

Lemma isspace_upper_char (c : ascii) : py_isspace (upper_char c) = py_isspace c.
Proof. destruct c as [[] [] [] [] [] [] [] []]; reflexivity. Qed.

Lemma drop_spaces_map_upper (l : list ascii) :
  drop_spaces (map upper_char l) = map upper_char (drop_spaces l).
Proof.
  induction l as [|c l IH]; simpl; [reflexivity|].
  rewrite isspace_upper_char. destruct (py_isspace c); [exact IH|reflexivity].
Qed.

Lemma drop_spaces_suffix (l : list ascii) : exists l1, l = l1 ++ drop_spaces l.
Proof.
  induction l as [|c l [l1 IH]]; simpl; [exists []; reflexivity|].
  destruct (py_isspace c); [exists (c :: l1); simpl; f_equal; exact IH|exists []; reflexivity].
Qed.

Lemma drop_spaces_head (l : list ascii) c t :
  drop_spaces l = c :: t -> py_isspace c = false.
Proof.
  induction l as [|d l IH]; simpl; [discriminate|].
  destruct (py_isspace d) eqn:Hd; [exact IH|].
  intros H. injection H as <- _. exact Hd.
Qed.

Lemma drop_spaces_fixed (l : list ascii) :
  (forall c t, l = c :: t -> py_isspace c = false) -> drop_spaces l = l.
Proof.
  destruct l as [|c t]; simpl; [reflexivity|].
  intros H. rewrite (H c t eq_refl). reflexivity.
Qed.


Lemma strip_l_idem (l : list ascii) : strip_l (strip_l l) = strip_l l.
Proof.
  set (m := drop_spaces l). set (k := drop_spaces (rev m)).
  assert (Hl : strip_l l = rev k) by reflexivity. rewrite Hl. unfold strip_l.
  assert (Hk : drop_spaces k = k).
  { apply drop_spaces_fixed. intros c t Hc. exact (drop_spaces_head (rev m) c t Hc). }
  assert (Hrk : drop_spaces (rev k) = rev k).
  { apply drop_spaces_fixed. intros c t Hc.
    destruct (drop_spaces_suffix (rev m)) as [l1 Hl1]. fold k in Hl1.
    assert (Hm : m = rev k ++ rev l1).
    { rewrite <- (rev_involutive m), Hl1, rev_app_distr. reflexivity. }
    apply (drop_spaces_head l c (t ++ rev l1)). fold m. rewrite Hm, Hc. reflexivity. }
  rewrite Hrk, rev_involutive, Hk. reflexivity.
Qed.

Lemma strip_l_map_upper (l : list ascii) :
  strip_l (map upper_char l) = map upper_char (strip_l l).
Proof.
  unfold strip_l. rewrite drop_spaces_map_upper, <- map_rev, drop_spaces_map_upper, <- map_rev.
  reflexivity.
Qed.

Lemma map_upper_idem (l : list ascii) : map upper_char (map upper_char l) = map upper_char l.
Proof. rewrite map_map. apply map_ext. exact upper_char_idem. Qed.

Lemma norm_symbol_list (s : string) :
  list_ascii_of_string (norm_symbol s) = map upper_char (strip_l (list_ascii_of_string s)).
Proof.
  unfold norm_symbol, py_upper, py_strip, strip_l.
  rewrite !list_ascii_of_string_of_list_ascii. reflexivity.
Qed.

Lemma norm_symbol_idem (s : string) : norm_symbol (norm_symbol s) = norm_symbol s.
Proof.
  pose proof (f_equal string_of_list_ascii (norm_symbol_list (norm_symbol s))) as H.
  rewrite string_of_list_ascii_of_string in H. rewrite H.
  rewrite norm_symbol_list, strip_l_map_upper, strip_l_idem, map_upper_idem.
  rewrite <- norm_symbol_list, string_of_list_ascii_of_string. reflexivity.
Qed.

Lemma symbol_pattern_nonempty (s : string) : _SYMBOL_PATTERN_match s = true -> s <> ""%string.
Proof. intros H ->. vm_compute in H. discriminate. Qed.

Lemma existsb_eqb_in (s : string) (l : list string) :
  existsb (String.eqb s) l = true <-> In s l.
Proof.
  rewrite existsb_exists. split.
  - intros [x [Hx He]]. apply String.eqb_eq in He. subst. exact Hx.
  - intros H. exists s. split; [exact H|apply String.eqb_refl].
Qed.

Lemma normalize_symbols_loop_ok (l out : list string) :
  NoDup out -> Forall stored_symbol_ok out -> (List.length out < 10)%nat ->
  let r := normalize_symbols_loop out l in
  NoDup r /\ Forall stored_symbol_ok r /\ (List.length r <= 10)%nat.
Proof.
  revert out. induction l as [|raw l IH]; intros out Hnd Hall Hlen; cbn -[Nat.leb]; [split; [|split]; auto; lia|].
  set (symbol := norm_symbol raw).
  destruct (String.eqb symbol "" || existsb (String.eqb symbol) out) eqn:Hskip; [apply IH; assumption|].
  destruct (_SYMBOL_PATTERN_match symbol) eqn:Hm; cbn [negb]; [|apply IH; assumption].
  apply orb_false_iff in Hskip as [_ Hnin].
  assert (Hnd' : NoDup (out ++ [symbol])).
  { apply NoDup_app. split; [exact Hnd|]. split; [|apply NoDup_singleton].
    intros x Hx Hx'. apply list_elem_of_singleton in Hx' as ->.
    rewrite list_elem_of_In, <- existsb_eqb_in in Hx. congruence. }
  assert (Hall' : Forall stored_symbol_ok (out ++ [symbol])).
  { apply Forall_app. split; [exact Hall|]. constructor; [|constructor].
    split; [exact Hm|apply norm_symbol_idem]. }
  destruct (Nat.leb_spec 10 (List.length (out ++ [symbol]))) as [Hge|Hlt].
  - split; [exact Hnd'|]. split; [exact Hall'|]. rewrite length_app in *. simpl in *. lia.
  - apply IH; [exact Hnd'|exact Hall'|exact Hlt].
Qed.

Lemma normalize_symbols_ok (l : list string) :
  NoDup (_normalize_symbols l) /\ Forall stored_symbol_ok (_normalize_symbols l) /\
  (List.length (_normalize_symbols l) <= 10)%nat.
Proof. apply normalize_symbols_loop_ok; [constructor|constructor|simpl; lia]. Qed.

Lemma normalize_symbols_loop_fixed (l out : list string) :
  NoDup (out ++ l) -> Forall stored_symbol_ok l -> (List.length (out ++ l) <= 10)%nat ->
  (List.length out < 10)%nat ->
  normalize_symbols_loop out l = out ++ l.
Proof.
  revert out. induction l as [|s l IH]; intros out Hnd Hall Hlen Hout; cbn -[Nat.leb]; [rewrite app_nil_r; reflexivity|].
  inversion Hall as [|? ? [Hm Hfix] Hl]; subst.
  rewrite Hfix.
  destruct (String.eqb_spec s "") as [He|_]; [exfalso; exact (symbol_pattern_nonempty s Hm He)|].
  assert (Hnin : existsb (String.eqb s) out = false).
  { apply not_true_iff_false. rewrite existsb_eqb_in. intros Hin.
    apply NoDup_app in Hnd as [_ [Hdis _]]. apply (Hdis s); [apply list_elem_of_In; exact Hin|].
    apply list_elem_of_In. left. reflexivity. }
  rewrite Hnin, Hm. cbn -[Nat.leb].
  rewrite length_app in Hlen. simpl in Hlen.
  destruct (Nat.leb_spec 10 (List.length (out ++ [s]))) as [Hge|Hlt].
  - rewrite length_app in Hge. simpl in Hge.
    destruct l; [reflexivity|simpl in Hlen; lia].
  - rewrite IH; [rewrite <- app_assoc; reflexivity| | exact Hl| |exact Hlt].
    + rewrite <- app_assoc. exact Hnd.
    + rewrite <- app_assoc, length_app. simpl. lia.
Qed.

Lemma normalize_symbols_idem (l : list string) :
  _normalize_symbols (_normalize_symbols l) = _normalize_symbols l.
Proof.
  destruct (normalize_symbols_ok l) as [Hnd [Hall Hlen]].
  unfold _normalize_symbols at 1. apply normalize_symbols_loop_fixed; simpl; auto; lia.
Qed.

Lemma lstrip_cp_suffix (l : list Z) : exists l1, l = l1 ++ lstrip_cp l.
Proof.
  induction l as [|c l [l1 IH]]; simpl; [exists []; reflexivity|].
  destruct (py_isspace_cp c); [exists (c :: l1); simpl; f_equal; exact IH|exists []; reflexivity].
Qed.

Lemma lstrip_cp_head (l : list Z) c t : lstrip_cp l = c :: t -> py_isspace_cp c = false.
Proof.
  induction l as [|d l IH]; simpl; [discriminate|].
  destruct (py_isspace_cp d) eqn:Hd; [exact IH|]. intros H. injection H as <- _. exact Hd.
Qed.

Lemma lstrip_cp_fixed (l : list Z) :
  (forall c t, l = c :: t -> py_isspace_cp c = false) -> lstrip_cp l = l.
Proof. destruct l as [|c t]; simpl; [reflexivity|]. intros H. rewrite (H c t eq_refl). reflexivity. Qed.

Lemma lstrip_cp_nil (l : list Z) : lstrip_cp l = [] <-> Forall (fun c => py_isspace_cp c = true) l.
Proof.
  induction l as [|c l IH]; simpl; [split; [constructor|reflexivity]|].
  destruct (py_isspace_cp c) eqn:Hc.
  - rewrite IH. split; [intros H; constructor; assumption|intros H; inversion H; assumption].
  - split; [discriminate|intros H; inversion H; congruence].
Qed.

Lemma lstrip_cp_length (l : list Z) : (List.length (lstrip_cp l) <= List.length l)%nat.
Proof. destruct (lstrip_cp_suffix l) as [l1 H]. rewrite H at 2. rewrite length_app. lia. Qed.


Lemma strip_cp_fixed (l : list Z) : stripped l -> strip_cp l = l.
Proof.
  intros [Hh Ht]. unfold strip_cp, rstrip_cp. rewrite (lstrip_cp_fixed l Hh).
  rewrite lstrip_cp_fixed; [apply rev_involutive|].
  intros c t Hc. apply (Ht c (rev t)). rewrite <- (rev_involutive l), Hc. reflexivity.
Qed.

Lemma rstrip_cp_stripped (l : list Z) :
  (forall c t, l = c :: t -> py_isspace_cp c = false) -> stripped (rstrip_cp l).
Proof.
  intros Hh. unfold rstrip_cp. set (k := lstrip_cp (rev l)). split.
  - intros c t Hc. destruct (lstrip_cp_suffix (rev l)) as [l1 Hl1]. fold k in Hl1.
    apply (Hh c (t ++ rev l1)). rewrite <- (rev_involutive l), Hl1, rev_app_distr, Hc. reflexivity.
  - intros c t Hc. apply (f_equal (@rev Z)) in Hc. rewrite rev_involutive, rev_app_distr in Hc.
    exact (lstrip_cp_head (rev l) c (rev t) Hc).
Qed.

Lemma strip_cp_stripped (l : list Z) : stripped (strip_cp l).
Proof. apply rstrip_cp_stripped. intros c t H. exact (lstrip_cp_head l c t H). Qed.

Lemma strip_cp_idem (l : list Z) : strip_cp (strip_cp l) = strip_cp l.
Proof. apply strip_cp_fixed, strip_cp_stripped. Qed.

Lemma rstrip_cp_length (l : list Z) : (List.length (rstrip_cp l) <= List.length l)%nat.
Proof. unfold rstrip_cp. rewrite length_rev. etransitivity; [apply lstrip_cp_length|]. rewrite length_rev. lia. Qed.

Lemma rstrip_cp_nonempty (l : list Z) c t :
  l = c :: t -> py_isspace_cp c = false -> rstrip_cp l <> [].
Proof.
  intros -> Hc. unfold rstrip_cp. intros H. apply (f_equal (@rev Z)) in H. rewrite rev_involutive in H.
  simpl in H. apply lstrip_cp_nil in H. rewrite Forall_app in H. destruct H as [_ H].
  inversion H. congruence.
Qed.

Lemma normalize_watchlist_name_ok (name : list Z) :
  (_normalize_watchlist_name name = None <-> Forall (fun c => py_isspace_cp c = true) name) /\
  (forall t, _normalize_watchlist_name name = Some t ->
     t <> [] /\ (List.length t <= 40)%nat /\ stripped t /\ _normalize_watchlist_name t = Some t).
Proof.
  assert (Hnil : strip_cp name = [] <-> Forall (fun c => py_isspace_cp c = true) name).
  { rewrite <- lstrip_cp_nil. unfold strip_cp. split; [|intros ->; reflexivity].
    destruct (lstrip_cp name) as [|c t] eqn:Hl; [reflexivity|].
    intros H. exfalso. exact (rstrip_cp_nonempty (c :: t) c t eq_refl (lstrip_cp_head name c t Hl) H). }
  assert (Hfix : forall t, t <> [] -> (List.length t <= 40)%nat -> stripped t ->
                   _normalize_watchlist_name t = Some t).
  { intros t Hne Hlen Hst. unfold _normalize_watchlist_name. rewrite (strip_cp_fixed t Hst).
    destruct t as [|c t]; [congruence|].
    destruct (Nat.ltb_spec WATCHLIST_NAME_MAX (List.length (c :: t))); [unfold WATCHLIST_NAME_MAX in *; lia|reflexivity]. }
  pose proof (strip_cp_stripped name) as Hst.
  unfold _normalize_watchlist_name. split.
  - rewrite <- Hnil. destruct (strip_cp name) as [|c t]; [tauto|].
    destruct (Nat.ltb _ _); split; discriminate.
  - intros t Ht. destruct (strip_cp name) as [|c r] eqn:Hs; [discriminate|].
    destruct (Nat.ltb_spec WATCHLIST_NAME_MAX (List.length (c :: r))) as [Hgt|Hle];
      injection Ht as <-.
    + assert (Hc : py_isspace_cp c = false) by (apply (proj1 Hst c r); reflexivity).
      assert (Hne : rstrip_cp (firstn WATCHLIST_NAME_MAX (c :: r)) <> []).
      { apply (rstrip_cp_nonempty _ c (firstn 39 r)); [reflexivity|exact Hc]. }
      assert (Hlen : (List.length (rstrip_cp (firstn WATCHLIST_NAME_MAX (c :: r))) <= 40)%nat).
      { etransitivity; [apply rstrip_cp_length|]. rewrite length_take. unfold WATCHLIST_NAME_MAX. lia. }
      assert (Hst' : stripped (rstrip_cp (firstn WATCHLIST_NAME_MAX (c :: r)))).
      { apply rstrip_cp_stripped. intros c' t' H. simpl in H. injection H as <- _. exact Hc. }
      split; [exact Hne|]. split; [exact Hlen|]. split; [exact Hst'|]. apply Hfix; assumption.
    + assert (Hlen : (List.length (c :: r) <= 40)%nat) by (unfold WATCHLIST_NAME_MAX in Hle; lia).
      split; [discriminate|]. split; [exact Hlen|]. split; [exact Hst|]. apply Hfix; [discriminate|exact Hlen|exact Hst].
Qed.

Lemma foldr_max_ge (l : list Z) x : In x l -> x <= foldr Z.max 0 l.
Proof. induction l as [|y l IH]; simpl; [intros []|]. intros [<-|H]; [lia|specialize (IH H); lia]. Qed.

Lemma max_rowid_ge (rows : gmap Z watchlist_row) k r : rows !! k = Some r -> k <= max_rowid rows.
Proof.
  intros H. apply foldr_max_ge. apply in_map_iff. exists (k, r). split; [reflexivity|].
  apply list_elem_of_In. apply elem_of_map_to_list. exact H.
Qed.

Lemma Forall_nonspace_stripped (l : list Z) :
  Forall (fun c => py_isspace_cp c = false) l -> stripped l.
Proof.
  intros H. split.
  - intros c t ->. inversion H. assumption.
  - intros c t ->. apply Forall_app in H as [_ H]. inversion H. assumption.
Qed.
Lemma upper_lookup_in (c : Z) (t : list (Z * list Z)) u :
  upper_lookup c t = Some u -> In (c, u) t.
Proof.
  induction t as [|[k v] t IH]; simpl; [discriminate|].
  destruct (Z.eqb_spec c k) as [->|_]; [intros H; injection H as <-; left; reflexivity|].
  intros H. right. exact (IH H).
Qed.

Lemma upper_table_ok : forallb upper_entry_ok UPPER_TABLE = true.
Proof. vm_compute. reflexivity. Qed.

Lemma upper_cp_entry (c : Z) : upper_cp c = [c] \/ upper_entry_ok (c, upper_cp c) = true.
Proof.
  unfold upper_cp at 1 2. destruct (upper_lookup c UPPER_TABLE) as [u|] eqn:Hu; [right|left; reflexivity].
  apply upper_lookup_in in Hu. pose proof upper_table_ok as Ht. rewrite forallb_forall in Ht.
  exact (Ht _ Hu).
Qed.

Ltac upper_entry_facts H :=
  unfold upper_entry_ok in H; cbn [fst snd] in H;
  rewrite !andb_true_iff in H;
  let Hs := fresh "Hs" in let Hk := fresh "Hk" in let He := fresh "He" in let Hd := fresh "Hd" in
  destruct H as [[[Hs Hk] He] Hd];
  rewrite forallb_forall in Hd.

Lemma upper_cp_space (c : Z) : py_isspace_cp c = true -> upper_cp c = [c].
Proof.
  intros Hc. destruct (upper_cp_entry c) as [H|H]; [exact H|].
  upper_entry_facts H. rewrite Hc in Hs. discriminate.
Qed.

Lemma upper_cp_nonspace (c d : Z) :
  py_isspace_cp c = false -> In d (upper_cp c) -> py_isspace_cp d = false.
Proof.
  intros Hc Hin. destruct (upper_cp_entry c) as [H|H].
  - rewrite H in Hin. destruct Hin as [<-|[]]. exact Hc.
  - upper_entry_facts H. specialize (Hd d Hin). rewrite !andb_true_iff in Hd.
    destruct Hd as [[Hd _] _]. apply negb_true_iff. exact Hd.
Qed.

Lemma upper_cp_fixed (c d : Z) : In d (upper_cp c) -> upper_cp d = [d].
Proof.
  intros Hin. destruct (upper_cp_entry c) as [H|H].
  - rewrite H in Hin. destruct Hin as [<-|[]]. exact H.
  - upper_entry_facts H. specialize (Hd d Hin). rewrite !andb_true_iff in Hd.
    destruct Hd as [_ Hd]. apply bool_decide_eq_true in Hd. exact Hd.
Qed.

Lemma upper_cp_comma (c : Z) : In 44 (upper_cp c) -> c = 44.
Proof.
  intros Hin. destruct (upper_cp_entry c) as [H|H].
  - rewrite H in Hin. destruct Hin as [<-|[]]. reflexivity.
  - upper_entry_facts H. specialize (Hd 44 Hin). rewrite !andb_true_iff in Hd.
    destruct Hd as [[_ Hd] _]. discriminate.
Qed.

Lemma upper_cp_nonempty (c : Z) : upper_cp c <> [].
Proof.
  destruct (upper_cp_entry c) as [H|H]; [rewrite H; discriminate|].
  upper_entry_facts H. intros E. rewrite E in He. discriminate.
Qed.

Lemma flat_map_upper_fixed (o : list Z) :
  (forall d, In d o -> upper_cp d = [d]) -> flat_map upper_cp o = o.
Proof.
  induction o as [|d o IH]; simpl; [reflexivity|]. intros H.
  rewrite (H d (or_introl eq_refl)), IH; [reflexivity|]. intros x Hx. exact (H x (or_intror Hx)).
Qed.

Lemma py_upper_cp_idem (l : list Z) : py_upper_cp (py_upper_cp l) = py_upper_cp l.
Proof.
  unfold py_upper_cp. induction l as [|c l IH]; simpl; [reflexivity|].
  rewrite flat_map_app, IH, flat_map_upper_fixed; [reflexivity|].
  intros d Hd. exact (upper_cp_fixed c d Hd).
Qed.

Lemma py_upper_cp_app (a b : list Z) : py_upper_cp (a ++ b) = py_upper_cp a ++ py_upper_cp b.
Proof. apply flat_map_app. Qed.

Lemma py_upper_cp_stripped (l : list Z) : stripped l -> stripped (py_upper_cp l).
Proof.
  intros [Hh Ht]. split.
  - intros c t Hc. destruct l as [|x l]; [discriminate|].
    unfold py_upper_cp in Hc. simpl in Hc.
    destruct (upper_cp x) as [|y u] eqn:Hx; [exfalso; exact (upper_cp_nonempty x Hx)|].
    simpl in Hc. injection Hc as <- _.
    apply (upper_cp_nonspace x); [exact (Hh x l eq_refl)|rewrite Hx; left; reflexivity].
  - intros c t Hc. destruct l as [|x0 l0]; [destruct t; discriminate|].
    destruct (exists_last (l := x0 :: l0) ltac:(discriminate)) as [l [x Hl]]. rewrite Hl in Hc, Ht.
    rewrite py_upper_cp_app in Hc. unfold py_upper_cp at 2 in Hc. simpl in Hc. rewrite app_nil_r in Hc.
    destruct (exists_last (upper_cp_nonempty x)) as [u [y Hx]].
    rewrite Hx, app_assoc in Hc. apply app_inj_tail in Hc as [_ <-].
    apply (upper_cp_nonspace x); [exact (Ht x l eq_refl)|].
    rewrite Hx. apply in_or_app. right. left. reflexivity.
Qed.

Lemma strip_cp_in (l : list Z) c : In c (strip_cp l) -> In c l.
Proof.
  unfold strip_cp, rstrip_cp. intros H. apply in_rev in H.
  destruct (lstrip_cp_suffix (rev (lstrip_cp l))) as [l1 Hl1].
  assert (H1 : In c (rev (lstrip_cp l))) by (rewrite Hl1; apply in_or_app; right; exact H).
  apply in_rev in H1.
  destruct (lstrip_cp_suffix l) as [l2 Hl2]. rewrite Hl2. apply in_or_app. right. exact H1.
Qed.

Lemma split_on_no_sep (sep : Z) (l : list Z) :
  Forall (fun w => ~ In sep w) (split_on sep l).
Proof.
  induction l as [|c l IH]; simpl.
  - constructor; [intros []|constructor].
  - destruct (Z.eqb_spec sep c) as [->|Hne]; [constructor; [intros []|exact IH]|].
    destruct (split_on sep l) as [|w ws]; [constructor; [intros [H|[]]; congruence|constructor]|].
    inversion IH as [|? ? Hw Hws]; subst. constructor; [|exact Hws].
    intros [H|H]; [congruence|exact (Hw H)].
Qed.

Lemma parse_symbols_step_ok (acc : list (list Z)) (tok : list Z) :
  ~ In 44 tok -> parsed_symbols_ok acc -> parsed_symbols_ok (parse_symbols_step acc tok).
Proof.
  intros Htok [Hnd Hall]. unfold parse_symbols_step.
  pose proof (py_upper_cp_stripped _ (strip_cp_stripped tok)) as Hst.
  pose proof (py_upper_cp_idem (strip_cp tok)) as Hid.
  assert (Hc : ~ In 44 (py_upper_cp (strip_cp tok))).
  { intros H. unfold py_upper_cp in H. apply in_flat_map in H as [x [Hx H]].
    apply upper_cp_comma in H. subst x. exact (Htok (strip_cp_in tok 44 Hx)). }
  destruct (py_upper_cp (strip_cp tok)) as [|c r] eqn:Hsym; [split; assumption|].
  destruct (decide (c :: r ∈ acc)) as [Hin|Hnin]; [split; assumption|].
  split.
  - apply NoDup_app. split; [exact Hnd|]. split; [|apply NoDup_singleton].
    intros x Hx Hx'. apply list_elem_of_singleton in Hx' as ->. exact (Hnin Hx).
  - apply Forall_app. split; [exact Hall|]. constructor; [|constructor].
    split; [discriminate|]. split; [apply strip_cp_fixed; exact Hst|]. split; [exact Hid|exact Hc].
Qed.

Lemma fold_parse_symbols_ok (toks : list (list Z)) (acc : list (list Z)) :
  Forall (fun w => ~ In 44 w) toks ->
  parsed_symbols_ok acc -> parsed_symbols_ok (fold_left parse_symbols_step toks acc).
Proof.
  revert acc. induction toks as [|t toks IH]; simpl; intros acc Htoks Hacc; [exact Hacc|].
  inversion Htoks as [|? ? Ht Hts]; subst.
  apply IH; [exact Hts|]. apply parse_symbols_step_ok; assumption.
Qed.

Lemma parse_symbols_ok (raw : list Z) :
  parsed_symbols_ok (parse_symbols raw) /\ (List.length (parse_symbols raw) <= 10)%nat.
Proof.
  unfold parse_symbols. destruct raw as [|c0 raw0]; [split; [split; constructor|simpl; lia]|].
  destruct (fold_parse_symbols_ok
              (split_on 44 (replace_fullwidth_comma (c0 :: raw0))) []
              (split_on_no_sep _ _) ltac:(split; constructor)) as [Hnd Hall].
  split; [split|].
  - eapply sublist_NoDup; [exact Hnd|apply sublist_take].
  - apply Forall_take. exact Hall.
  - rewrite length_take. lia.
Qed.

(** X1. [parse_symbols(raw)] returns at most 10 symbols, all distinct, each
    non-empty, unchanged by [str.strip()] and by [str.upper()] (on Unicode
    text), and free of commas.  Examples: ['ß,ss'] gives [['SS']], and
    ['　nvda，aapl, NVDA,,msft '] gives [['NVDA', 'AAPL', 'MSFT']]. *)
Theorem parse_symbols_normalized (raw : list Z) :
  let out := parse_symbols raw in
  (NoDup out /\ (List.length out <= 10)%nat /\
   (forall s, In s out -> s <> [] /\ strip_cp s = s /\ py_upper_cp s = s /\ ~ In 44 s)) /\
  parse_symbols [223; 44; 115; 115] = [[83; 83]] /\
  parse_symbols [12288; 110; 118; 100; 97; 65292; 97; 97; 112; 108; 44; 32; 78; 86; 68; 65;
                 44; 44; 109; 115; 102; 116; 32] =
    [[78; 86; 68; 65]; [65; 65; 80; 76]; [77; 83; 70; 84]].
Proof.
  destruct (parse_symbols_ok raw) as [[Hnd Hall] Hlen]. split; [|split; vm_compute; reflexivity].
  split; [exact Hnd|]. split; [exact Hlen|].
  intros s Hs. rewrite Forall_forall in Hall. apply Hall. apply list_elem_of_In. exact Hs.
Qed.


Lemma default_watchlist_name_nonspace (now_name : list Z) :
  Forall (fun c => py_isspace_cp c = false) now_name ->
  Forall (fun c => py_isspace_cp c = false) (default_watchlist_name now_name).
Proof.
  intros H. unfold default_watchlist_name. apply Forall_app. split.
  - repeat constructor.
  - apply Forall_forall. intros x Hx. apply list_elem_of_filter in Hx as [_ Hx].
    revert x Hx. apply Forall_forall. apply Forall_take. apply Forall_drop. exact H.
Qed.

Lemma entry_name_stripped (id : Z) (r : watchlist_row) :
  wl_name r <> [] -> stripped (wl_name r) -> entry_name (entry_of_row id r) = wl_name r.
Proof.
  intros Hne Hst. unfold entry_of_row. simpl. rewrite (strip_cp_fixed _ Hst).
  destruct (wl_name r); [congruence|reflexivity].
Qed.

Lemma normalized_name_stripped (name t : list Z) :
  _normalize_watchlist_name name = Some t -> t <> [] /\ stripped t.
Proof.
  intros H. destruct (normalize_watchlist_name_ok name) as [_ Hs].
  destruct (Hs t H) as [Hne [_ [Hst _]]]. split; assumption.
Qed.

Lemma create_watchlist_entry_roundtrip (db : watchlist_db) (name : list Z)
    (symbols : list string) (now_name now_ts : list Z) :
  _normalize_symbols symbols <> [] ->
  Z.max (wl_seq db) (max_rowid (wl_rows db)) < SQLITE_MAX_ROWID ->
  Forall (fun c => py_isspace_cp c = false) now_name ->
  exists db' id e,
    create_watchlist_entry db name symbols now_name now_ts = Ok (db', Some id) /\
    wl_rows db !! id = None /\
    get_watchlist_entry db' id = Some e /\
    entry_symbols e = _normalize_symbols symbols /\
    entry_name e = default (default_watchlist_name now_name) (_normalize_watchlist_name name) /\
    entry_created_at e = now_ts /\
    (forall id', id' <> id -> get_watchlist_entry db' id' = get_watchlist_entry db id').
Proof.
  intros Hsym Hroom Hnow. unfold create_watchlist_entry.
  destruct (_normalize_symbols symbols) as [|s0 ss] eqn:Hns; [congruence|].
  destruct (Z.leb_spec SQLITE_MAX_ROWID (Z.max (wl_seq db) (max_rowid (wl_rows db)))); [lia|].
  set (nm := match _normalize_watchlist_name name with Some (c :: t) => c :: t
             | _ => default_watchlist_name now_name end).
  set (new_id := Z.max (wl_seq db) (max_rowid (wl_rows db)) + 1).
  set (row := {| wl_name := nm; wl_symbols := s0 :: ss; wl_created_at := now_ts; wl_updated_at := now_ts |}).
  eexists _, new_id, (entry_of_row new_id row). split; [reflexivity|]. split.
  { destruct (wl_rows db !! new_id) as [r|] eqn:Hr; [|reflexivity].
    apply max_rowid_ge in Hr. unfold new_id in Hr. lia. }
  split; [unfold get_watchlist_entry; simpl; rewrite lookup_insert_eq; reflexivity|].
  split; [simpl; rewrite <- Hns; apply normalize_symbols_idem|].
  split.
  - assert (Hnm : nm = default (default_watchlist_name now_name) (_normalize_watchlist_name name)).
    { unfold nm. destruct (_normalize_watchlist_name name) as [[|c t]|] eqn:Hn; try reflexivity.
      apply normalized_name_stripped in Hn as [Hne _]. congruence. }
    rewrite (entry_name_stripped new_id row).
    + exact Hnm.
    + simpl. rewrite Hnm. destruct (_normalize_watchlist_name name) as [t|] eqn:Hn; simpl.
      * exact (proj1 (normalized_name_stripped _ _ Hn)).
      * unfold default_watchlist_name, DEFAULT_WATCHLIST_PREFIX. discriminate.
    + simpl. rewrite Hnm. destruct (_normalize_watchlist_name name) as [t|] eqn:Hn; simpl.
      * exact (proj2 (normalized_name_stripped _ _ Hn)).
      * apply Forall_nonspace_stripped, default_watchlist_name_nonspace, Hnow.
  - split; [reflexivity|].
    intros id' Hid. unfold get_watchlist_entry. simpl. rewrite lookup_insert_ne; [reflexivity|].
    intros He. apply Hid. symmetry. exact He.
Qed.

(** X3. [delete_watchlist_entry(id)] returns [True] exactly when the entry
    exists; afterwards the entry is gone, the AUTOINCREMENT counter is
    unchanged and every other entry reads back as before. *)
Theorem watchlist_delete_spec (db : watchlist_db) (watchlist_id : Z) :
  let '(db', ok) := delete_watchlist_entry db watchlist_id in
  (ok = true <-> get_watchlist_entry db watchlist_id <> None) /\
  get_watchlist_entry db' watchlist_id = None /\
  wl_seq db' = wl_seq db /\
  (forall id', id' <> watchlist_id -> get_watchlist_entry db' id' = get_watchlist_entry db id').
Proof.
  unfold delete_watchlist_entry, get_watchlist_entry.
  destruct (wl_rows db !! watchlist_id) as [r|] eqn:Hr; simpl.
  - split; [split; [discriminate|reflexivity]|].
    split; [rewrite lookup_delete_eq; reflexivity|]. split; [reflexivity|].
    intros id' Hne. rewrite lookup_delete_ne; [reflexivity|congruence].
  - unfold _watchlist_row_to_dict. rewrite Hr. split; [split; [discriminate|tauto]|].
    split; [reflexivity|]. split; [reflexivity|]. intros; reflexivity.
Qed.

Lemma create_ids_below_seq db name symbols now_name now_ts db' o :
  wl_ids_below_seq db ->
  create_watchlist_entry db name symbols now_name now_ts = Ok (db', o) ->
  wl_ids_below_seq db' /\ wl_seq db <= wl_seq db' /\
  (forall id, o = Some id -> wl_seq db < id).
Proof.
  intros Hinv. unfold create_watchlist_entry.
  destruct (_normalize_symbols symbols) as [|s0 ss]; [intros H; injection H as <- <-; split; [exact Hinv|split; [lia|discriminate]]|].
  destruct (SQLITE_MAX_ROWID <=? _); [discriminate|].
  intros H. injection H as <- <-. simpl. split; [|split; [lia|intros id Hid; injection Hid as <-; lia]].
  intros k r Hk. simpl in Hk |- *. destruct (decide (k = Z.max (wl_seq db) (max_rowid (wl_rows db)) + 1)) as [->|Hne]; [lia|].
  rewrite lookup_insert_ne in Hk; [|congruence]. apply max_rowid_ge in Hk. lia.
Qed.

(** X4. Ids are not reused: when the AUTOINCREMENT counter is at least every id
    in the table, a watchlist created after deleting the entry [id] gets
    an id larger than [id]. *)
Theorem watchlist_ids_not_reused (db : watchlist_db) (watchlist_id : Z) (r : watchlist_row)
    name symbols now_name now_ts db2 new_id :
  wl_ids_below_seq db ->
  wl_rows db !! watchlist_id = Some r ->
  create_watchlist_entry (fst (delete_watchlist_entry db watchlist_id)) name symbols now_name now_ts
    = Ok (db2, Some new_id) ->
  watchlist_id < new_id.
Proof.
  intros Hinv Hr Hc. unfold delete_watchlist_entry in Hc. rewrite Hr in Hc. simpl in Hc.
  assert (Hinv' : wl_ids_below_seq {| wl_rows := delete watchlist_id (wl_rows db); wl_seq := wl_seq db |}).
  { intros k r' Hk. simpl in Hk |- *. destruct (decide (k = watchlist_id)) as [->|Hne].
    - rewrite lookup_delete_eq in Hk. discriminate.
    - rewrite lookup_delete_ne in Hk; [|congruence]. exact (Hinv k r' Hk). }
  destruct (create_ids_below_seq _ _ _ _ _ _ _ Hinv' Hc) as [_ [_ Hnew]].
  specialize (Hnew new_id eq_refl). simpl in Hnew. specialize (Hinv _ _ Hr). lia.
Qed.

(** X5. [update_watchlist_entry_name] changes nothing and returns [None] for a
    blank name or a missing id; otherwise it stores the normalized name and
    the new [updated_at], keeps the symbols and [created_at], returns the
    entry as [get_watchlist_entry] reads it back, and leaves the other
    entries and the counter alone. *)
Theorem watchlist_rename_spec (db : watchlist_db) (watchlist_id : Z) (name now_ts : list Z) :
  (_normalize_watchlist_name name = None ->
     update_watchlist_entry_name db watchlist_id name now_ts = (db, None)) /\
  (wl_rows db !! watchlist_id = None ->
     update_watchlist_entry_name db watchlist_id name now_ts = (db, None)) /\
  (forall t r, _normalize_watchlist_name name = Some t -> wl_rows db !! watchlist_id = Some r ->
     exists db' e,
       update_watchlist_entry_name db watchlist_id name now_ts = (db', Some e) /\
       get_watchlist_entry db' watchlist_id = Some e /\
       entry_name e = t /\
       entry_symbols e = _normalize_symbols (wl_symbols r) /\
       entry_created_at e = wl_created_at r /\
       entry_updated_at e = now_ts /\
       wl_seq db' = wl_seq db /\
       (forall id', id' <> watchlist_id -> get_watchlist_entry db' id' = get_watchlist_entry db id')).
Proof.
  unfold update_watchlist_entry_name. split; [intros H; rewrite H; reflexivity|]. split.
  - intros H. destruct (_normalize_watchlist_name name) as [[|c t]|]; try reflexivity. rewrite H. reflexivity.
  - intros t r Ht Hr. rewrite Ht. destruct (normalized_name_stripped _ _ Ht) as [Hne Hst].
    destruct t as [|c t]; [congruence|]. rewrite Hr.
    set (r' := {| wl_name := c :: t; wl_symbols := wl_symbols r;
                  wl_created_at := wl_created_at r; wl_updated_at := now_ts |}).
    set (db' := {| wl_rows := <[watchlist_id := r']> (wl_rows db); wl_seq := wl_seq db |}).
    assert (Hget : get_watchlist_entry db' watchlist_id = Some (entry_of_row watchlist_id r')).
    { unfold get_watchlist_entry. simpl. rewrite lookup_insert_eq. reflexivity. }
    exists db', (entry_of_row watchlist_id r'). split; [rewrite Hget; reflexivity|].
    split; [exact Hget|].
    split; [apply (entry_name_stripped watchlist_id r'); assumption|].
    split; [reflexivity|]. split; [reflexivity|]. split; [reflexivity|]. split; [reflexivity|].
    intros id' Hid. unfold get_watchlist_entry. simpl. rewrite lookup_insert_ne; [reflexivity|congruence].
Qed.

Lemma watchlist_page_size_bounds (limit : option Z) :
  1 <= watchlist_page_size limit <= 500.
Proof. unfold watchlist_page_size. lia. Qed.

Lemma NoDup_fst_perm {A B} (l l' : list (A * B)) : l ≡ₚ l' -> NoDup l.*1 -> NoDup l'.*1.
Proof. intros Hp Hnd. eapply NoDup_Permutation_proper; [|exact Hnd]. rewrite Hp. reflexivity. Qed.

Lemma sorted_rows_strict (rows : gmap Z watchlist_row) :
  StronglySorted (fun a b : Z * watchlist_row => b.1 < a.1)
    (sort_le (fun a b : Z * watchlist_row => b.1 <=? a.1) (map_to_list rows)).
Proof.
  set (S := sort_le (fun a b : Z * watchlist_row => b.1 <=? a.1) (map_to_list rows)).
  assert (Hperm : S ≡ₚ map_to_list rows) by apply sort_le_perm.
  assert (Hnd : NoDup S.*1).
  { apply (NoDup_fst_perm (map_to_list rows)); [symmetry; exact Hperm|apply NoDup_fst_map_to_list]. }
  assert (Hs : StronglySorted (fun a b : Z * watchlist_row => b.1 <= a.1) S).
  { apply Sorted_StronglySorted; [intros x y z; lia|].
    eapply Sorted_weaken; [|apply sort_le_sorted].
    - intros x y H. apply Z.leb_le. exact H.
    - intros x y H. apply Z.leb_gt in H. apply Z.leb_le. lia. }
  clearbody S. clear Hperm. induction Hs as [|x l Hs IH Hall]; constructor.
  - apply IH. simpl in Hnd. apply NoDup_cons in Hnd. tauto.
  - simpl in Hnd. apply NoDup_cons in Hnd as [Hx _].
    rewrite Forall_forall in Hall |- *. intros y Hy.
    specialize (Hall y Hy). assert (y.1 <> x.1); [|lia].
    intros He. apply Hx. rewrite <- He. apply list_elem_of_fmap. exists y. split; [reflexivity|exact Hy].
Qed.

Lemma StronglySorted_map_mono {A B} (R : A -> A -> Prop) (R' : B -> B -> Prop) (f : A -> B) l :
  (forall a b, R a b -> R' (f a) (f b)) -> StronglySorted R l -> StronglySorted R' (map f l).
Proof.
  intros HR Hs. induction Hs as [|p l' Hs IH Hall]; simpl; constructor; [exact IH|].
  rewrite Forall_forall in Hall. rewrite Forall_forall. intros e He.
  apply list_elem_of_In, in_map_iff in He as [q [<- Hq]].
  apply HR, Hall. apply list_elem_of_In. exact Hq.
Qed.

(** X6. [list_watchlist_entries(limit)] returns [min(size, number of rows)]
    entries, where [1 <= size <= 500]; their ids strictly decrease, each
    entry is what [get_watchlist_entry] returns for its id, and every row
    left out has a smaller id than every entry listed. *)
Theorem watchlist_listing_spec (db : watchlist_db) (limit : option Z) :
  let l := list_watchlist_entries db limit in
  let n := Z.to_nat (watchlist_page_size limit) in
  (1 <= watchlist_page_size limit <= 500) /\
  List.length l = Nat.min n (size (wl_rows db)) /\
  StronglySorted (fun a b => entry_id b < entry_id a) l /\
  (forall e, In e l -> get_watchlist_entry db (entry_id e) = Some e) /\
  (forall e id r, In e l -> wl_rows db !! id = Some r ->
     ~ In id (map entry_id l) -> id < entry_id e).
Proof.
  intros l n. split; [apply watchlist_page_size_bounds|].
  set (S := sort_le (fun a b : Z * watchlist_row => b.1 <=? a.1) (map_to_list (wl_rows db))).
  assert (Hperm : S ≡ₚ map_to_list (wl_rows db)) by apply sort_le_perm.
  assert (Hss : StronglySorted (fun a b : Z * watchlist_row => b.1 < a.1) S) by apply sorted_rows_strict.
  assert (Hl : l = map (fun '(id, r) => entry_of_row id r) (firstn n S)) by reflexivity.
  assert (Hid : forall p, entry_id ((fun '(id, r) => entry_of_row id r) p) = p.1).
  { intros [id r]. reflexivity. }
  assert (Hin : forall p, In p S -> wl_rows db !! p.1 = Some p.2).
  { intros [id r] Hp. apply elem_of_map_to_list. rewrite <- Hperm. apply list_elem_of_In. exact Hp. }
  split.
  - rewrite Hl, length_map, length_take, Hperm, length_map_to_list. reflexivity.
  - split.
    + rewrite Hl. rewrite <- (take_drop n S) in Hss. apply StronglySorted_app_1_l in Hss.
      eapply StronglySorted_map_mono; [|exact Hss]. intros a b H. rewrite !Hid. exact H.
    + split.
      * intros e He. rewrite Hl in He. apply in_map_iff in He as [[id r] [<- Hp]].
        assert (HpS : In (id, r) S) by (rewrite <- (firstn_skipn n S); apply in_or_app; left; exact Hp).
        apply Hin in HpS. simpl in HpS. rename HpS into Hp'.
        unfold get_watchlist_entry. simpl. rewrite Hp'. reflexivity.
      * intros e id r He Hr Hnot. rewrite Hl in He. apply in_map_iff in He as [p [<- Hp]].
        rewrite Hid.
        assert (HpS : In (id, r) S).
        { apply list_elem_of_In. rewrite Hperm. apply elem_of_map_to_list. exact Hr. }
        rewrite <- (take_drop n S) in HpS, Hss. apply in_app_or in HpS as [Hq|Hq].
        -- exfalso. apply Hnot. rewrite Hl. apply in_map_iff. exists (entry_of_row id r).
           split; [reflexivity|]. apply in_map_iff. exists (id, r). split; [reflexivity|exact Hq].
        -- apply (StronglySorted_app_1_elem_of _ _ _ p (id, r) Hss); apply list_elem_of_In; assumption.
Qed.

Lemma round_opt_ok (o : option float) : exists r, _round (of_opt o) = Ok r.
Proof. destruct o as [f|]; unfold _round; simpl; [destruct (PrimFloat.is_nan f)|]; simpl; eauto. Qed.

Lemma is_number_opt (o : option float) :
  _is_number (of_opt o) = Ok (match o with Some f => negb (PrimFloat.is_nan f) | None => false end).
Proof. destruct o; reflexivity. Qed.

Lemma trend_change_ok (a b : option float) : exists r, trend_change a b = Ok r.
Proof.
  unfold trend_change, _pct_change.
  destruct a as [x|], b as [y|]; simpl;
    repeat (match goal with
            | |- context [PrimFloat.is_nan ?x] => destruct (PrimFloat.is_nan x)
            | |- context [PrimFloat.eqb ?y 0%float] => destruct (PrimFloat.eqb y 0%float)
            end; simpl); eauto.
Qed.

Lemma eps_trend_build_ok (found : option (string * eps_trend_row)) :
  exists s, _build_eps_trend_snapshot found = Ok s.
Proof.
  destruct found as [[p row]|]; [|eauto].
  unfold _build_eps_trend_snapshot.
  destruct (round_opt_ok (tr_current row)) as [c Hc]; rewrite Hc; cbn [res_bind].
  destruct (round_opt_ok (tr_d7 row)) as [d7 H7]; rewrite H7; cbn [res_bind].
  destruct (round_opt_ok (tr_d30 row)) as [d30 H30]; rewrite H30; cbn [res_bind].
  destruct (round_opt_ok (tr_d60 row)) as [d60 H60]; rewrite H60; cbn [res_bind].
  destruct (round_opt_ok (tr_d90 row)) as [d90 H90]; rewrite H90; cbn [res_bind].
  destruct (trend_change_ok c d30) as [c30 Hc30]; rewrite Hc30; cbn [res_bind].
  destruct (trend_change_ok c d90) as [c90 Hc90]; rewrite Hc90; cbn [res_bind].
  rewrite is_number_opt; cbn [res_bind].
  match goal with |- context [_is_number (of_opt ?d)] => rewrite (is_number_opt d) end.
  cbn [res_bind].
  match goal with |- context [match ?m with pair _ _ => _ end] => destruct m end.
  eauto.
Qed.

Lemma is_nan_of_finite (x : float) : PrimFloat.is_finite x = true -> PrimFloat.is_nan x = false.
Proof. unfold PrimFloat.is_finite. destruct (PrimFloat.is_nan x); [discriminate|reflexivity]. Qed.

Lemma py_round2_nan (x : float) : PrimFloat.is_nan x = true -> py_round2 x = x.
Proof.
  unfold PrimFloat.is_nan. rewrite FloatAxioms.eqb_spec. unfold py_round2, py_round_digits.
  destruct (FloatOps.Prim2SF x) as [s|s| |s m e]; try reflexivity.
  unfold SpecFloat.SFeqb, SpecFloat.SFcompare.
  destruct s; rewrite Z.compare_refl, Pos.compare_cont_refl; discriminate.
Qed.

(** X7. An EPS-trend row whose current estimate equals its estimate of 90 days
    ago (finite and non-zero once rounded) gives a 90-day change of [0],
    the flat signal and the "stable" conclusion. *)
Theorem eps_trend_unchanged_is_flat (p : string) (row : eps_trend_row) (x : float)
  (Hc : tr_current row = Some x) (H90 : tr_d90 row = Some x)
  (Hfin : PrimFloat.is_finite (py_round2 x) = true)
  (Hnz : PrimFloat.eqb (py_round2 x) 0%float = false) :
  exists s, _build_eps_trend_snapshot (Some (p, row)) = Ok s /\
    et_change_vs_90d_pct s = Some 0%float /\
    et_signal s = SignalFlat /\ et_conclusion s = TrendFlat.
Proof.
  assert (Hy : PrimFloat.is_nan (py_round2 x) = false) by (apply is_nan_of_finite; exact Hfin).
  assert (Hx : PrimFloat.is_nan x = false).
  { destruct (PrimFloat.is_nan x) eqn:E; [|reflexivity].
    rewrite (py_round2_nan x E) in Hy. congruence. }
  assert (Hr : _round (of_opt (Some x)) = Ok (Some (py_round2 x))).
  { unfold _round. simpl. rewrite Hx. reflexivity. }
  assert (Hch : trend_change (Some (py_round2 x)) (Some (py_round2 x)) = Ok (Some 0%float)).
  { unfold trend_change, _pct_change. cbn [of_opt _is_number py_isnan res_bind py_ne_zero py_float_num].
    rewrite Hy. cbn [negb res_bind]. rewrite Hnz. cbn [negb res_bind].
    rewrite (prim_div_self _ Hfin Hnz). vm_compute. reflexivity. }
  unfold _build_eps_trend_snapshot. rewrite Hc, H90, Hr. cbn [res_bind].
  destruct (round_opt_ok (tr_d7 row)) as [d7 H7]; rewrite H7; cbn [res_bind].
  destruct (round_opt_ok (tr_d30 row)) as [d30 H30]; rewrite H30; cbn [res_bind].
  destruct (round_opt_ok (tr_d60 row)) as [d60 H60]; rewrite H60; cbn [res_bind].
  destruct (trend_change_ok (Some (py_round2 x)) d30) as [c30 Hc30]; rewrite Hc30; cbn [res_bind].
  rewrite Hch. cbn [res_bind].
  eexists. split; [reflexivity|]. vm_compute. auto.
Qed.

Ltac float_cases :=
  repeat (match goal with
          | |- context [PrimFloat.is_nan ?x] => destruct (PrimFloat.is_nan x) eqn:?
          | |- context [PrimFloat.leb ?x ?y] => destruct (PrimFloat.leb x y) eqn:?
          end; cbn [negb res_bind]).

(** X8. [_build_eps_trend_snapshot] never raises; its signal is
    "insufficient" exactly when its conclusion is the no-data one, and
    exactly when neither the 90-day nor the 30-day change is a number. *)
Theorem eps_trend_insufficient_iff (found : option (string * eps_trend_row)) :
  exists s, _build_eps_trend_snapshot found = Ok s /\
    (et_signal s = SignalInsufficient <-> et_conclusion s = TrendNoData) /\
    (et_signal s = SignalInsufficient <->
       _is_number (of_opt (et_change_vs_90d_pct s)) = Ok false /\
       _is_number (of_opt (et_change_vs_30d_pct s)) = Ok false).
Proof.
  destruct found as [[p row]|].
  2:{ eexists. split; [reflexivity|]. cbn. repeat split; auto. }
  unfold _build_eps_trend_snapshot.
  destruct (round_opt_ok (tr_current row)) as [c Hc]; rewrite Hc; cbn [res_bind].
  destruct (round_opt_ok (tr_d7 row)) as [d7 H7]; rewrite H7; cbn [res_bind].
  destruct (round_opt_ok (tr_d30 row)) as [d30 H30]; rewrite H30; cbn [res_bind].
  destruct (round_opt_ok (tr_d60 row)) as [d60 H60]; rewrite H60; cbn [res_bind].
  destruct (round_opt_ok (tr_d90 row)) as [d90 H90]; rewrite H90; cbn [res_bind].
  destruct (trend_change_ok c d30) as [c30 Hc30]; rewrite Hc30; cbn [res_bind].
  destruct (trend_change_ok c d90) as [c90 Hc90]; rewrite Hc90; cbn [res_bind].
  rewrite !is_number_opt.
  destruct c90 as [f90|]; destruct c30 as [f30|]; cbn [negb res_bind];
    float_cases; cbn [negb res_bind];
    try rewrite is_number_opt; float_cases;
    (eexists; split; [reflexivity|]); cbn;
    rewrite ?is_number_opt;
    repeat match goal with E : PrimFloat.is_nan ?x = _ |- context [PrimFloat.is_nan ?x] => rewrite E end;
    repeat split; intros; try discriminate; try reflexivity;
    repeat match goal with H : _ /\ _ |- _ => destruct H end;
    cbn [negb] in *; try congruence.
Qed.

(** X9. When the 90-day change is a number it alone drives the signal: two rows
    that agree on the current and the 90-day estimate give the same 90-day
    change, signal and conclusion, whatever their 7-, 30- and 60-day
    estimates. *)
Theorem eps_trend_90d_priority (p1 p2 : string) (r1 r2 : eps_trend_row) (s1 s2 : eps_trend_snapshot) (d : float)
  (Hcur : tr_current r1 = tr_current r2) (Hd90 : tr_d90 r1 = tr_d90 r2)
  (H1 : _build_eps_trend_snapshot (Some (p1, r1)) = Ok s1)
  (H2 : _build_eps_trend_snapshot (Some (p2, r2)) = Ok s2)
  (Hch : et_change_vs_90d_pct s1 = Some d) (Hnum : PrimFloat.is_nan d = false) :
  et_change_vs_90d_pct s2 = Some d /\
  et_signal s2 = et_signal s1 /\ et_conclusion s2 = et_conclusion s1.
Proof.
  unfold _build_eps_trend_snapshot in H1, H2. rewrite <- Hcur, <- Hd90 in H2.
  destruct (round_opt_ok (tr_current r1)) as [c Hc]; rewrite Hc in H1, H2; cbn [res_bind] in H1, H2.
  destruct (round_opt_ok (tr_d90 r1)) as [d90 H90]; rewrite H90 in H1, H2; cbn [res_bind] in H1, H2.
  destruct (round_opt_ok (tr_d7 r1)) as [a1 Ha1]; rewrite Ha1 in H1; cbn [res_bind] in H1.
  destruct (round_opt_ok (tr_d7 r2)) as [a2 Ha2]; rewrite Ha2 in H2; cbn [res_bind] in H2.
  destruct (round_opt_ok (tr_d30 r1)) as [b1 Hb1]; rewrite Hb1 in H1; cbn [res_bind] in H1.
  destruct (round_opt_ok (tr_d30 r2)) as [b2 Hb2]; rewrite Hb2 in H2; cbn [res_bind] in H2.
  destruct (round_opt_ok (tr_d60 r1)) as [e1 He1]; rewrite He1 in H1; cbn [res_bind] in H1.
  destruct (round_opt_ok (tr_d60 r2)) as [e2 He2]; rewrite He2 in H2; cbn [res_bind] in H2.
  destruct (trend_change_ok c b1) as [g1 Hg1]; rewrite Hg1 in H1; cbn [res_bind] in H1.
  destruct (trend_change_ok c b2) as [g2 Hg2]; rewrite Hg2 in H2; cbn [res_bind] in H2.
  destruct (trend_change_ok c d90) as [c90 Hc90]; rewrite Hc90 in H1, H2; cbn [res_bind] in H1, H2.
  rewrite is_number_opt in H1, H2.
  destruct c90 as [f|].
  2:{ cbn [negb res_bind] in H1. rewrite ?is_number_opt in H1. cbn [negb res_bind] in H1.
      destruct g1 as [g|]; cbn [res_bind] in H1;
      [destruct (negb (PrimFloat.is_nan g)) |];
      repeat match type of H1 with context [if ?b then _ else _] => destruct b end;
      injection H1 as <-; discriminate Hch. }
  destruct (PrimFloat.is_nan f) eqn:Hf; cbn [res_bind] in H1, H2.
  - cbn [negb res_bind] in H1. rewrite ?is_number_opt in H1. cbn [negb res_bind] in H1.
    destruct g1 as [g|]; cbn [res_bind] in H1;
      [destruct (negb (PrimFloat.is_nan g)) |];
      repeat match type of H1 with context [if ?b then _ else _] => destruct b end;
      injection H1 as <-; cbn in Hch; injection Hch as ->; congruence.
  - cbn [negb res_bind] in H1, H2. rewrite ?is_number_opt in H1, H2. rewrite ?Hf in H1, H2. cbn [negb res_bind] in H1, H2.
    repeat match type of H1 with context [if ?b then _ else _] => destruct b end;
      injection H1 as <-; injection H2 as <-; cbn in Hch |- *; auto.
Qed.

(** X10. In [_build_expectation_overall_conclusion] a downward EPS trend never
    yields the positive conclusion, an upward one never the cautious one,
    and the conclusion is "insufficient" exactly when there is no
    directional evidence: the latest quarter is neither a beat nor a miss,
    the beat streak is below 3, fewer than 2 misses, and the EPS trend is
    neither up nor down. *)
Theorem expectation_overall_trend_bounds (beat_miss : beat_miss_snapshot) (eps_trend : eps_trend_snapshot) :
  (et_signal eps_trend = SignalDown ->
     _build_expectation_overall_conclusion beat_miss eps_trend <> OverallPositive) /\
  (et_signal eps_trend = SignalUp ->
     _build_expectation_overall_conclusion beat_miss eps_trend <> OverallCautious) /\
  (_build_expectation_overall_conclusion beat_miss eps_trend = OverallInsufficient <->
     latest_result beat_miss <> Beat /\ latest_result beat_miss <> Miss /\
     (beat_streak_4q beat_miss < 3)%nat /\ (miss_count_4q beat_miss < 2)%nat /\
     et_signal eps_trend <> SignalUp /\ et_signal eps_trend <> SignalDown).
Proof.
  unfold _build_expectation_overall_conclusion.
  destruct (latest_result beat_miss), (et_signal eps_trend);
  destruct (Nat.leb_spec 3 (beat_streak_4q beat_miss));
  destruct (Nat.leb_spec 2 (miss_count_4q beat_miss));
  cbn; repeat split; intros; try discriminate; try lia;
  repeat match goal with H : _ /\ _ |- _ => destruct H end; try congruence; try lia.
Qed.

Lemma last_of_rev {A} (l : list A) (x : A) (t : list A) (d : A) :
  rev l = x :: t -> List.last l d = x.
Proof. intros H. rewrite <- (rev_involutive l), H. simpl. apply last_last. Qed.

Lemma last_in_or_default {A} (l : list A) (d : A) : List.In (List.last l d) l \/ List.last l d = d.
Proof.
  induction l as [|a l IH]; simpl; auto.
  destruct l as [|b l']; simpl; auto.
  destruct IH as [H|H]; [left; right; exact H | right; exact H].
Qed.

Lemma classify_opt_non_number (o : option float) :
  match o with Some f => PrimFloat.is_nan f = true | None => True end ->
  classify_opt o = Insufficient.
Proof.
  destruct o as [f|]; intros H; unfold classify_opt, _classify_surprise; simpl; [rewrite H|]; reflexivity.
Qed.

Lemma numeric_surprises_nil_in (l : list bm_record) (r : bm_record) :
  numeric_surprises l = [] -> List.In r l ->
  match surprise_pct r with Some f => PrimFloat.is_nan f = true | None => True end.
Proof.
  induction l as [|a l IH]; simpl; [tauto|].
  intros H [->|Hin].
  - destruct (surprise_pct r) as [f|]; auto.
    destruct (PrimFloat.is_nan f); [reflexivity|discriminate].
  - apply IH; [|exact Hin].
    destruct (surprise_pct a) as [f|]; [destruct (PrimFloat.is_nan f)|]; simpl in H; auto; discriminate.
Qed.

Lemma beat_miss_streak_latest_beat (history_row : Type) (row_record : history_row -> bm_record)
    (history_df : list history_row) :
  let s := _build_beat_miss_snapshot history_row row_record history_df in
  (1 <= beat_streak_4q s)%nat -> latest_result s = Beat.
Proof.
  unfold _build_beat_miss_snapshot.
  destruct history_df as [|hd tl]; [cbn; lia|].
  destruct (filter _ (map row_record (hd :: tl))) as [|r rs]; [cbn; lia|].
  remember (last4 (sort_le (λ a b : bm_record, String.leb (quarter_key a) (quarter_key b)) (r :: rs)))
    as recent eqn:Hrec.
  destruct (count_classes (numeric_surprises recent)) as [[b m] i] eqn:Hc.
  cbn. intros H.
  destruct (rev recent) as [|x t] eqn:Hr; simpl in H; [lia|].
  destruct (classify_opt (surprise_pct x)) eqn:Hx; simpl in H; try lia.
  rewrite (last_of_rev _ _ _ _ Hr). exact Hx.
Qed.

Lemma beat_miss_no_history (history_row : Type) (row_record : history_row -> bm_record)
    (history_df : list history_row) :
  let s := _build_beat_miss_snapshot history_row row_record history_df in
  history_surprise_pct_4q s = [] ->
  latest_result s = Insufficient /\ miss_count_4q s = 0%nat /\ beat_streak_4q s = 0%nat.
Proof.
  unfold _build_beat_miss_snapshot.
  destruct history_df as [|hd tl]; [cbn; auto|].
  destruct (filter _ (map row_record (hd :: tl))) as [|r rs]; [cbn; auto|].
  remember (last4 (sort_le (λ a b : bm_record, String.leb (quarter_key a) (quarter_key b)) (r :: rs)))
    as recent eqn:Hrec.
  destruct (count_classes (numeric_surprises recent)) as [[b m] i] eqn:Hc.
  cbn. intros Hh. rewrite Hh in Hc. cbn in Hc. injection Hc as <- <- <-.
  set (dflt := {| quarter := None; actual := None; estimate := None; surprise_pct := None |}).
  assert (Hl : classify_opt (surprise_pct (List.last recent dflt)) = Insufficient).
  { apply classify_opt_non_number.
    destruct (last_in_or_default recent dflt) as [Hin|Heq].
    - exact (numeric_surprises_nil_in recent _ Hh Hin).
    - rewrite Heq. exact I. }
  split; [exact Hl|]. split; [reflexivity|].
  destruct (rev recent) as [|x t] eqn:Hr; [reflexivity|]. cbn.
  rewrite (last_of_rev _ _ _ dflt Hr) in Hl. rewrite Hl. reflexivity.
Qed.

(** X11. In [_build_expectation_guidance_snapshot], a beat streak of at least 3
    of the last 4 quarters makes the overall conclusion positive, or mixed
    when the EPS trend is down. *)
Theorem expectation_streak_positive (history_row : Type) (row_record : history_row -> bm_record)
    (earnings_history_df : list history_row) (eps_found : option (string * eps_trend_row))
    (snap : expectation_snapshot)
  (Hs : _build_expectation_guidance_snapshot row_record earnings_history_df eps_found = Ok snap)
  (Hstreak : (3 <= beat_streak_4q (ex_beat_miss snap))%nat) :
  ex_overall snap =
    match et_signal (ex_eps_trend snap) with
    | SignalDown => OverallMixed
    | _ => OverallPositive
    end.
Proof.
  unfold _build_expectation_guidance_snapshot in Hs.
  destruct (_build_eps_trend_snapshot eps_found) as [et|e]; cbn [res_bind] in Hs; [|discriminate].
  injection Hs as <-. cbn in Hstreak |- *.
  pose proof (beat_miss_streak_latest_beat history_row row_record earnings_history_df) as Hb.
  cbn zeta in Hb.
  unfold _build_expectation_overall_conclusion.
  rewrite Hb by lia.
  destruct (Nat.leb_spec 3 (beat_streak_4q (_build_beat_miss_snapshot history_row row_record earnings_history_df)));
    [|lia].
  destruct (et_signal et); reflexivity.
Qed.

(** X12. In [_build_expectation_guidance_snapshot], with no numeric surprise in
    the earnings history the overall conclusion is never positive or
    cautious: it is mixed when the EPS trend is up or down, and
    insufficient otherwise. *)
Theorem expectation_no_history_not_directional (history_row : Type)
    (row_record : history_row -> bm_record)
    (earnings_history_df : list history_row) (eps_found : option (string * eps_trend_row))
    (snap : expectation_snapshot)
  (Hs : _build_expectation_guidance_snapshot row_record earnings_history_df eps_found = Ok snap)
  (Hh : history_surprise_pct_4q (ex_beat_miss snap) = []) :
  ex_overall snap =
    match et_signal (ex_eps_trend snap) with
    | SignalUp | SignalDown => OverallMixed
    | _ => OverallInsufficient
    end.
Proof.
  unfold _build_expectation_guidance_snapshot in Hs.
  destruct (_build_eps_trend_snapshot eps_found) as [et|e]; cbn [res_bind] in Hs; [|discriminate].
  injection Hs as <-. cbn in Hh |- *.
  destruct (beat_miss_no_history history_row row_record earnings_history_df Hh) as [Hl [Hm Hk]].
  unfold _build_expectation_overall_conclusion.
  rewrite Hl, Hm, Hk.
  destruct (et_signal et); reflexivity.
Qed.

Lemma assoc_get_dict_set (k k' : string) (v : json) (m : dict) :
  assoc_get k (dict_set k' v m) = if String.eqb k k' then Some v else assoc_get k m.
Proof.
  induction m as [|[k0 v0] m IH]; simpl.
  - reflexivity.
  - destruct (String.eqb_spec k' k0) as [->|Hne]; simpl.
    + destruct (String.eqb k k0); reflexivity.
    + rewrite IH. destruct (String.eqb_spec k k'), (String.eqb_spec k k0); congruence.
Qed.

Lemma dict_set_keys_in (k : string) (v : json) (m : dict) :
  k ∈ map fst m -> map fst (dict_set k v m) = map fst m.
Proof.
  induction m as [|[k0 v0] m IH]; simpl; intros H; [apply not_elem_of_nil in H; contradiction|].
  destruct (String.eqb_spec k k0); simpl; [reflexivity|].
  rewrite elem_of_cons in H. destruct H as [H|H]; [congruence|]. rewrite (IH H). reflexivity.
Qed.

Lemma dict_set_keys_notin (k : string) (v : json) (m : dict) :
  k ∉ map fst m -> map fst (dict_set k v m) = map fst m ++ [k].
Proof.
  induction m as [|[k0 v0] m IH]; simpl; intros H; [reflexivity|].
  rewrite elem_of_cons in H.
  destruct (String.eqb_spec k k0); [exfalso; apply H; left; assumption|]. simpl.
  rewrite IH; [reflexivity|]. intros E. apply H. right. exact E.
Qed.

Lemma assoc_get_none_notin (k : string) (m : dict) :
  assoc_get k m = None -> k ∉ map fst m.
Proof.
  induction m as [|[k0 v0] m IH]; simpl; intros H.
  - apply not_elem_of_nil.
  - destruct (String.eqb_spec k k0); [discriminate|].
    rewrite elem_of_cons. intros [E|E]; [congruence|exact (IH H E)].
Qed.

Lemma assoc_get_some_in (k : string) (v : json) (m : dict) :
  assoc_get k m = Some v -> k ∈ map fst m.
Proof.
  induction m as [|[k0 v0] m IH]; simpl; intros H; [discriminate|].
  apply elem_of_cons. destruct (String.eqb_spec k k0); [left; assumption|right; exact (IH H)].
Qed.

Lemma notin_assoc_get_none (k : string) (m : dict) :
  k ∉ map fst m -> assoc_get k m = None.
Proof.
  induction m as [|[k0 v0] m IH]; simpl; intros H; [reflexivity|].
  rewrite elem_of_cons in H.
  destruct (String.eqb_spec k k0); [exfalso; apply H; left; assumption|].
  apply IH. intros E. apply H. right. exact E.
Qed.

(** X13. In [_merge_realtime_snapshot(primary, fallback)] (the fallback keys being
    distinct) a key has its primary value, unless that value is missing or
    [None], and then its fallback value. *)
Theorem merge_realtime_lookup (primary fallback : dict) (k : string)
  (Hfb : NoDup (map fst fallback)) :
  assoc_get k (_merge_realtime_snapshot primary fallback) =
    match assoc_get k primary, assoc_get k fallback with
    | None, Some w | Some JNull, Some w => Some w
    | p, _ => p
    end.
Proof.
  unfold _merge_realtime_snapshot.
  revert primary. induction fallback as [|[k0 v0] fb IH]; intros primary; simpl.
  - destruct (assoc_get k primary) as [[]|]; reflexivity.
  - cbn in Hfb. apply NoDup_cons in Hfb as [Hnotin Hfb].
    rewrite (IH Hfb).
    unfold merge_realtime_step.
    destruct (String.eqb_spec k k0) as [->|Hne].
    + rewrite (notin_assoc_get_none k0 fb Hnotin).
      destruct (assoc_get k0 primary) as [[]|] eqn:Hp;
        rewrite ?assoc_get_dict_set, ?String.eqb_refl, ?Hp; try reflexivity;
        destruct v0; reflexivity.
    + apply String.eqb_neq in Hne.
      destruct (assoc_get k0 primary) as [[]|];
        rewrite ?assoc_get_dict_set, ?Hne; try reflexivity;
        destruct (assoc_get k primary) as [[]|]; reflexivity.
Qed.

(** X14. The dict [_merge_realtime_snapshot] returns has distinct keys: those of
    [primary], in their order, followed by keys of [fallback]. *)
Theorem merge_realtime_keys (primary fallback : dict)
  (Hp : NoDup (map fst primary)) :
  NoDup (map fst (_merge_realtime_snapshot primary fallback)) /\
  exists added, map fst (_merge_realtime_snapshot primary fallback) = map fst primary ++ added /\
    Forall (fun k => k ∈ map fst fallback) added.
Proof.
  unfold _merge_realtime_snapshot.
  revert primary Hp. induction fallback as [|[k0 v0] fb IH]; intros primary Hp; cbn [fold_left].
  - split; [exact Hp|]. exists []. rewrite app_nil_r. split; [reflexivity|constructor].
  - assert (Hstep : NoDup (map fst (merge_realtime_step primary (k0, v0))) /\
                    exists a, map fst (merge_realtime_step primary (k0, v0)) = map fst primary ++ a /\
                      Forall (fun k => k = k0) a).
    { unfold merge_realtime_step.
      destruct (assoc_get k0 primary) as [[]|] eqn:Hg;
        try (split; [exact Hp|exists []; rewrite app_nil_r; split; [reflexivity|constructor]]).
      - rewrite (dict_set_keys_in _ _ _ (assoc_get_some_in _ _ _ Hg)).
        split; [exact Hp|exists []; rewrite app_nil_r; split; [reflexivity|constructor]].
      - rewrite (dict_set_keys_notin _ _ _ (assoc_get_none_notin _ _ Hg)).
      split; [|exists [k0]; split; [reflexivity|repeat constructor]].
      apply NoDup_app. split; [exact Hp|]. split; [|apply NoDup_singleton].
      intros x Hx Hx'. apply list_elem_of_singleton in Hx'. subst x.
      exact (assoc_get_none_notin k0 primary Hg Hx). }
    destruct Hstep as [Hnd [a [Ha Hfa]]].
    destruct (IH _ Hnd) as [Hnd' [b [Hb Hfb]]].
    split; [exact Hnd'|]. exists (a ++ b). rewrite Hb, Ha, app_assoc. split; [reflexivity|].
    apply Forall_app. split.
    + eapply Forall_impl; [exact Hfa|]. intros x ->. cbn. apply elem_of_cons. left. reflexivity.
    + eapply Forall_impl; [exact Hfb|]. intros x Hx. cbn. apply elem_of_cons. right. exact Hx.
Qed.

Lemma split_ws_acc_word (w acc rest : list Z) :
  Forall (fun c => py_isspace_cp c = false) w ->
  split_ws_acc acc (w ++ rest) = split_ws_acc (rev w ++ acc) rest.
Proof.
  revert acc. induction w as [|c w IH]; intros acc Hw; simpl; [reflexivity|].
  inversion Hw as [|? ? Hc Hw']; subst. rewrite Hc, IH by exact Hw'.
  rewrite <- app_assoc. reflexivity.
Qed.

Lemma good_word_rev_ne (w : list Z) : w <> [] -> rev w <> [].
Proof. intros H E. apply H. rewrite <- (rev_involutive w), E. reflexivity. Qed.

Lemma split_join (ws : list (list Z)) :
  Forall good_word ws -> py_split_ws (join_space ws) = ws.
Proof.
  unfold py_split_ws.
  induction ws as [|w r IH]; intros Hws; [reflexivity|].
  inversion Hws as [|? ? [Hne Hw] Hr]; subst.
  pose proof (good_word_rev_ne w Hne) as Hrev.
  destruct r as [|w' r'].
  - simpl. rewrite <- (app_nil_r w), split_ws_acc_word by exact Hw.
    rewrite app_nil_r, app_nil_r. simpl.
    destruct (rev w) eqn:E; [contradiction|]. rewrite <- E, rev_involutive. reflexivity.
  - change (join_space (w :: w' :: r')) with (w ++ 32 :: join_space (w' :: r')).
    rewrite split_ws_acc_word by exact Hw. rewrite app_nil_r. simpl.
    destruct (rev w) eqn:E; [contradiction|]. rewrite <- E, rev_involutive.
    f_equal. exact (IH Hr).
Qed.

Lemma split_ws_acc_good (acc l : list Z) :
  Forall (fun c => py_isspace_cp c = false) acc ->
  Forall good_word (split_ws_acc acc l).
Proof.
  revert acc. induction l as [|c l IH]; intros acc Hacc; simpl.
  - destruct acc as [|a acc']; [constructor|].
    constructor; [|constructor]. split.
    + apply good_word_rev_ne. discriminate.
    + apply Forall_rev. exact Hacc.
  - destruct (py_isspace_cp c) eqn:Hc.
    + destruct acc as [|a acc']; [apply IH; constructor|].
      constructor; [|apply IH; constructor]. split.
      * apply good_word_rev_ne. discriminate.
      * apply Forall_rev. exact Hacc.
    + apply IH. constructor; assumption.
Qed.

Lemma split_ws_good (l : list Z) : Forall good_word (py_split_ws l).
Proof. apply split_ws_acc_good. constructor. Qed.

Lemma lstrip_cp_app (x y : list Z) :
  lstrip_cp (x ++ y) = match lstrip_cp x with [] => lstrip_cp y | _ => lstrip_cp x ++ y end.
Proof.
  induction x as [|c x IH]; simpl; [destruct (lstrip_cp y); reflexivity|].
  destruct (py_isspace_cp c); [exact IH|reflexivity].
Qed.

Lemma rstrip_cp_app (a b : list Z) :
  rstrip_cp (a ++ b) = match rstrip_cp b with [] => rstrip_cp a | _ => a ++ rstrip_cp b end.
Proof.
  unfold rstrip_cp. rewrite rev_app_distr, lstrip_cp_app.
  destruct (lstrip_cp (rev b)) as [|c t] eqn:E; [reflexivity|].
  assert (Hne : rev (c :: t) <> []) by (apply good_word_rev_ne; discriminate).
  destruct (rev (c :: t)) as [|d u] eqn:E2; [contradiction|].
  rewrite <- E2. rewrite rev_app_distr, rev_involutive. reflexivity.
Qed.

Lemma rstrip_cp_nonspace (l : list Z) :
  Forall (fun c => py_isspace_cp c = false) l -> rstrip_cp l = l.
Proof.
  intros H. unfold rstrip_cp. rewrite lstrip_cp_fixed; [apply rev_involutive|].
  intros c t E. assert (Hin : In c (rev l)) by (rewrite E; left; reflexivity).
  apply in_rev in Hin. exact (proj1 (List.Forall_forall _ _) H c Hin).
Qed.

Lemma single_spaced_word (w : list Z) :
  Forall (fun c => py_isspace_cp c = false) w -> single_spaced w.
Proof.
  intros H. destruct w as [|c w'].
  - exists []. split; [constructor|reflexivity].
  - exists [c :: w']. split; [|reflexivity]. constructor; [|constructor]. split; [discriminate|exact H].
Qed.

Lemma join_space_nil (ws : list (list Z)) :
  Forall good_word ws -> join_space ws = [] -> ws = [].
Proof.
  destruct ws as [|w [|w' r]]; intros H E; [reflexivity| |].
  - inversion H as [|? ? [Hne _] _]. simpl in E. contradiction.
  - simpl in E. destruct w; discriminate.
Qed.

Lemma rstrip_take_single_spaced (t : list Z) (n : nat) :
  single_spaced t -> single_spaced (rstrip_cp (firstn n t)).
Proof.
  intros [ws [Hws ->]]. revert n.
  induction ws as [|w r IH]; intros n.
  - simpl. rewrite firstn_nil. exists []. split; [constructor|reflexivity].
  - inversion Hws as [|? ? [Hne Hw] Hr]; subst.
    assert (Hpre : forall k, single_spaced (rstrip_cp (firstn k w))).
    { intros k. rewrite rstrip_cp_nonspace by (apply Forall_take; exact Hw).
      apply single_spaced_word. apply Forall_take. exact Hw. }
    destruct r as [|w' r'].
    + apply Hpre.
    + change (join_space (w :: w' :: r')) with (w ++ 32 :: join_space (w' :: r')).
      rewrite firstn_app.
      destruct (n - List.length w)%nat as [|m] eqn:Em.
      * rewrite firstn_O, app_nil_r. apply Hpre.
      * rewrite firstn_all2 by lia. cbn [firstn].
        destruct (IH Hr m) as [ws' [Hws' Hj]].
        replace (w ++ 32 :: firstn m (join_space (w' :: r')))
          with ((w ++ [32]) ++ firstn m (join_space (w' :: r'))) by (rewrite <- app_assoc; reflexivity).
        rewrite rstrip_cp_app, Hj.
        destruct (join_space ws') eqn:Ej.
        -- rewrite rstrip_cp_app. simpl.
           replace (rstrip_cp [32]) with (@nil Z) by reflexivity.
           rewrite rstrip_cp_nonspace by exact Hw. exists [w]. split; [|reflexivity].
           constructor; [split; assumption|constructor].
        -- exists (w :: ws'). split; [constructor; [split; assumption|exact Hws']|].
           destruct ws' as [|w1 ws1]; [discriminate|].
           change (join_space (w :: w1 :: ws1)) with (w ++ 32 :: join_space (w1 :: ws1)).
           rewrite Ej, <- app_assoc. reflexivity.
Qed.

Lemma join_space_app_word (ws : list (list Z)) (x : list Z) :
  Forall good_word ws -> good_word x ->
  exists ws', Forall good_word ws' /\ join_space ws ++ x = join_space ws'.
Proof.
  intros Hws Hx. induction ws as [|w r IH].
  - exists [x]. split; [constructor; [exact Hx|constructor]|reflexivity].
  - inversion Hws as [|? ? Hw Hr]; subst.
    destruct r as [|w' r'].
    + exists [w ++ x]. split; [|reflexivity]. constructor; [|constructor].
      destruct Hw as [Hne Hw], Hx as [_ Hx]. split.
      * destruct w; [contradiction|discriminate].
      * apply Forall_app. split; assumption.
    + destruct (IH Hr) as [ws'' [Hws'' Hj]].
      exists (w :: ws''). split; [constructor; assumption|].
      destruct ws'' as [|w1 ws1].
      * exfalso. destruct Hx as [Hxne _]. change (join_space []) with (@nil Z) in Hj.
        apply app_eq_nil in Hj. destruct Hj; contradiction.
      * change (join_space (w :: w' :: r')) with (w ++ 32 :: join_space (w' :: r')).
        change (join_space (w :: w1 :: ws1)) with (w ++ 32 :: join_space (w1 :: ws1)).
        rewrite <- Hj, <- app_assoc. reflexivity.
Qed.

Lemma single_spaced_dots (t : list Z) :
  single_spaced t -> single_spaced (t ++ [46; 46; 46]).
Proof.
  intros [ws [Hws ->]].
  destruct (join_space_app_word ws [46; 46; 46] Hws) as [ws' [H1 H2]].
  - split; [discriminate|repeat constructor].
  - exists ws'. split; assumption.
Qed.

Lemma compact_text_shape (value : list Z) (max_len : Z) (Hm : 4 <= max_len) :
  single_spaced (_compact_text value max_len) /\
  Z.of_nat (List.length (_compact_text value max_len)) <= max_len.
Proof.
  unfold _compact_text.
  set (text := join_space (py_split_ws value)).
  assert (Ht : single_spaced text) by (exists (py_split_ws value); split; [apply split_ws_good|reflexivity]).
  destruct (Z.leb_spec (Z.of_nat (List.length text)) max_len) as [Hle|Hgt]; [split; assumption|].
  destruct (Z.leb_spec max_len 3) as [Hle3|_]; [lia|].
  unfold py_take. destruct (Z.leb_spec 0 (max_len - 3)) as [_|]; [|lia].
  split.
  - apply single_spaced_dots, rstrip_take_single_spaced, Ht.
  - rewrite length_app.
    pose proof (rstrip_cp_length (firstn (Z.to_nat (max_len - 3)) text)).
    pose proof (length_firstn (Z.to_nat (max_len - 3)) text). simpl. lia.
Qed.

(** X15. [_compact_text(value, max_len)] is at most [max_len] characters long,
    for every [max_len >= 0]. *)
Theorem compact_text_length (value : list Z) (max_len : Z) (Hm : 0 <= max_len) :
  Z.of_nat (List.length (_compact_text value max_len)) <= max_len.
Proof.
  destruct (Z.leb_spec 4 max_len) as [H4|H4].
  - exact (proj2 (compact_text_shape value max_len H4)).
  - unfold _compact_text.
    set (text := join_space (py_split_ws value)).
    destruct (Z.leb_spec (Z.of_nat (List.length text)) max_len) as [Hle|Hgt]; [exact Hle|].
    destruct (Z.leb_spec max_len 3) as [_|]; [|lia].
    unfold py_take. destruct (Z.leb_spec 0 max_len) as [_|]; [|lia].
    pose proof (length_firstn (Z.to_nat max_len) text). lia.
Qed.

(** X16. For [max_len >= 4] the text [_compact_text] returns is single-spaced
    ([" ".join(r.split()) == r]) and compacting it again returns it
    unchanged. *)
Theorem compact_text_idempotent (value : list Z) (max_len : Z) (Hm : 4 <= max_len) :
  join_space (py_split_ws (_compact_text value max_len)) = _compact_text value max_len /\
  _compact_text (_compact_text value max_len) max_len = _compact_text value max_len.
Proof.
  destruct (compact_text_shape value max_len Hm) as [[ws [Hws Hr]] Hlen].
  assert (Hn : join_space (py_split_ws (_compact_text value max_len)) = _compact_text value max_len)
    by (rewrite Hr, split_join by exact Hws; reflexivity).
  split; [exact Hn|].
  unfold _compact_text at 1. rewrite Hn.
  destruct (Z.leb_spec (Z.of_nat (List.length (_compact_text value max_len))) max_len); [reflexivity|lia].
Qed.






Lemma py_strip_idem (s : string) : py_strip (py_strip s) = py_strip s.
Proof.
  unfold py_strip at 1 2. rewrite list_ascii_of_string_of_list_ascii.
  change (string_of_list_ascii (strip_l (strip_l (list_ascii_of_string s))) =
          string_of_list_ascii (strip_l (list_ascii_of_string s))).
  rewrite strip_l_idem. reflexivity.
Qed.

Lemma fetch_error_text_nonempty_b (e : exn) : String.eqb (fetch_error_text e) "" = false.
Proof. apply String.eqb_neq, fetch_error_text_nonempty. Qed.

(** X19. When every bundle of a successful fetch carries its own symbol and no
    truthy ["error"], [fetch_multiple_stocks] returns its results and
    [_extract_stock_errors] on them lists exactly the symbols whose fetch
    raised, in the order of the symbols, each with its error text. *)
Theorem fetch_errors_reported (py_str_other : json -> string)
    (get_stock_bundle : string -> res dict) (symbols : list string) (completion : list nat)
  (Hnd : NoDup symbols)
  (Hnorm : Forall (fun s => s <> ""%string /\ norm_symbol s = s) symbols)
  (Hok : forall s b, In s symbols -> get_stock_bundle s = Ok b ->
           assoc_get "symbol" b = Some (JStr s) /\
           forall v, assoc_get "error" b = Some v -> py_truthy v = false)
  (Hperm : completion ≡ₚ seq 0 (List.length symbols)) :
  exists results,
    fetch_multiple_stocks get_stock_bundle symbols completion = Ok results /\
    _extract_stock_errors py_str_other (map JObj results) =
      flat_map (fun s => match get_stock_bundle s with
                         | Ok _ => []
                         | Raise e => [(s, fetch_error_text e)]
                         end) symbols.
Proof.
  eexists. split.
  { apply fetch_multiple_stocks_in_order;
      [exact Hnd|intros s b Hin Hb; exact (proj1 (Hok s b Hin Hb))|exact Hperm]. }
  clear Hnd Hperm. unfold _extract_stock_errors.
  induction symbols as [|s rest IH]; [reflexivity|].
  inversion Hnorm as [|? ? [Hne Hs] Hrest]; subst.
  cbn [map flat_map]. rewrite IH; [|exact Hrest|intros s' b Hin Hb; apply (Hok s' b); [right|]; assumption].
  f_equal. unfold unit_result.
  destruct (get_stock_bundle s) as [b|e] eqn:Hb; cbv beta iota zeta.
  - destruct (Hok s b (or_introl eq_refl) Hb) as [_ Herr].
    destruct (assoc_get "error" b) as [v|] eqn:Hv; [|reflexivity].
    unfold py_str_or_empty. rewrite (Herr v eq_refl). reflexivity.
  - assert (Ha : assoc_get "error" (error_bundle s e) = Some (JStr (fetch_error_text e))) by reflexivity.
    assert (Hsy : assoc_get "symbol" (error_bundle s e) = Some (JStr s)) by reflexivity.
    rewrite Ha, Hsy. unfold py_str_or_empty, py_truthy, py_str_json.
    pose proof (fetch_error_text_nonempty_b e) as He.
    assert (Hs' : String.eqb s "" = false) by (apply String.eqb_neq; exact Hne).
    rewrite He, Hs'. cbn [negb].
    replace (py_strip (fetch_error_text e)) with (fetch_error_text e)
      by exact (eq_sym (py_strip_of_strip_utf8 _)).
    rewrite He.
    fold (norm_symbol s). rewrite Hs, Hs'. reflexivity.
Qed.

(** X22. [_normalize_symbols] returns at most 10 distinct symbols, each matching
    [_SYMBOL_PATTERN] and stripped and upper-case; applying it again
    changes nothing. *)
Theorem normalize_symbols_invariants (symbols : list string) :
  NoDup (_normalize_symbols symbols) /\ Forall stored_symbol_ok (_normalize_symbols symbols) /\
  (List.length (_normalize_symbols symbols) <= 10)%nat /\
  _normalize_symbols (_normalize_symbols symbols) = _normalize_symbols symbols.
Proof.
  destruct (normalize_symbols_ok symbols) as [A [B C]].
  split; [exact A|split; [exact B|split; [exact C|apply normalize_symbols_idem]]].
Qed.

(** X23. [_normalize_watchlist_name(name)] is [None] exactly when [name] is all
    whitespace; otherwise it is a non-empty name of at most 40 characters
    with no whitespace at either end, which it maps to itself. *)
Theorem watchlist_name_normalization (name : list Z) :
  (_normalize_watchlist_name name = None <-> Forall (fun c => py_isspace_cp c = true) name) /\
  (forall t, _normalize_watchlist_name name = Some t ->
     t <> [] /\ (List.length t <= 40)%nat /\ stripped t /\ _normalize_watchlist_name t = Some t).
Proof. exact (normalize_watchlist_name_ok name). Qed.

(** X24. [create_watchlist_entry] with at least one symbol surviving
    [_normalize_symbols] (and room for a new id) uses a fresh id, under
    which [get_watchlist_entry] returns the normalized symbols, the
    normalized name (or the default one) and the creation time; the other
    entries are unchanged. *)
Theorem watchlist_create_get_roundtrip (db : watchlist_db) (name : list Z)
    (symbols : list string) (now_name now_ts : list Z)
  (Hsym : _normalize_symbols symbols <> [])
  (Hroom : Z.max (wl_seq db) (max_rowid (wl_rows db)) < SQLITE_MAX_ROWID)
  (Hnow : Forall (fun c => py_isspace_cp c = false) now_name) :
  exists db' id e,
    create_watchlist_entry db name symbols now_name now_ts = Ok (db', Some id) /\
    wl_rows db !! id = None /\
    get_watchlist_entry db' id = Some e /\
    entry_symbols e = _normalize_symbols symbols /\
    entry_name e = default (default_watchlist_name now_name) (_normalize_watchlist_name name) /\
    entry_created_at e = now_ts /\
    (forall id', id' <> id -> get_watchlist_entry db' id' = get_watchlist_entry db id').
Proof. exact (create_watchlist_entry_roundtrip db name symbols now_name now_ts Hsym Hroom Hnow). Qed.

Lemma watchlist_create_get_roundtrip_witness :
  exists db' id e,
    create_watchlist_entry {| wl_rows := ∅; wl_seq := 0 |} [32; 84; 101; 99; 104; 32]
      ["aapl"; " msft"] [50; 48; 50; 54] [49] = Ok (db', Some id) /\
    @lookup _ _ (gmap Z watchlist_row) _ id ∅ = None /\
    get_watchlist_entry db' id = Some e /\
    entry_symbols e = ["AAPL"; "MSFT"] /\
    entry_name e = [84; 101; 99; 104] /\
    entry_created_at e = [49] /\
    (forall id', id' <> id -> get_watchlist_entry db' id' = None).
Proof.
  destruct (watchlist_create_get_roundtrip {| wl_rows := ∅; wl_seq := 0 |} [32; 84; 101; 99; 104; 32]
      ["aapl"; " msft"] [50; 48; 50; 54] [49]) as (db' & id & e & H1 & H2 & H3 & H4 & H5 & H6 & H7).
  - vm_compute. discriminate.
  - vm_compute. reflexivity.
  - repeat constructor.
  - exists db', id, e. split; [exact H1|]. split; [exact H2|]. split; [exact H3|].
    split; [rewrite H4; vm_compute; reflexivity|]. split; [rewrite H5; vm_compute; reflexivity|].
    split; [exact H6|]. intros id' Hne. rewrite (H7 id' Hne). reflexivity.
Defined.

Lemma watchlist_ids_not_reused_witness :
  match create_watchlist_entry
          (fst (delete_watchlist_entry
                  {| wl_rows := {[1 := {| wl_name := [65]; wl_symbols := ["AAPL"];
                                          wl_created_at := [49]; wl_updated_at := [49] |}]};
                     wl_seq := 1 |} 1))
          [] ["msft"] [50] [50] with
  | Ok (_, Some new_id) => 1 < new_id
  | _ => False
  end.
Proof.
  destruct (create_watchlist_entry _ [] ["msft"] [50] [50]) as [[db2 [new_id|]]|e] eqn:Hc;
    [|vm_compute in Hc; discriminate|vm_compute in Hc; discriminate].
  apply (watchlist_ids_not_reused
           {| wl_rows := {[1 := {| wl_name := [65]; wl_symbols := ["AAPL"];
                                   wl_created_at := [49]; wl_updated_at := [49] |}]};
              wl_seq := 1 |} 1
           {| wl_name := [65]; wl_symbols := ["AAPL"]; wl_created_at := [49]; wl_updated_at := [49] |}
           [] ["msft"] [50] [50] db2 new_id).
  - intros k r Hk. cbn [wl_rows wl_seq] in Hk |- *.
    apply lookup_singleton_Some in Hk. destruct Hk as [<- _]. lia.
  - cbn [wl_rows]. apply lookup_singleton_eq.
  - exact Hc.
Defined.

Lemma eps_trend_unchanged_is_flat_witness :
  exists s, _build_eps_trend_snapshot
      (Some ("0q"%string, {| tr_current := Some 1.5%float; tr_d7 := Some 1.4%float; tr_d30 := None;
                             tr_d60 := None; tr_d90 := Some 1.5%float |})) = Ok s /\
    et_change_vs_90d_pct s = Some 0%float /\ et_signal s = SignalFlat /\ et_conclusion s = TrendFlat.
Proof.
  apply (eps_trend_unchanged_is_flat "0q"
           {| tr_current := Some 1.5%float; tr_d7 := Some 1.4%float; tr_d30 := None;
              tr_d60 := None; tr_d90 := Some 1.5%float |} 1.5%float eq_refl eq_refl);
    vm_compute; reflexivity.
Defined.

Lemma eps_trend_90d_priority_witness :
  match _build_eps_trend_snapshot
          (Some ("0q"%string, {| tr_current := Some 3%float; tr_d7 := None; tr_d30 := None;
                                 tr_d60 := None; tr_d90 := Some 2%float |})),
        _build_eps_trend_snapshot
          (Some ("+1q"%string, {| tr_current := Some 3%float; tr_d7 := Some 2.9%float;
                                  tr_d30 := Some 3.5%float; tr_d60 := None; tr_d90 := Some 2%float |}))
  with
  | Ok s1, Ok s2 => et_change_vs_90d_pct s2 = Some 50%float /\ et_signal s2 = et_signal s1 /\
                    et_conclusion s2 = et_conclusion s1
  | _, _ => False
  end.
Proof.
  destruct (_build_eps_trend_snapshot (Some ("0q"%string, _))) as [s1|e] eqn:H1;
    [|vm_compute in H1; discriminate].
  destruct (_build_eps_trend_snapshot (Some ("+1q"%string, _))) as [s2|e] eqn:H2;
    [|vm_compute in H2; discriminate].
  apply (eps_trend_90d_priority "0q" "+1q"
           {| tr_current := Some 3%float; tr_d7 := None; tr_d30 := None;
              tr_d60 := None; tr_d90 := Some 2%float |}
           {| tr_current := Some 3%float; tr_d7 := Some 2.9%float;
              tr_d30 := Some 3.5%float; tr_d60 := None; tr_d90 := Some 2%float |}
           s1 s2 50%float eq_refl eq_refl H1 H2).
  - vm_compute in H1. injection H1 as <-. reflexivity.
  - vm_compute. reflexivity.
Defined.

Lemma expectation_streak_positive_witness :
  match _build_expectation_guidance_snapshot (fun r : bm_record => r)
          [{| quarter := Some "2025Q4"%string; actual := Some 1.2%float; estimate := Some 1.0%float;
              surprise_pct := Some 20%float |};
           {| quarter := Some "2025Q3"%string; actual := Some 1.1%float; estimate := Some 1.0%float;
              surprise_pct := Some 10%float |};
           {| quarter := Some "2025Q2"%string; actual := Some 1.05%float; estimate := Some 1.0%float;
              surprise_pct := Some 5%float |}] None with
  | Ok snap => ex_overall snap = OverallPositive
  | Raise _ => False
  end.
Proof.
  destruct (_build_expectation_guidance_snapshot _ _ None) as [snap|e] eqn:Hs;
    [|vm_compute in Hs; discriminate].
  rewrite (expectation_streak_positive bm_record (fun r => r) _ None snap Hs).
  - vm_compute in Hs. injection Hs as <-. reflexivity.
  - vm_compute in Hs. injection Hs as <-. vm_compute. lia.
Defined.

Lemma expectation_no_history_not_directional_witness :
  match _build_expectation_guidance_snapshot (fun r : bm_record => r) []
          (Some ("0q"%string, {| tr_current := Some 3%float; tr_d7 := None; tr_d30 := None;
                                 tr_d60 := None; tr_d90 := Some 2%float |})) with
  | Ok snap => ex_overall snap = OverallMixed
  | Raise _ => False
  end.
Proof.
  destruct (_build_expectation_guidance_snapshot _ [] _) as [snap|e] eqn:Hs;
    [|vm_compute in Hs; discriminate].
  rewrite (expectation_no_history_not_directional bm_record (fun r => r) [] _ snap Hs).
  - vm_compute in Hs. injection Hs as <-. reflexivity.
  - vm_compute in Hs. injection Hs as <-. reflexivity.
Defined.

Lemma merge_realtime_lookup_witness :
  assoc_get "price" (_merge_realtime_snapshot [("price", JNull); ("name", JStr "Acme")]
                                              [("price", JNum 12.5%float); ("volume", JNum 100%float)])
  = Some (JNum 12.5%float).
Proof.
  rewrite (merge_realtime_lookup [("price", JNull); ("name", JStr "Acme")]
                                 [("price", JNum 12.5%float); ("volume", JNum 100%float)] "price").
  - reflexivity.
  - repeat constructor; rewrite list_elem_of_In; simpl; intuition discriminate.
Defined.

Lemma merge_realtime_keys_witness :
  NoDup (map fst (_merge_realtime_snapshot [("price", JNull); ("name", JStr "Acme")]
                                           [("price", JNum 12.5%float); ("volume", JNum 100%float)])).
Proof.
  apply (merge_realtime_keys [("price", JNull); ("name", JStr "Acme")]
                             [("price", JNum 12.5%float); ("volume", JNum 100%float)]).
  repeat constructor; rewrite list_elem_of_In; simpl; intuition discriminate.
Defined.

Lemma compact_text_length_witness :
  Z.of_nat (List.length (_compact_text [32; 104; 105; 32; 32; 116; 104; 101; 114; 101; 10] 5)) <= 5.
Proof. apply compact_text_length. lia. Defined.

Lemma compact_text_idempotent_witness :
  _compact_text (_compact_text [32; 104; 105; 32; 32; 116; 104; 101; 114; 101; 10] 6) 6
  = _compact_text [32; 104; 105; 32; 32; 116; 104; 101; 114; 101; 10] 6.
Proof. apply compact_text_idempotent. lia. Defined.


Lemma fetch_errors_reported_witness :
  exists results,
    fetch_multiple_stocks
      (fun s => if String.eqb s "BAD" then Raise (mk_exn "ValueError" "boom")
                else Ok [("symbol", JStr s)]) ["NVDA"; "BAD"] [1; 0]%nat = Ok results /\
    _extract_stock_errors (fun _ => ""%string) (map JObj results)
      = [("BAD"%string, fetch_error_text (mk_exn "ValueError" "boom"))].
Proof.
  apply (fetch_errors_reported (fun _ => ""%string)
             (fun s => if String.eqb s "BAD" then Raise (mk_exn "ValueError" "boom")
                       else Ok [("symbol", JStr s)]) ["NVDA"; "BAD"] [1; 0]%nat).
  - repeat constructor; rewrite list_elem_of_In; simpl; intuition discriminate.
  - repeat constructor; discriminate.
  - intros s b Hin. simpl in Hin.
    destruct Hin as [<-|[<-|[]]]; simpl; intros Hb; try discriminate;
      injection Hb as <-; split; [reflexivity|discriminate].
  - exact (Permutation_cons_append [0]%nat 1%nat).
Defined.

